(** * Checkout and stock adjustment of the restaurant application

  A shallow embedding of the two route handlers that change inventory:

  - [StockRoute.PUT], from [app/api/menu/[id]/stock/route.ts];
  - [CheckoutRoute.POST], the checkout handler;

  and of what surrounds them: the read side of the stock route, the stock
  dialog that calls it, and the table routes.

  The relational store is a record of finite maps keyed by primary key,
  whose [Int] columns hold 32-bit integers; the handlers are functions
  from a request and a store to a response and a store, and a
  [prisma.$transaction] callback is a computation in a small error monad
  whose failure discards every write it made. *)

From Stdlib Require Import ZArith QArith Lia.
From stdpp Require Import base option list strings gmap fin_maps pretty.

Open Scope Z_scope.

(** ** JavaScript values that the handlers compute with *)

Module Js.

(** A [number] that arrives in a JSON body.  JSON numerals are finite
    decimals, so a rational holds each of them exactly; nothing in the
    handlers divides, and the columns the results are written to are
    [Int]. *)
Definition number : Type := Q.

Definition of_int (z : Z) : number := inject_Z z.

(** [Number.isInteger], returning the integer. *)
Definition to_Int (q : number) : option Z :=
  if (Qnum q mod Zpos (Qden q) =? 0) then Some (Qnum q / Zpos (Qden q)) else None.

(** The integer part of a number: the fraction is dropped, towards zero. *)
Definition trunc (q : number) : Z := Z.quot (Qnum q) (Zpos (Qden q)).

(** [!x] on a number: only zero is falsy. *)
Definition falsy (q : number) : bool := Qeq_bool q 0.

Definition leb (a b : number) : bool := Qle_bool a b.

Definition ltb (a b : number) : bool :=
  (Qnum a * QDen b <? Qnum b * QDen a).

(** [`${n}`] for an integer. *)
Definition show_int (z : Z) : string := pretty z.

Definition upper_char (c : Ascii.ascii) : Ascii.ascii :=
  let n := Ascii.nat_of_ascii c in
  if ((97 <=? n) && (n <=? 122))%nat then Ascii.ascii_of_nat (n - 32) else c.

Fixpoint toUpperCase (s : string) : string :=
  match s with
  | EmptyString => EmptyString
  | String c r => String (upper_char c) (toUpperCase r)
  end.

(** [s || null] on an optional string: absent and empty are both falsy. *)
Definition truthy_string (o : option string) : option string :=
  match o with
  | Some s => if String.eqb s EmptyString then None else Some s
  | None => None
  end.

(** [s.slice(-n)]: the last [n] characters, or all of [s] when shorter. *)
Definition slice_last (n : nat) (s : string) : string :=
  String.substring (String.length s - n) n s.

#[local] Unset Elimination Schemes.

(** A value of a parsed JSON body.  [JInf] is a numeral beyond the range
    of a double, which [JSON.parse] reads as an infinity. *)
Inductive value :=
| JNull
| JBool (b : bool)
| JNum (q : number)
| JInf (negative : bool)
| JStr (s : string)
| JArr (elements : list value)
| JObj (members : list (string * value)).

#[local] Set Elimination Schemes.

(** What [Number(x)] returns. *)
Inductive coerced :=
| Finite (q : number)
| Infinite (negative : bool)
| NaN.

(** The conversions that belong to the language runtime: the number a text
    denotes, and the text an array or an object turns into, which is a
    [TypeError] with a message when the object cannot be converted. *)
Record Runtime := {
  StringToNumber : string → coerced;
  ToPrimitive : value → string + string
}.

(** [Number(x)], where [None] is [undefined]. *)
Definition Number (rt : Runtime) (x : option value) : string + coerced :=
  match x with
  | None => inr NaN
  | Some JNull => inr (Finite (of_int 0))
  | Some (JBool b) => inr (Finite (of_int (if b then 1 else 0)))
  | Some (JNum q) => inr (Finite q)
  | Some (JInf negative) => inr (Infinite negative)
  | Some (JStr s) => inr (StringToNumber rt s)
  | Some (JArr _ as o) | Some (JObj _ as o) =>
      match ToPrimitive rt o with
      | inl msg => inl msg
      | inr s => inr (StringToNumber rt s)
      end
  end.

End Js.

(** ** The [Int] columns of the schema: 32-bit signed integers *)

Module Int4.

Definition min_int : Z := -2147483648.
Definition max_int : Z := 2147483647.

Definition in_range (z : Z) : bool := (min_int <=? z) && (z <=? max_int).

Record int4 := mk { val : Z; ok : in_range val = true }.

(** The column value for an integer, when the column can hold it. *)
Definition of_Z (z : Z) : option int4 :=
  match decide (in_range z = true) with
  | left H => Some (mk z H)
  | right _ => None
  end.

End Int4.

Coercion Int4.val : Int4.int4 >-> Z.

(** ** The store: the tables of [prisma/schema.prisma] the handlers touch

  Each table is a finite map from the primary key [id] to the other
  columns.  Columns that neither handler reads or writes (category, image,
  timestamps filled by the database) are left out. *)

Module Schema.

Record Table := { table_name : string; table_desc : option string }.

Record Menu := {
  name : string;
  is_available : bool;
  price : Int4.int4;
  stock : Int4.int4
}.

Record OrderItem := {
  menu_id : string;
  item_price : Int4.int4;
  quantity : Int4.int4;
  subtotal : Int4.int4;
  customization : option string
}.

Inductive OrderStatus := os_completed | os_ready | os_cooking | os_pending.
Inductive PaymentStatus := ps_paid | ps_pending.

Record Order := {
  order_id : string;
  customer_id : string;
  table_id : string;
  order_status : OrderStatus;
  payment_status : PaymentStatus;
  total_amount : Int4.int4;
  order_time : Z;
  order_items : list OrderItem
}.

Record Log := { user_id : option string; action : string; message : string }.

Record DB := {
  tables : gmap string Table;
  menus : gmap string Menu;
  orders : list Order;
  logs : list Log
}.

Definition with_menus (f : gmap string Menu → gmap string Menu) (db : DB) : DB :=
  {| tables := tables db; menus := f (menus db);
     orders := orders db; logs := logs db |}.

Definition with_stock (n : Int4.int4) (m : Menu) : Menu :=
  {| name := name m; is_available := is_available m; price := price m; stock := n |}.

(** [log.create]: rows are appended, never rewritten. *)
Definition log_create (l : Log) (db : DB) : DB :=
  {| tables := tables db; menus := menus db;
     orders := orders db; logs := logs db ++ [l] |}.

(** The invariant of the data model: no stock below zero. *)
Definition stock_nonneg (db : DB) : Prop :=
  ∀ id m, menus db !! id = Some m → 0 ≤ stock m.

End Schema.

(** ** Issues reported by a zod schema *)

Module Zod.

Inductive IssueCode := invalid_type | invalid_enum_value | too_small.

(** One entry of [error.errors]: the field it is about, the kind of
    failure, and the message when the schema in the source supplies one. *)
Record Issue := {
  path : string;
  code : IssueCode;
  custom_message : option string
}.

End Zod.

(** ** What a handler can throw, and the transaction monad *)

Module Tx.
Import Schema.

(** Failures raised by the ORM: a value beyond the range of an [Int]
    column, an update of a row that is not there, a reference to a missing
    row. *)
Inductive LibraryFailure :=
| OutOfRange (field : string)
| RecordNotFound (model key : string)
| ForeignKey (field : string).

Inductive Thrown :=
| Error (msg : string)
| ZodError (errors : list Zod.Issue)
| LibraryError (f : LibraryFailure).

(** What the runtime supplies to a request: the id the database gives the
    new order, the clock, the text the libraries put in the [message] of
    their own errors, the decimal text of a number that is not an integer,
    and the conversions of the language. *)
Record Env := {
  cuid : string;
  now : Z;
  zod_message : list Zod.Issue → string;
  library_message : LibraryFailure → string;
  show_fraction : Js.number → string;
  runtime : Js.Runtime
}.

(** [error instanceof Error ? error.message : ...]: everything thrown here
    is an [Error]. *)
Definition error_message (env : Env) (e : Thrown) : string :=
  match e with
  | Error msg => msg
  | ZodError errors => zod_message env errors
  | LibraryError f => library_message env f
  end.

(** [`${n}`] for a number of the request. *)
Definition show_number (env : Env) (q : Js.number) : string :=
  match Js.to_Int q with
  | Some z => Js.show_int z
  | None => show_fraction env q
  end.

Definition M (A : Type) : Type := DB → Thrown + (A * DB).

Definition ret {A} (a : A) : M A := λ db, inr (a, db).
Definition throw {A} (e : Thrown) : M A := λ _, inl e.
Definition bind {A B} (m : M A) (k : A → M B) : M B :=
  λ db, match m db with
        | inl e => inl e
        | inr (a, db') => k a db'
        end.
Definition write (f : DB → DB) : M unit := λ db, inr (tt, f db).
(** Read a row that must be there, throwing [e] when it is not. *)
Definition read {A} (f : DB → option A) (e : Thrown) : M A :=
  λ db, match f db with
        | Some a => inr (a, db)
        | None => inl e
        end.

#[global] Instance M_ret : MRet M := @ret.
#[global] Instance M_bind : MBind M := λ A B k m, bind m k.

(** [for (const x of xs) await body(x)] *)
Fixpoint for_of {A} (xs : list A) (body : A → M unit) : M unit :=
  match xs with
  | [] => ret tt
  | x :: r => body x ;; for_of r body
  end.

(** A number bound for the [Int] column [field]: the query fails when the
    column cannot hold it. *)
Definition to_column (field : string) (z : Z) : M Int4.int4 :=
  match Int4.of_Z z with
  | Some v => ret v
  | None => throw (LibraryError (OutOfRange field))
  end.

(** [prisma.$transaction(cb)]: the callback's writes are kept when it
    returns and dropped when it throws. *)
Definition transaction {A} (cb : M A) (db : DB) : (Thrown + A) * DB :=
  match cb db with
  | inl e => (inl e, db)
  | inr (a, db') => (inr a, db')
  end.

End Tx.


(** ** The stock route: [PUT /api/menu/[id]/stock] *)

Module StockRoute.
Import Schema Tx.

Inductive Action := add | set | subtract.

Definition Action_name (a : Action) : string :=
  match a with add => "add" | set => "set" | subtract => "subtract" end.

(** The JSON body as it arrives: a key may be absent, and what it holds is
    any JSON value. *)
Record StockUpdateBody := {
  action : option Js.value;
  quantity : option Js.value;
  reason : option Js.value
}.

Record StockUpdateRequest := {
  v_action : Action;
  v_quantity : Z;
  v_reason : option string
}.

(** [z.enum(["add", "set", "subtract"], { required_error })]: the message
    of the schema is used for an absent key only. *)
Definition parse_action (raw : option Js.value) : list Zod.Issue + Action :=
  match raw with
  | None =>
      inl [ {| Zod.path := "action"; Zod.code := Zod.invalid_type;
               Zod.custom_message := Some "Action is required (add, set, or subtract)" |} ]
  | Some (Js.JStr s) =>
      if String.eqb s "add" then inr add
      else if String.eqb s "set" then inr set
      else if String.eqb s "subtract" then inr subtract
      else inl [ {| Zod.path := "action"; Zod.code := Zod.invalid_enum_value;
                    Zod.custom_message := None |} ]
  | Some _ =>
      inl [ {| Zod.path := "action"; Zod.code := Zod.invalid_type;
               Zod.custom_message := None |} ]
  end.

(** The checks of [.int().min(0, "Quantity must be 0 or greater")] on the
    number the input was coerced to: NaN is not a number for zod; on a
    number both checks run, in the order they were declared, and an
    infinity is no integer. *)
Definition check_quantity (n : Js.coerced) : list Zod.Issue + Z :=
  let not_int := {| Zod.path := "quantity"; Zod.code := Zod.invalid_type;
                    Zod.custom_message := None |} in
  let too_small := {| Zod.path := "quantity"; Zod.code := Zod.too_small;
                      Zod.custom_message := Some "Quantity must be 0 or greater" |} in
  match n with
  | Js.NaN => inl [ not_int ]
  | Js.Infinite negative => inl (not_int :: if negative then [ too_small ] else [])
  | Js.Finite q =>
      let int_issue :=
        match Js.to_Int q with
        | Some _ => []
        | None => [ not_int ]
        end in
      let min_issue := if Js.ltb q (Js.of_int 0) then [ too_small ] else [] in
      match int_issue ++ min_issue, Js.to_Int q with
      | [], Some z => inr z
      | issues, _ => inl issues
      end
  end.

(** [z.coerce.number().int().min(0, ...)]: the input goes through
    [Number(...)] first, which may throw. *)
Definition parse_quantity (rt : Js.Runtime) (raw : option Js.value)
  : string + (list Zod.Issue + Z) :=
  match Js.Number rt raw with
  | inl msg => inl msg
  | inr n => inr (check_quantity n)
  end.

(** [z.string().optional()] *)
Definition parse_reason (raw : option Js.value) : list Zod.Issue + option string :=
  match raw with
  | None => inr None
  | Some (Js.JStr s) => inr (Some s)
  | Some _ =>
      inl [ {| Zod.path := "reason"; Zod.code := Zod.invalid_type;
               Zod.custom_message := None |} ]
  end.

Definition issues_of {A} (r : list Zod.Issue + A) : list Zod.Issue :=
  match r with inl errs => errs | inr _ => [] end.

(** [stockUpdateSchema.parse(body)]: every key is checked, in the order of
    the schema, and the issues of all of them are thrown together; a
    [TypeError] of the coercion is thrown as it is. *)
Definition stockUpdateSchema_parse (rt : Js.Runtime) (body : StockUpdateBody)
  : Thrown + StockUpdateRequest :=
  match parse_quantity rt (quantity body) with
  | inl msg => inl (Error msg)
  | inr rq =>
      match parse_action (action body), rq, parse_reason (reason body) with
      | inr a, inr q, inr r => inr {| v_action := a; v_quantity := q; v_reason := r |}
      | ra, _, rr => inl (ZodError (issues_of ra ++ issues_of rq ++ issues_of rr))
      end
  end.

(** The [switch (action)] of the handler: new stock and recorded change. *)
Definition compute_stock (a : Action) (current quantity : Z) : Z * Z :=
  match a with
  | add => (current + quantity, quantity)
  | subtract => (Z.max 0 (current - quantity), - Z.min quantity current)
  | set => (quantity, quantity - current)
  end.

Record StockChange := {
  previous_stock : Z;
  new_stock : Z;
  change : Z;
  change_action : Action
}.

Inductive Body :=
| ErrorBody (error : string)
| ValidationBody (error : string) (details : list Zod.Issue)
| SuccessBody (message : string) (menu_item : string * Menu) (stock_change : StockChange).

Record Response := { status : Z; body : Body }.

Definition json (b : Body) (st : Z) : Response := {| status := st; body := b |}.

Definition dquote : string := String (Ascii.ascii_of_nat 34) EmptyString.

Definition stock_log_message (a : Action) (item : Menu) (stockChange newStock : Z)
    (reason : option string) : string :=
  "Stock " +:+ Action_name a +:+ " for " +:+ dquote +:+ name item +:+ dquote +:+ ": "
  +:+ (if 0 <? stockChange then "+" else EmptyString)
  +:+ Js.show_int stockChange
  +:+ " (" +:+ Js.show_int (stock item) +:+ " → " +:+ Js.show_int newStock +:+ ")"
  +:+ match Js.truthy_string reason with
      | Some r => " - Reason: " +:+ r
      | None => EmptyString
      end.

Definition success_message (a : Action) (quantity : Z) : string :=
  "Stock updated successfully. "
  +:+ match a with add => "Added" | subtract => "Subtracted" | set => "Set" end
  +:+ " " +:+ Js.show_int quantity +:+ " items.".

(** [tx.menu.update({ where: { id }, data: { stock } })] *)
Definition menu_update_stock (id : string) (newStock : Z) : M Menu :=
  v ← to_column "stock" newStock;
  m ← read (λ db, menus db !! id) (LibraryError (RecordNotFound "Menu" id));
  let m' := with_stock v m in
  write (with_menus (<[id := m']>));;
  mret m'.

(** The [catch] block: a best-effort [stock_error] row, then 400 for a
    zod error and 500 for anything else. *)
Definition on_error (env : Env) (session : option string) (id : string)
    (e : Thrown) (db : DB) : Response * DB :=
  let db' :=
    match session with
    | Some uid =>
        log_create {| user_id := Some uid; Schema.action := "stock_error";
                      message := "Stock update failed for menu item " +:+ id +:+ ": "
                                 +:+ error_message env e |} db
    | None => db
    end in
  match e with
  | ZodError errors => (json (ValidationBody "Validation failed" errors) 400, db')
  | _ => (json (ErrorBody "Failed to update stock") 500, db')
  end.

Definition PUT (env : Env) (session : option string) (id : string)
    (request : StockUpdateBody) (db : DB) : Response * DB :=
  match session with
  | None => (json (ErrorBody "Authentication required") 401, db)
  | Some uid =>
      match stockUpdateSchema_parse (runtime env) request with
      | inl e => on_error env session id e db
      | inr validatedData =>
          let a := v_action validatedData in
          let quantity := v_quantity validatedData in
          match menus db !! id with
          | None => (json (ErrorBody "Menu item not found") 404, db)
          | Some menuItem =>
              let '(newStock, stockChange) := compute_stock a (stock menuItem) quantity in
              let cb : M Menu :=
                updatedMenuItem ← menu_update_stock id newStock;
                write (log_create
                  {| user_id := Some uid; Schema.action := "stock_updated";
                     message := stock_log_message a menuItem stockChange newStock
                                  (v_reason validatedData) |});;
                mret updatedMenuItem in
              match transaction cb db with
              | (inl e, db') => on_error env session id e db'
              | (inr result, db') =>
                  (json (SuccessBody (success_message a quantity) (id, result)
                           {| previous_stock := stock menuItem; new_stock := newStock;
                              change := stockChange; change_action := a |}) 200, db')
              end
          end
      end
  end.

End StockRoute.

(** ** The checkout route: the [POST] handler that turns a cart into an order *)

Module CheckoutRoute.
Import Schema Tx.

(** A cart line of the request body. *)
Record OrderItem := {
  id : string;
  quantity : Js.number;
  customization : option string
}.

Record CheckoutRequest := { tableId : string; items : list OrderItem }.

(** A row returned by [prisma.menu.findMany]: the key and its columns. *)
Abbreviation MenuItemWithAvailability := (string * Menu)%type (only parsing).

Record StockError := {
  se_menu_id : string;
  se_menu_name : string;
  requested : Js.number;
  available : Z
}.

(** An element of [orderItemsData]. *)
Record OrderItemData := {
  d_menu_id : string;
  d_price : Int4.int4;
  d_quantity : Js.number;
  d_subtotal : Js.number;
  d_customization : option string
}.

Record ItemView := {
  menu_name : string;
  v_quantity : Z;
  v_price : Z;
  v_subtotal : Z;
  v_customization : option string
}.

Record OrderView := {
  v_id : string;
  v_order_number : string;
  v_table : string * Table;
  v_total_amount : Z;
  v_order_status : OrderStatus;
  v_payment_status : PaymentStatus;
  v_order_time : Z;
  v_items : list ItemView
}.

Inductive Body :=
| ErrorBody (error : string)
| InvalidItemsBody (error : string) (invalid_items : list OrderItem)
| MissingItemsBody (error : string) (missing_items : list string)
| StockErrorsBody (error : string) (stock_errors : list StockError)
| SuccessBody (order : OrderView).

Record Response := { status : Z; body : Body }.

Definition json (b : Body) (st : Z) : Response := {| status := st; body := b |}.

(** The predicate of [items.filter(...)] that collects [invalidItems]:
    [!item.id || typeof item.id !== "string" || !item.quantity ||
    item.quantity <= 0]. *)
Definition isInvalid (item : OrderItem) : bool :=
  String.eqb (id item) EmptyString
  || Js.falsy (quantity item)
  || Js.leb (quantity item) (Js.of_int 0).

Definition invalidItems (items : list OrderItem) : list OrderItem :=
  filter (λ item, isInvalid item) items.

(** [items.map((item) => item.id).filter(Boolean)] *)
Definition menuIds (items : list OrderItem) : list string :=
  filter (λ i, i ≠ EmptyString) (id <$> items).

(** [prisma.menu.findMany({ where: { id: { in: menuIds }, is_available: true } })] *)
Definition menu_findMany (ids : list string) (db : DB) : list MenuItemWithAvailability :=
  filter (λ row, row.1 ∈ ids ∧ is_available row.2) (map_to_list (menus db)).

(** [menuItems.find((menu) => menu.id === item.id)] *)
Definition find_menu (menuItems : list MenuItemWithAvailability) (i : string)
  : option MenuItemWithAvailability :=
  List.find (λ menu, bool_decide (menu.1 = i)) menuItems.

Definition missingIds (ids : list string) (menuItems : list MenuItemWithAvailability)
  : list string :=
  let foundIds := fst <$> menuItems in
  filter (λ i, i ∉ foundIds) ids.

(** The loop that fills [stockErrors]. *)
Definition stockErrors (menuItems : list MenuItemWithAvailability)
    (items : list OrderItem) : list StockError :=
  omap (λ item,
          match find_menu menuItems (id item) with
          | Some menuItem =>
              if Js.ltb (Js.of_int (stock menuItem.2)) (quantity item)
              then Some {| se_menu_id := id item;
                           se_menu_name := name menuItem.2;
                           requested := quantity item;
                           available := stock menuItem.2 |}
              else None
          | None => None
          end) items.

(** The callback of [items.map] that builds [orderItemsData]; it throws on
    the first line it cannot price. *)
Definition orderItemData (menuItems : list MenuItemWithAvailability)
    (item : OrderItem) : Thrown + OrderItemData :=
  match find_menu menuItems (id item) with
  | None => inl (Error ("Menu item " +:+ id item +:+ " not found"))
  | Some menuItem =>
      if Js.falsy (quantity item) || Js.leb (quantity item) (Js.of_int 0)
      then inl (Error ("Invalid quantity for item " +:+ id item))
      else
        let subtotal := (Js.of_int (price menuItem.2) * quantity item)%Q in
        inr {| d_menu_id := id item;
               d_price := price menuItem.2;
               d_quantity := quantity item;
               d_subtotal := subtotal;
               d_customization := Js.truthy_string (customization item) |}
  end.

Fixpoint orderItemsData (menuItems : list MenuItemWithAvailability)
    (items : list OrderItem) : Thrown + list OrderItemData :=
  match items with
  | [] => inr []
  | item :: rest =>
      match orderItemData menuItems item with
      | inl e => inl e
      | inr d =>
          match orderItemsData menuItems rest with
          | inl e => inl e
          | inr ds => inr (d :: ds)
          end
      end
  end.

(** [totalAmount]: starts at 0 and receives [+= subtotal] per line. *)
Definition totalAmount (data : list OrderItemData) : Js.number :=
  foldl (λ acc d, (acc + d_subtotal d)%Q) (Js.of_int 0) data.

(** *** The writes of the transaction *)

(** A number of the request bound for an [Int] column: the ORM drops its
    fraction, and the column takes what is left when it is in range. *)
Definition as_Int (field : string) (q : Js.number) : M Int4.int4 :=
  to_column field (Js.trunc q).

Definition order_item_create (d : OrderItemData) : M (Schema.OrderItem * Menu) :=
  q ← as_Int "quantity" (d_quantity d);
  s ← as_Int "subtotal" (d_subtotal d);
  m ← read (λ db, menus db !! d_menu_id d) (LibraryError (ForeignKey "menu_id"));
  mret ({| menu_id := d_menu_id d; item_price := d_price d;
           Schema.quantity := q; subtotal := s;
           Schema.customization := d_customization d |}, m).

Fixpoint order_items_create (data : list OrderItemData)
  : M (list (Schema.OrderItem * Menu)) :=
  match data with
  | [] => mret []
  | d :: rest =>
      r ← order_item_create d;
      rs ← order_items_create rest;
      mret (r :: rs)
  end.

(** The order as [tx.order.create] returns it with its [include]s. *)
Record NewOrder := {
  row : Order;
  table : Table;
  items_with_menu : list (Schema.OrderItem * Menu)
}.

(** [tx.order.create({ data: { ..., order_items: { create } }, include })] *)
Definition order_create (env : Env) (uid tableId : string)
    (total : Js.number) (data : list OrderItemData) : M NewOrder :=
  t ← as_Int "total_amount" total;
  created ← order_items_create data;
  tbl ← read (λ db, tables db !! tableId) (LibraryError (ForeignKey "table_id"));
  let o := {| order_id := cuid env; customer_id := uid;
              table_id := tableId;
              order_status := os_pending; payment_status := ps_pending;
              total_amount := t; order_time := now env;
              order_items := fst <$> created |} in
  write (λ db, {| tables := tables db; menus := menus db;
                  orders := orders db ++ [o]; logs := logs db |});;
  mret {| row := o; table := tbl; items_with_menu := created |}.

(** [tx.menu.update({ where: { id }, data: { stock: { decrement } } })] *)
Definition menu_decrement_stock (i : string) (by_ : Js.number) : M unit :=
  n ← as_Int "stock" by_;
  m ← read (λ db, menus db !! i) (LibraryError (RecordNotFound "Menu" i));
  v ← to_column "stock" (Int4.val (stock m) - Int4.val n);
  write (with_menus (<[i := with_stock v m]>)).

Definition order_number (oid : string) : string :=
  Js.toUpperCase (Js.slice_last 8 oid).

Definition order_created_log (env : Env) (uid : string) (tbl : Table) (o : NewOrder)
    (items : list OrderItem) (total : Js.number) : Log :=
  {| user_id := Some uid; action := "order_created";
     message := "Order " +:+ order_number (order_id (row o))
                +:+ " created for table " +:+ table_name tbl
                +:+ " with " +:+ pretty (length items)
                +:+ " items. Total: " +:+ show_number env total |}.

Definition stock_reduced_log (env : Env) (uid : string) (o : NewOrder)
    (menuItem : MenuItemWithAvailability) (item : OrderItem) : Log :=
  {| user_id := Some uid; action := "stock_updated";
     message := "Stock reduced for " +:+ name menuItem.2 +:+ ": -"
                +:+ show_number env (quantity item)
                +:+ " (Order: " +:+ order_number (order_id (row o)) +:+ ")" |}.

(** The callback given to [prisma.$transaction]. *)
Definition checkout_tx (env : Env) (uid tableId : string) (tbl : Table)
    (items : list OrderItem)
    (menuItems : list MenuItemWithAvailability)
    (data : list OrderItemData) (total : Js.number) : M NewOrder :=
  newOrder ← order_create env uid tableId total data;
  for_of items (λ item, menu_decrement_stock (id item) (quantity item));;
  write (log_create (order_created_log env uid tbl newOrder items total));;
  for_of items (λ item,
    match find_menu menuItems (id item) with
    | Some menuItem => write (log_create (stock_reduced_log env uid newOrder menuItem item))
    | None => mret tt
    end);;
  mret newOrder.

(** The [order] object of the success response. *)
Definition view (o : NewOrder) : OrderView :=
  {| v_id := order_id (row o);
     v_order_number := order_number (order_id (row o));
     v_table := (table_id (row o), table o);
     v_total_amount := total_amount (row o);
     v_order_status := order_status (row o);
     v_payment_status := payment_status (row o);
     v_order_time := order_time (row o);
     v_items := (λ im : Schema.OrderItem * Menu,
                   {| menu_name := name im.2;
                      v_quantity := Schema.quantity im.1;
                      v_price := item_price im.1;
                      v_subtotal := subtotal im.1;
                      v_customization := Schema.customization im.1 |})
                <$> items_with_menu o |}.

(** The [catch] block: a best-effort [order_error] row, then 500. *)
Definition on_error (env : Env) (session : option string) (e : Thrown) (db : DB)
  : Response * DB :=
  let db' :=
    match session with
    | Some uid =>
        log_create {| user_id := Some uid; action := "order_error";
                      message := "Order creation failed: " +:+ error_message env e |} db
    | None => db
    end in
  (json (ErrorBody "Failed to process checkout") 500, db').

(** The handler.  Its reads (the table, the menu rows) see the store
    [seen]; the transaction starts later, on the store [db], which is the
    same store unless another request committed in between. *)
Definition POST_at (env : Env) (session : option string)
    (request : CheckoutRequest) (seen db : DB) : Response * DB :=
  match session with
  | None => (json (ErrorBody "Authentication required") 401, db)
  | Some uid =>
      let tableId := tableId request in
      let items := items request in
      if String.eqb tableId EmptyString || bool_decide (length items = 0%nat) then
        (json (ErrorBody "Table ID and items are required") 400, db)
      else
        match tables seen !! tableId with
        | None => (json (ErrorBody "Invalid table selected") 400, db)
        | Some table =>
            let invalidItems := invalidItems items in
            if bool_decide (0 < length invalidItems)%nat then
              (json (InvalidItemsBody "All items must have valid ID and quantity"
                       invalidItems) 400, db)
            else
              let menuIds := menuIds items in
              if bool_decide (length menuIds = 0%nat) then
                (json (ErrorBody "No valid menu items found") 400, db)
              else
                let menuItems := menu_findMany menuIds seen in
                if bool_decide (length menuItems ≠ length menuIds) then
                  (json (MissingItemsBody
                           "Some menu items are not available or do not exist"
                           (missingIds menuIds menuItems)) 400, db)
                else
                  let stockErrors := stockErrors menuItems items in
                  if bool_decide (0 < length stockErrors)%nat then
                    (json (StockErrorsBody "Insufficient stock for some items"
                             stockErrors) 400, db)
                  else
                    match orderItemsData menuItems items with
                    | inl e => on_error env session e db
                    | inr data =>
                        let total := totalAmount data in
                        match transaction
                                (checkout_tx env uid tableId table items menuItems
                                   data total)
                                db with
                        | (inl e, db') => on_error env session e db'
                        | (inr order, db') =>
                            (json (SuccessBody (view order)) 201, db')
                        end
                    end
        end
  end.

(** One request served with no other writer in between. *)
Definition POST (env : Env) (session : option string)
    (request : CheckoutRequest) (db : DB) : Response * DB :=
  POST_at env session request db db.

End CheckoutRoute.

(** ** Observations and reference outcomes used by the statements *)

Module Observe.
Import Schema Tx.

(** The committed stock of a menu item, when the row exists. *)
Definition stock_of (db : DB) (i : string) : option Z :=
  (λ m, Int4.val (stock m)) <$> menus db !! i.

(** The [stock_change] object of a stock response, when it has one. *)
Definition change_of (r : StockRoute.Response) : option StockRoute.StockChange :=
  match StockRoute.body r with
  | StockRoute.SuccessBody _ _ c => Some c
  | _ => None
  end.


(** The [details] of a stock response. *)
Definition details_of (r : StockRoute.Response) : list Zod.Issue :=
  match StockRoute.body r with
  | StockRoute.ValidationBody _ d => d
  | _ => []
  end.

(** The log rows a handler appended. *)
Definition appended (before after : DB) : list Log :=
  drop (length (logs before)) (logs after).

(** A successful adjustment that stores [new] and records [delta]: the
    response, the updated row and the [stock_updated] row. *)
Definition adjusted (uid i : string) (a : StockRoute.Action) (item : Menu)
    (q : Z) (reason : option string) (new : Int4.int4) (delta : Z) (db : DB)
  : StockRoute.Response * DB :=
  (StockRoute.json
     (StockRoute.SuccessBody (StockRoute.success_message a q)
        (i, with_stock new item)
        {| StockRoute.previous_stock := stock item;
           StockRoute.new_stock := new;
           StockRoute.change := delta;
           StockRoute.change_action := a |}) 200,
   log_create
     {| user_id := Some uid; action := "stock_updated";
        message := StockRoute.stock_log_message a item delta new reason |}
     (with_menus (<[i := with_stock new item]>) db)).

(** The body of a checkout response and the [missing_items] it lists. *)
Definition missing_items_of (r : CheckoutRoute.Response) : option (list string) :=
  match CheckoutRoute.body r with
  | CheckoutRoute.MissingItemsBody _ l => Some l
  | _ => None
  end.

(** Step 2 of the checkout validation, for one line: an id that is not
    empty and a quantity above zero. *)
Definition well_formed (item : CheckoutRoute.OrderItem) : Prop :=
  CheckoutRoute.id item ≠ EmptyString ∧ (0 < CheckoutRoute.quantity item)%Q.

(** Step 3, for one line: the menu item exists and is available. *)
Definition orderable (db : DB) (item : CheckoutRoute.OrderItem) : Prop :=
  ∃ m, menus db !! CheckoutRoute.id item = Some m ∧ is_available m = true.

(** The line asks for more than the stock of the item it references. *)
Definition over_requested (db : DB) (item : CheckoutRoute.OrderItem) : Prop :=
  ∃ m, menus db !! CheckoutRoute.id item = Some m
       ∧ (inject_Z (stock m) < CheckoutRoute.quantity item)%Q.

(** The report owed for the over-requested lines of a cart, read from the
    store: menu id, name, requested quantity, available stock. *)
Definition over_requested_report (db : DB) (items : list CheckoutRoute.OrderItem)
  : list CheckoutRoute.StockError :=
  omap (λ item,
          match menus db !! CheckoutRoute.id item with
          | Some m =>
              if Js.ltb (Js.of_int (stock m)) (CheckoutRoute.quantity item)
              then Some {| CheckoutRoute.se_menu_id := CheckoutRoute.id item;
                           CheckoutRoute.se_menu_name := name m;
                           CheckoutRoute.requested := CheckoutRoute.quantity item;
                           CheckoutRoute.available := stock m |}
              else None
          | None => None
          end) items.

(** The request gets past the session check, the table check, the shape
    check of the lines and the lookup of the menu items, whose count is
    compared with the count of cart lines. *)
Definition reaches_stock_check (session : option string)
    (request : CheckoutRoute.CheckoutRequest) (db : DB) : Prop :=
  is_Some session
  ∧ CheckoutRoute.tableId request ≠ EmptyString
  ∧ is_Some (tables db !! CheckoutRoute.tableId request)
  ∧ CheckoutRoute.items request ≠ []
  ∧ Forall well_formed (CheckoutRoute.items request)
  ∧ Forall (orderable db) (CheckoutRoute.items request)
  ∧ NoDup (CheckoutRoute.id <$> CheckoutRoute.items request).

(** The menu item [i] exists and is available. *)
Definition available_in (db : DB) (i : string) : bool :=
  match menus db !! i with
  | Some m => is_available m
  | None => false
  end.

(** The ids of a cart that are missing from the store or not available. *)
Definition unavailable_ids (db : DB) (items : list CheckoutRoute.OrderItem)
  : list string :=
  filter (λ i, available_in db i = false) (CheckoutRoute.id <$> items).

Definition sum_subtotals (ois : list Schema.OrderItem) : Z :=
  foldr (λ oi acc, subtotal oi + acc) 0 ois.

(** The request's [action] is one of the three the route knows. *)
Definition action_recognized (raw : option Js.value) : Prop :=
  raw = Some (Js.JStr "add") ∨ raw = Some (Js.JStr "subtract")
  ∨ raw = Some (Js.JStr "set").

(** The request's [quantity] is coerced to the integer [z]. *)
Definition coerces_to (rt : Js.Runtime) (raw : option Js.value) (z : Z) : Prop :=
  ∃ q, Js.Number rt raw = inr (Js.Finite q) ∧ Js.to_Int q = Some z.

(** The request's [quantity] is coerced to an integer that is not
    negative. *)
Definition quantity_acceptable (rt : Js.Runtime) (raw : option Js.value) : Prop :=
  ∃ z, coerces_to rt raw z ∧ 0 ≤ z.

(** The request's [reason] is absent or a text. *)
Definition reason_acceptable (raw : option Js.value) : Prop :=
  raw = None ∨ ∃ s, raw = Some (Js.JStr s).

(** The text of an optional [reason] that the schema accepted. *)
Definition reason_text (raw : option Js.value) : option string :=
  match raw with
  | Some (Js.JStr s) => Some s
  | _ => None
  end.

(** The request's [quantity] can be coerced at all. *)
Definition coercible (rt : Js.Runtime) (raw : option Js.value) : Prop :=
  ∃ n, Js.Number rt raw = inr n.

(** The body is one the schema of the stock route accepts. *)
Definition body_accepted (rt : Js.Runtime) (body : StockRoute.StockUpdateBody) : Prop :=
  action_recognized (StockRoute.action body)
  ∧ quantity_acceptable rt (StockRoute.quantity body)
  ∧ reason_acceptable (StockRoute.reason body).

End Observe.

(** ** Sample data for the worked instances *)

Module Sample.
Import Schema Tx.

(** Conversions for the samples.  A text of decimal digits is the number
    it spells, the empty text is zero, any other text is no number. *)
Definition digit (c : Ascii.ascii) : option Z :=
  let n := Ascii.nat_of_ascii c in
  if ((48 <=? n) && (n <=? 57))%nat then Some (Z.of_nat (n - 48)) else None.

Fixpoint digits (acc : Z) (s : string) : option Z :=
  match s with
  | EmptyString => Some acc
  | String c r =>
      match digit c with
      | Some d => digits (10 * acc + d) r
      | None => None
      end
  end.

Definition text_to_number (s : string) : Js.coerced :=
  match digits 0 s with
  | Some z => Js.Finite (Js.of_int z)
  | None => Js.NaN
  end.

(** The decimal text of a number with a short decimal expansion. *)
Fixpoint decimals (fuel : nat) (r d : Z) : string :=
  match fuel with
  | O => EmptyString
  | S k =>
      if r =? 0 then EmptyString
      else pretty (r * 10 / d) +:+ decimals k (r * 10 mod d) d
  end.

Definition show_decimal (q : Js.number) : string :=
  let n := Z.abs (Qnum q) in
  let d := Zpos (Qden q) in
  (if Qnum q <? 0 then "-" else EmptyString)
  +:+ pretty (n / d) +:+ "." +:+ decimals 17 (n mod d) d.

Definition show_number (q : Js.number) : string :=
  match Js.to_Int q with
  | Some z => Js.show_int z
  | None => show_decimal q
  end.

(** The text of an array element in [join]: nothing for [null], the
    elements of a nested array joined by commas; an object that has a
    member named [toString] cannot be converted. *)
Fixpoint element_text (v : Js.value) : string + string :=
  match v with
  | Js.JNull => inr EmptyString
  | Js.JBool b => inr (if b then "true" else "false")
  | Js.JNum q => inr (show_number q)
  | Js.JInf negative => inr (if negative then "-Infinity" else "Infinity")
  | Js.JStr s => inr s
  | Js.JArr elements =>
      (fix join (first : bool) (l : list Js.value) : string + string :=
         match l with
         | [] => inr EmptyString
         | x :: r =>
             match element_text x, join false r with
             | inr t, inr ts => inr ((if first then EmptyString else ",") +:+ t +:+ ts)
             | inl msg, _ | _, inl msg => inl msg
             end
         end) true elements
  | Js.JObj members =>
      if existsb (λ member, String.eqb member.1 "toString") members
      then inl "Cannot convert object to primitive value"
      else inr "[object Object]"
  end.

Definition rt : Js.Runtime :=
  {| Js.StringToNumber := text_to_number; Js.ToPrimitive := element_text |}.

Definition env : Env :=
  {| cuid := "cmb7s0x2k0001abcd9f3kq7zt"; now := 1750344277;
     zod_message := λ _, "invalid input";
     library_message := λ _, "query failed";
     show_fraction := show_decimal;
     runtime := rt |}.

Definition nasi : Menu :=
  {| name := "Nasi Goreng"; is_available := true;
     price := Int4.mk 25000 eq_refl; stock := Int4.mk 10 eq_refl |}.
Definition teh : Menu :=
  {| name := "Es Teh"; is_available := true;
     price := Int4.mk 5000 eq_refl; stock := Int4.mk 2 eq_refl |}.
Definition sate : Menu :=
  {| name := "Sate Ayam"; is_available := true;
     price := Int4.mk 30000 eq_refl; stock := Int4.mk 8 eq_refl |}.

Definition db : DB :=
  {| tables := {[ "t1" := {| table_name := "Meja 1"; table_desc := None |} ]};
     menus := {[ "m1" := nasi; "m2" := teh; "m3" := sate ]};
     orders := []; logs := [] |}.

Definition stock_request (a : string) (q : Js.number) : StockRoute.StockUpdateBody :=
  {| StockRoute.action := Some (Js.JStr a); StockRoute.quantity := Some (Js.JNum q);
     StockRoute.reason := None |}.

Definition line (i : string) (q : Js.number) : CheckoutRoute.OrderItem :=
  {| CheckoutRoute.id := i; CheckoutRoute.quantity := q;
     CheckoutRoute.customization := None |}.

Definition cart (ls : list CheckoutRoute.OrderItem) : CheckoutRoute.CheckoutRequest :=
  {| CheckoutRoute.tableId := "t1"; CheckoutRoute.items := ls |}.

End Sample.

(** ** The stock route, read side: [GET /api/menu/[id]/stock] *)

Module StockRead.

Inductive StockStatus := low | medium | good.

Record StockInfo := {
  id : string;
  name : string;
  category : string;
  current_stock : Z;
  is_available : bool;
  stock_status : StockStatus
}.

Inductive Body :=
| ErrorBody (error : string)
| InfoBody (info : StockInfo).

Record Response := { status : Z; body : Body }.

Definition json (b : Body) (st : Z) : Response := {| status := st; body := b |}.

(** [stock <= 5 ? "low" : stock <= 20 ? "medium" : "good"] *)
Definition stock_status_of (stock : Z) : StockStatus :=
  if stock <=? 5 then low else if stock <=? 20 then medium else good.

(** The handler.  [category_name] is the joined [category.name] of a menu
    item, a column of a table this store does not hold. *)
Definition GET (category_name : string → string) (i : string) (db : Schema.DB)
  : Response :=
  match Schema.menus db !! i with
  | None => json (ErrorBody "Menu item not found") 404
  | Some menuItem =>
      json (InfoBody {| id := i;
                        name := Schema.name menuItem;
                        category := category_name i;
                        current_stock := Schema.stock menuItem;
                        is_available := Schema.is_available menuItem;
                        stock_status := stock_status_of (Schema.stock menuItem) |}) 200
  end.

Definition info_of (r : Response) : option StockInfo :=
  match body r with
  | InfoBody i => Some i
  | ErrorBody _ => None
  end.

End StockRead.

(** ** The stock dialog of the menu page, which calls the stock route *)

Module StockForm.
Import Schema Tx.

(** The values of the form as the resolver receives them. *)
Record StockFormValues := {
  quantity : option Js.value;
  action : option Js.value;
  reason : option Js.value
}.

(** [StockFormData]: what [stockFormSchema] infers. *)
Record StockFormData := {
  d_quantity : Z;
  d_action : StockRoute.Action;
  d_reason : option string
}.

(** The checks of [.int().positive("Quantity must be a positive number")]
    on the number the input was coerced to. *)
Definition check_quantity (n : Js.coerced) : list Zod.Issue + Z :=
  let not_int := {| Zod.path := "quantity"; Zod.code := Zod.invalid_type;
                    Zod.custom_message := None |} in
  let too_small := {| Zod.path := "quantity"; Zod.code := Zod.too_small;
                      Zod.custom_message := Some "Quantity must be a positive number" |} in
  match n with
  | Js.NaN => inl [ not_int ]
  | Js.Infinite negative => inl (not_int :: if negative then [ too_small ] else [])
  | Js.Finite q =>
      let int_issue :=
        match Js.to_Int q with
        | Some _ => []
        | None => [ not_int ]
        end in
      let positive_issue := if Js.leb q (Js.of_int 0) then [ too_small ] else [] in
      match int_issue ++ positive_issue, Js.to_Int q with
      | [], Some z => inr z
      | issues, _ => inl issues
      end
  end.

(** [z.coerce.number().int().positive(...)] *)
Definition parse_quantity (rt : Js.Runtime) (raw : option Js.value)
  : string + (list Zod.Issue + Z) :=
  match Js.Number rt raw with
  | inl msg => inl msg
  | inr n => inr (check_quantity n)
  end.

(** [z.enum(["add", "set", "subtract"], { required_error })] *)
Definition parse_action (raw : option Js.value) : list Zod.Issue + StockRoute.Action :=
  match raw with
  | None =>
      inl [ {| Zod.path := "action"; Zod.code := Zod.invalid_type;
               Zod.custom_message := Some "Please select an action" |} ]
  | Some (Js.JStr s) =>
      if String.eqb s "add" then inr StockRoute.add
      else if String.eqb s "set" then inr StockRoute.set
      else if String.eqb s "subtract" then inr StockRoute.subtract
      else inl [ {| Zod.path := "action"; Zod.code := Zod.invalid_enum_value;
                    Zod.custom_message := None |} ]
  | Some _ =>
      inl [ {| Zod.path := "action"; Zod.code := Zod.invalid_type;
               Zod.custom_message := None |} ]
  end.

(** [stockFormSchema]: the keys in the order of the schema. *)
Definition stockFormSchema_parse (rt : Js.Runtime) (values : StockFormValues)
  : Thrown + StockFormData :=
  match parse_quantity rt (quantity values) with
  | inl msg => inl (Error msg)
  | inr rq =>
      match rq, parse_action (action values), StockRoute.parse_reason (reason values) with
      | inr q, inr a, inr r => inr {| d_quantity := q; d_action := a; d_reason := r |}
      | _, ra, rr =>
          inl (ZodError (StockRoute.issues_of rq ++ StockRoute.issues_of ra
                         ++ StockRoute.issues_of rr))
      end
  end.

(** The body [onStockSubmit] sends: [{ action, quantity, reason:
    data.reason || undefined }]. *)
Definition submit_body (data : StockFormData) : StockRoute.StockUpdateBody :=
  {| StockRoute.action := Some (Js.JStr (StockRoute.Action_name (d_action data)));
     StockRoute.quantity := Some (Js.JNum (Js.of_int (d_quantity data)));
     StockRoute.reason := Js.JStr <$> Js.truthy_string (d_reason data) |}.

(** The line [New stock will be: ...] under the quantity field: shown for
    [add] and [subtract] once the quantity is above zero. *)
Definition preview (a : StockRoute.Action) (stock quantity : Z) : option Z :=
  match a with
  | StockRoute.add => if 0 <? quantity then Some (stock + quantity) else None
  | StockRoute.subtract =>
      if 0 <? quantity then Some (Z.max 0 (stock - quantity)) else None
  | StockRoute.set => None
  end.

End StockForm.

(** ** The table routes: [GET], [PUT], [DELETE /api/tables/[id]] and
    [POST /api/tables] *)

Module TablesRoute.
Import Schema Tx.

(** The two [String] built-ins the handlers call.  What they do to a text
    (length in UTF-16 units, the white space [trim] strips) belongs to the
    runtime, so the handlers take them from it. *)
Record StringOps := {
  length16 : string → nat;
  trim : string → string
}.

(** The JSON body: [{ name, desc }], either key possibly absent. *)
Record TableBody := { name : option string; desc : option string }.

Inductive Body :=
| ErrorBody (error : string)
| RowBody (row : string * Table)
| MessageBody (message : string).

Record Response := { status : Z; body : Body }.

Definition json (b : Body) (st : Z) : Response := {| status := st; body := b |}.

Definition with_tables (f : gmap string Table → gmap string Table) (db : DB) : DB :=
  {| tables := f (tables db); menus := menus db;
     orders := orders db; logs := logs db |}.

(** The validation block that [POST] and [PUT] both start with: the name
    it lets through, or the answer it gives. *)
Definition check_name (ops : StringOps) (request : TableBody) : Response + string :=
  match Js.truthy_string (name request) with
  | None => inl (json (ErrorBody "Name is required and must be a string") 400)
  | Some n =>
      if bool_decide (255 < length16 ops n)%nat
      then inl (json (ErrorBody "Name must be 255 characters or less") 400)
      else inr n
  end.

(** [{ name: name.trim(), desc: desc ? desc.trim() : null }] *)
Definition table_data (ops : StringOps) (n : string) (request : TableBody) : Table :=
  {| table_name := trim ops n;
     table_desc := trim ops <$> Js.truthy_string (desc request) |}.

Definition GET (i : string) (db : DB) : Response :=
  match tables db !! i with
  | None => json (ErrorBody "Table not found") 404
  | Some table => json (RowBody (i, table)) 200
  end.

Definition PUT (ops : StringOps) (i : string) (request : TableBody) (db : DB)
  : Response * DB :=
  match check_name ops request with
  | inl refusal => (refusal, db)
  | inr n =>
      match tables db !! i with
      | None => (json (ErrorBody "Table not found") 404, db)
      | Some existingTable =>
          let table := table_data ops n request in
          (json (RowBody (i, table)) 200, with_tables (<[i := table]>) db)
      end
  end.

(** [prisma.table.delete]: the foreign key of [orders.table_id] is
    [ON DELETE RESTRICT], so a table that an order references stays. *)
Definition table_delete (i : string) : M unit :=
  λ db, if bool_decide (Exists (λ o, table_id o = i) (orders db))
        then inl (LibraryError (ForeignKey "table_id"))
        else inr (tt, with_tables (delete i) db).

Definition DELETE (i : string) (db : DB) : Response * DB :=
  match tables db !! i with
  | None => (json (ErrorBody "Table not found") 404, db)
  | Some existingTable =>
      match table_delete i db with
      | inl _ => (json (ErrorBody "Failed to delete table") 500, db)
      | inr (_, db') => (json (MessageBody "Table deleted successfully") 200, db')
      end
  end.

Inductive CreateFailure := UniqueConstraint (field : string).

(** [prisma.table.create]: the row gets the id the database generates; a
    key that is taken violates the primary key. *)
Definition table_create (env : Env) (table : Table) (db : DB)
  : CreateFailure + ((string * Table) * DB) :=
  match tables db !! cuid env with
  | Some _ => inl (UniqueConstraint "id")
  | None => inr ((cuid env, table), with_tables (<[cuid env := table]>) db)
  end.

Definition POST (ops : StringOps) (env : Env) (request : TableBody) (db : DB)
  : Response * DB :=
  match check_name ops request with
  | inl refusal => (refusal, db)
  | inr n =>
      match table_create env (table_data ops n request) db with
      | inl _ => (json (ErrorBody "Failed to create table") 500, db)
      | inr (row, db') => (json (RowBody row) 201, db')
      end
  end.

End TablesRoute.

(** ** More observations and sample data *)

Module Observe2.
Import Schema Tx.

(** The columns of a menu row that are not the stock. *)
Definition fixed_columns (m : Menu) : string * bool * Int4.int4 :=
  (name m, is_available m, price m).

(** A store that differs from [db] in its tables at most. *)
Definition keeps_the_rest (db after : DB) : Prop :=
  menus after = menus db ∧ orders after = orders db ∧ logs after = logs db.

(** The [order] object of a checkout response, when it has one. *)
Definition order_of (r : CheckoutRoute.Response) : option CheckoutRoute.OrderView :=
  match CheckoutRoute.body r with
  | CheckoutRoute.SuccessBody o => Some o
  | _ => None
  end.

(** The request passes every check of the checkout on the store [seen]. *)
Definition valid_checkout (session : option string)
    (request : CheckoutRoute.CheckoutRequest) (seen : DB) : Prop :=
  Observe.reaches_stock_check session request seen
  ∧ Forall (λ item, ¬ Observe.over_requested seen item) (CheckoutRoute.items request).

(** The amount of a cart line at the price the store [seen] has for it,
    and the amount of a cart, added up line by line as the handler does. *)
Definition line_amount (seen : DB) (item : CheckoutRoute.OrderItem) : Js.number :=
  match menus seen !! CheckoutRoute.id item with
  | Some m => (Js.of_int (price m) * CheckoutRoute.quantity item)%Q
  | None => Js.of_int 0
  end.

Definition cart_total (seen : DB) (items : list CheckoutRoute.OrderItem) : Js.number :=
  foldl (λ acc item, (acc + line_amount seen item)%Q) (Js.of_int 0) items.



Definition is_lower (c : Ascii.ascii) : bool :=
  let n := Ascii.nat_of_ascii c in ((97 <=? n) && (n <=? 122))%nat.

Fixpoint has_lower (s : string) : bool :=
  match s with
  | EmptyString => false
  | String c r => is_lower c || has_lower r
  end.

End Observe2.

Module Sample2.
Import Schema Tx.

(** White space at both ends of an ASCII text: enough for the samples. *)
Definition is_space (c : Ascii.ascii) : bool :=
  let n := Ascii.nat_of_ascii c in
  ((n =? 32) || (9 <=? n) && (n <=? 13))%nat.

Fixpoint trim_left (s : string) : string :=
  match s with
  | String c r => if is_space c then trim_left r else s
  | EmptyString => EmptyString
  end.

Fixpoint rev_string (acc s : string) : string :=
  match s with
  | EmptyString => acc
  | String c r => rev_string (String c acc) r
  end.

Definition ascii_trim (s : string) : string :=
  rev_string EmptyString (trim_left (rev_string EmptyString (trim_left s))).

Definition ops : TablesRoute.StringOps :=
  {| TablesRoute.length16 := String.length; TablesRoute.trim := ascii_trim |}.

Definition category_name (i : string) : string := "Makanan".

(** A costly dish, and the sample store with it on the menu. *)
Definition wagyu : Menu :=
  {| name := "Wagyu"; is_available := true;
     price := Int4.mk 2000000000 eq_refl; stock := Int4.mk 5 eq_refl |}.

Definition db : DB := with_menus (<["m9" := wagyu]>) Sample.db.

Definition form (a : string) (q : Js.number) : StockForm.StockFormValues :=
  {| StockForm.quantity := Some (Js.JNum q); StockForm.action := Some (Js.JStr a);
     StockForm.reason := Some (Js.JStr EmptyString) |}.

Definition order_for (t : string) : Order :=
  {| order_id := "cmb7s0x2k0000abcd9f3kq7aa"; customer_id := "u1"; table_id := t;
     order_status := os_pending; payment_status := ps_pending;
     total_amount := Int4.mk 0 eq_refl; order_time := 0; order_items := [] |}.

End Sample2.

(** ** Facts about numbers *)

Module JsFacts.
Import Js.

Lemma to_Int_Some (q : number) (z : Z) :
  to_Int q = Some z ↔ Qnum q = z * Zpos (Qden q).
Proof.
  unfold to_Int. destruct (Z.eqb_spec (Qnum q mod Z.pos (Qden q)) 0) as [Hm|Hm].
  - pose proof (Z.div_mod (Qnum q) (Z.pos (Qden q)) ltac:(lia)) as Hd.
    split.
    + intros [= <-]. lia.
    + intros Hq. f_equal. rewrite Hq. apply Z.div_mul. lia.
  - split; [discriminate|].
    intros Hq. exfalso. apply Hm. rewrite Hq. apply Z.mod_mul. lia.
Qed.

Lemma to_Int_of_int (z : Z) : to_Int (of_int z) = Some z.
Proof. apply to_Int_Some. simpl. lia. Qed.

Lemma to_Int_Qeq (q : number) (z : Z) : to_Int q = Some z → (q == inject_Z z)%Q.
Proof.
  intros H%to_Int_Some. unfold Qeq. simpl. lia.
Qed.

Lemma ltb_int_r (q : number) (z n : Z) :
  to_Int q = Some z → ltb q (of_int n) = (z <? n).
Proof.
  intros H%to_Int_Some. unfold ltb, of_int. simpl. rewrite H.
  destruct (Z.ltb_spec z n), (Z.ltb_spec (z * Z.pos (Qden q) * 1) (n * Z.pos (Qden q)));
    try reflexivity; nia.
Qed.

Lemma ltb_int_l (q : number) (z n : Z) :
  to_Int q = Some z → ltb (of_int n) q = (n <? z).
Proof.
  intros H%to_Int_Some. unfold ltb, of_int. simpl. rewrite H.
  destruct (Z.ltb_spec n z), (Z.ltb_spec (n * Z.pos (Qden q)) (z * Z.pos (Qden q) * 1));
    try reflexivity; nia.
Qed.

Lemma ltb_Qlt (a b : number) : ltb a b = true ↔ (a < b)%Q.
Proof. unfold ltb, Qlt. apply Z.ltb_lt. Qed.

(** A number is falsy or at most zero exactly when it is not positive. *)
Lemma not_positive (q : number) :
  falsy q || leb q (of_int 0) = false ↔ (0 < q)%Q.
Proof.
  unfold falsy, leb, of_int. change (inject_Z 0) with 0%Q.
  rewrite orb_false_iff.
  split.
  - intros [_ Hle]. apply Qnot_le_lt. intros Hc.
    apply Qle_bool_iff in Hc. congruence.
  - intros Hlt. split.
    + destruct (Qeq_bool q 0) eqn:E; [|reflexivity].
      apply Qeq_bool_eq in E. rewrite E in Hlt. exfalso. revert Hlt. apply Qlt_irrefl.
    + destruct (Qle_bool q 0) eqn:E; [|reflexivity].
      apply Qle_bool_iff in E. exfalso. apply (Qlt_not_le _ _ Hlt E).
Qed.

End JsFacts.

(** ** Facts about the [Int] columns *)

Module Int4Facts.
Import Int4.

Lemma in_range_iff (z : Z) : in_range z = true ↔ min_int ≤ z ≤ max_int.
Proof. unfold in_range. rewrite andb_true_iff, !Z.leb_le. tauto. Qed.

Lemma range (v : int4) : min_int ≤ v ≤ max_int.
Proof. apply in_range_iff, ok. Qed.

Lemma val_inj (a b : int4) : val a = val b → a = b.
Proof.
  destruct a as [x Hx], b as [y Hy]. simpl. intros ->.
  f_equal. apply proof_irrel.
Qed.

Lemma of_Z_cases (z : Z) :
  (∃ v, of_Z z = Some v ∧ val v = z) ∨ (of_Z z = None ∧ in_range z = false).
Proof.
  unfold of_Z. destruct (decide (in_range z = true)) as [H|H].
  - left. by eexists.
  - right. split; [done|]. by destruct (in_range z).
Qed.

Lemma of_Z_Some (z : Z) (v : int4) : of_Z z = Some v ↔ val v = z.
Proof.
  destruct (of_Z_cases z) as [(w & -> & Hw)|[-> Hr]].
  - split.
    + by intros [= <-].
    + intros Hv. f_equal. apply val_inj. congruence.
  - split; [discriminate|].
    intros <-. by rewrite ok in Hr.
Qed.

Lemma of_Z_val (v : int4) : of_Z v = Some v.
Proof. by apply of_Z_Some. Qed.

Lemma of_Z_in_range (z : Z) :
  min_int ≤ z ≤ max_int → ∃ v, of_Z z = Some v ∧ val v = z.
Proof.
  intros Hz%in_range_iff. destruct (of_Z_cases z) as [?|[_ Hr]]; [done|congruence].
Qed.

Lemma of_Z_None (z : Z) : of_Z z = None ↔ ¬ (min_int ≤ z ≤ max_int).
Proof.
  rewrite <- in_range_iff.
  destruct (of_Z_cases z) as [(w & -> & <-)|[-> Hr]].
  - split; [discriminate|]. intros []. apply ok.
  - split; [|done]. intros _. by rewrite Hr.
Qed.

End Int4Facts.

(** ** Facts about the integer part of a number *)

Module TruncFacts.
Import Js.

Lemma trunc_Int (q : number) (z : Z) : to_Int q = Some z → trunc q = z.
Proof.
  intros H%JsFacts.to_Int_Some. unfold trunc. rewrite H.
  apply Z.quot_mul. lia.
Qed.

Lemma trunc_of_int (z : Z) : trunc (of_int z) = z.
Proof. apply trunc_Int, JsFacts.to_Int_of_int. Qed.

(** The integer part of a positive number is not negative and not above
    the number. *)
Lemma trunc_pos (q : number) : (0 < q)%Q → 0 ≤ trunc q ∧ (inject_Z (trunc q) <= q)%Q.
Proof.
  unfold Qlt, Qle, trunc. simpl. intros Hq.
  assert (0 < Qnum q) as Hn by lia.
  rewrite Z.quot_div_nonneg by lia.
  split.
  - apply Z.div_pos; lia.
  - rewrite Z.mul_1_r, Z.mul_comm. apply Z.mul_div_le. lia.
Qed.

(** A number that is not above an integer has its integer part not above
    it either. *)
Lemma trunc_le (q : number) (s : Z) : (0 < q)%Q → ltb (of_int s) q = false → trunc q ≤ s.
Proof.
  intros Hq Hlt. destruct (trunc_pos q Hq) as [H0 Hle].
  unfold ltb, of_int in Hlt. simpl in Hlt. apply Z.ltb_ge in Hlt.
  unfold Qle in Hle. simpl in Hle.
  assert (0 < Z.pos (Qden q)) by lia. nia.
Qed.

End TruncFacts.

(** ** Properties of the stock route *)

Module StockProps.
Import Schema Tx StockRoute Observe.

(** *** What the schema accepts *)

Lemma check_quantity_ok (q : Js.number) (z : Z) :
  Js.to_Int q = Some z → 0 ≤ z → check_quantity (Js.Finite q) = inr z.
Proof.
  intros Hq Hz. unfold check_quantity. rewrite Hq.
  rewrite (JsFacts.ltb_int_r q z 0 Hq).
  destruct (Z.ltb_spec z 0); [lia | reflexivity].
Qed.

Lemma check_quantity_inv (n : Js.coerced) (z : Z) :
  check_quantity n = inr z → ∃ q, n = Js.Finite q ∧ Js.to_Int q = Some z ∧ 0 ≤ z.
Proof.
  unfold check_quantity. destruct n as [q|negative|]; [|discriminate..].
  destruct (Js.to_Int q) as [z'|] eqn:Hq; simpl; [|discriminate].
  rewrite (JsFacts.ltb_int_r q z' 0 Hq).
  destruct (Z.ltb_spec z' 0); simpl; [discriminate|].
  intros [= <-]. eauto.
Qed.

(** Every refusal of the quantity carries at least one issue, and all its
    issues are about the quantity. *)
Lemma check_quantity_issues (n : Js.coerced) (errs : list Zod.Issue) :
  check_quantity n = inl errs →
  errs ≠ [] ∧ Forall (λ e, Zod.path e = "quantity") errs.
Proof.
  unfold check_quantity. destruct n as [q|negative|].
  - destruct (Js.to_Int q) as [z|] eqn:Hq; simpl.
    + destruct (Js.ltb q (Js.of_int 0)); simpl; [|discriminate].
      intros [= <-]. split; [done|]. by repeat constructor.
    + destruct (Js.ltb q (Js.of_int 0)); simpl; intros [= <-];
        (split; [done|]); by repeat constructor.
  - destruct negative; intros [= <-]; (split; [done|]); by repeat constructor.
  - intros [= <-]. split; [done|]. by repeat constructor.
Qed.

Lemma parse_quantity_ok (rt : Js.Runtime) (raw : option Js.value) (z : Z) :
  coerces_to rt raw z → 0 ≤ z → parse_quantity rt raw = inr (inr z).
Proof.
  intros (q & Hn & Hq) Hz. unfold parse_quantity. rewrite Hn.
  by rewrite (check_quantity_ok q z).
Qed.

Lemma parse_quantity_inv (rt : Js.Runtime) (raw : option Js.value) (z : Z) :
  parse_quantity rt raw = inr (inr z) → coerces_to rt raw z ∧ 0 ≤ z.
Proof.
  unfold parse_quantity, coerces_to.
  destruct (Js.Number rt raw) as [msg|n]; [discriminate|].
  intros [= (q & -> & Hq & Hz)%check_quantity_inv]. eauto.
Qed.

Lemma parse_action_inv (raw : option Js.value) (a : Action) :
  parse_action raw = inr a → raw = Some (Js.JStr (Action_name a)).
Proof.
  unfold parse_action. destruct raw as [[| | | |s| |]|]; try discriminate.
  destruct (String.eqb_spec s "add") as [->|_]; [by intros [= <-]|].
  destruct (String.eqb_spec s "set") as [->|_]; [by intros [= <-]|].
  destruct (String.eqb_spec s "subtract") as [->|_]; [by intros [= <-]|].
  discriminate.
Qed.

Lemma parse_action_name (a : Action) :
  parse_action (Some (Js.JStr (Action_name a))) = inr a.
Proof. by destruct a. Qed.

Lemma parse_reason_ok (raw : option Js.value) :
  reason_acceptable raw → parse_reason raw = inr (reason_text raw).
Proof. by intros [-> | [s ->]]. Qed.

Lemma parse_reason_inv (raw : option Js.value) (r : option string) :
  parse_reason raw = inr r → reason_acceptable raw ∧ r = reason_text raw.
Proof.
  unfold parse_reason, reason_acceptable.
  destruct raw as [[| | | |s| |]|]; try discriminate; intros [= <-]; eauto.
Qed.

Lemma parse_ok (rt : Js.Runtime) (body : StockUpdateBody) (a : Action) (z : Z) :
  action body = Some (Js.JStr (Action_name a)) →
  coerces_to rt (quantity body) z → 0 ≤ z →
  reason_acceptable (reason body) →
  stockUpdateSchema_parse rt body
  = inr {| v_action := a; v_quantity := z; v_reason := reason_text (reason body) |}.
Proof.
  intros Ha Hq Hpos Hr. unfold stockUpdateSchema_parse.
  by rewrite Ha, (parse_quantity_ok rt _ z), parse_action_name, parse_reason_ok.
Qed.

Lemma parse_inv (rt : Js.Runtime) (body : StockUpdateBody) (v : StockUpdateRequest) :
  stockUpdateSchema_parse rt body = inr v →
  action body = Some (Js.JStr (Action_name (v_action v)))
  ∧ coerces_to rt (quantity body) (v_quantity v)
  ∧ 0 ≤ v_quantity v
  ∧ reason_acceptable (reason body)
  ∧ v_reason v = reason_text (reason body).
Proof.
  unfold stockUpdateSchema_parse.
  destruct (parse_quantity rt (quantity body)) as [msg|[errs|z]] eqn:Hq;
    [discriminate|..];
    destruct (parse_action (action body)) as [ea|a] eqn:Ha; try discriminate;
    destruct (parse_reason (reason body)) as [er|r] eqn:Hr; try discriminate.
  intros [= <-]. simpl.
  apply parse_action_inv in Ha. apply parse_quantity_inv in Hq as [Hq Hz].
  apply parse_reason_inv in Hr as [Hr ->]. done.
Qed.

(** *** The three ways an authenticated request for an existing item ends *)

Lemma PUT_refused (env : Env) (uid i : string) (body : StockUpdateBody)
    (e : Thrown) (db : DB) :
  stockUpdateSchema_parse (runtime env) body = inl e →
  PUT env (Some uid) i body db = on_error env (Some uid) i e db.
Proof. intros Hp. unfold PUT. by rewrite Hp. Qed.

(** A well-formed request for an existing item goes through the
    transaction and commits what [compute_stock] returned, when the
    column can hold it. *)
Lemma PUT_valid (env : Env) (uid i : string) (body : StockUpdateBody)
    (v : StockUpdateRequest) (item : Menu) (new : Int4.int4) (db : DB) :
  stockUpdateSchema_parse (runtime env) body = inr v → menus db !! i = Some item →
  Int4.val new = (compute_stock (v_action v) (stock item) (v_quantity v)).1 →
  PUT env (Some uid) i body db
  = adjusted uid i (v_action v) item (v_quantity v) (v_reason v) new
      (compute_stock (v_action v) (stock item) (v_quantity v)).2 db.
Proof.
  intros Hp Hi Hnew. unfold PUT. rewrite Hp, Hi.
  destruct (compute_stock _ _ _) as [n delta] eqn:Hc. simpl in Hnew. subst n.
  unfold transaction, menu_update_stock, to_column, mbind, M_bind, bind, read, write,
    mret, M_ret, ret.
  rewrite Int4Facts.of_Z_val, Hi. reflexivity.
Qed.

(** When the column cannot hold the new stock the update fails, and the
    route answers 500 after its [stock_error] row. *)
Lemma PUT_out_of_range (env : Env) (uid i : string) (body : StockUpdateBody)
    (v : StockUpdateRequest) (item : Menu) (db : DB) :
  stockUpdateSchema_parse (runtime env) body = inr v → menus db !! i = Some item →
  Int4.of_Z (compute_stock (v_action v) (stock item) (v_quantity v)).1 = None →
  PUT env (Some uid) i body db
  = on_error env (Some uid) i (LibraryError (OutOfRange "stock")) db.
Proof.
  intros Hp Hi Hnew. unfold PUT. rewrite Hp, Hi.
  destruct (compute_stock _ _ _) as [n delta] eqn:Hc. simpl in Hnew.
  unfold transaction, menu_update_stock, to_column, mbind, M_bind, bind, throw.
  by rewrite Hnew.
Qed.

Lemma stock_of_adjusted uid i a item q reason new delta db :
  stock_of (adjusted uid i a item q reason new delta db).2 i = Some (Int4.val new).
Proof.
  unfold stock_of, adjusted. simpl. by rewrite lookup_insert_eq.
Qed.

(** C4: a [subtract] of [q >= 0] on an item with stock [s] stores
    [max 0 (s - q)] and records the delta [- min q s], in the response and
    in the log row alike; when [q > s] the new stock is [0] and the delta
    is [- s], not [- q]. *)
Theorem subtract_clamps_at_zero (env : Env) (uid i : string)
    (body : StockUpdateBody) (item : Menu) (q : Z) (db : DB) :
  menus db !! i = Some item →
  action body = Some (Js.JStr "subtract") →
  coerces_to (runtime env) (quantity body) q → 0 ≤ q →
  reason_acceptable (reason body) →
  ∃ (new : Int4.int4) (delta : Z),
    PUT env (Some uid) i body db
    = adjusted uid i subtract item q (reason_text (reason body)) new delta db
    ∧ stock_of (PUT env (Some uid) i body db).2 i = Some (Int4.val new)
    ∧ Int4.val new = Z.max 0 (stock item - q)
    ∧ delta = - Z.min q (stock item)
    ∧ (stock item < q → Int4.val new = 0 ∧ delta = - stock item).
Proof.
  intros Hi Ha Hq Hpos Hr.
  pose proof (parse_ok (runtime env) body subtract q Ha Hq Hpos Hr) as Hp.
  pose proof (Int4Facts.range (stock item)) as Hs.
  destruct (Int4Facts.of_Z_in_range (Z.max 0 (stock item - q))) as (new & _ & Hnew);
    [unfold Int4.min_int, Int4.max_int in *; lia|].
  exists new, (- Z.min q (stock item)).
  rewrite (PUT_valid env uid i body _ item new db Hp Hi Hnew).
  split; [reflexivity|]. split; [apply stock_of_adjusted|].
  repeat split; lia.
Qed.

Lemma subtract_clamps_at_zero_witness :
  ∃ (new : Int4.int4) (delta : Z),
    PUT Sample.env (Some "admin") "m3" (Sample.stock_request "subtract" (20 # 1)) Sample.db
    = adjusted "admin" "m3" subtract Sample.sate 20 None new delta Sample.db
    ∧ stock_of (PUT Sample.env (Some "admin") "m3"
                  (Sample.stock_request "subtract" (20 # 1)) Sample.db).2 "m3"
      = Some (Int4.val new)
    ∧ Int4.val new = Z.max 0 (stock Sample.sate - 20)
    ∧ delta = - Z.min 20 (stock Sample.sate)
    ∧ (stock Sample.sate < 20 → Int4.val new = 0 ∧ delta = - stock Sample.sate).
Proof.
  apply (subtract_clamps_at_zero Sample.env "admin" "m3"
           (Sample.stock_request "subtract" (20 # 1)) Sample.sate 20 Sample.db).
  - vm_compute; reflexivity.
  - reflexivity.
  - exists (20 # 1). split; reflexivity.
  - lia.
  - left; reflexivity.
Defined.

(** C5, as amended: a [set] to [q] between [0] and the largest value of
    the [Int] column stores exactly [q], whatever the stock was, and
    records the delta [q - s]. *)
Theorem set_overwrites_stock (env : Env) (uid i : string)
    (body : StockUpdateBody) (item : Menu) (q : Z) (db : DB) :
  menus db !! i = Some item →
  action body = Some (Js.JStr "set") →
  coerces_to (runtime env) (quantity body) q → 0 ≤ q ≤ Int4.max_int →
  reason_acceptable (reason body) →
  (∃ new : Int4.int4,
     Int4.val new = q
     ∧ PUT env (Some uid) i body db
       = adjusted uid i set item q (reason_text (reason body)) new (q - stock item) db)
  ∧ stock_of (PUT env (Some uid) i body db).2 i = Some q
  ∧ change_of (PUT env (Some uid) i body db).1
    = Some {| previous_stock := stock item; new_stock := q;
              change := q - stock item; change_action := set |}.
Proof.
  intros Hi Ha Hq Hpos Hr.
  pose proof (parse_ok (runtime env) body set q Ha Hq (proj1 Hpos) Hr) as Hp.
  destruct (Int4Facts.of_Z_in_range q) as (new & _ & Hnew);
    [unfold Int4.min_int; lia|].
  rewrite (PUT_valid env uid i body _ item new db Hp Hi Hnew).
  split; [by exists new|].
  split; [by rewrite stock_of_adjusted, Hnew|].
  unfold change_of, adjusted. simpl. by rewrite Hnew.
Qed.

Lemma set_overwrites_stock_witness :
  (∃ new : Int4.int4,
     Int4.val new = 4
     ∧ PUT Sample.env (Some "admin") "m1" (Sample.stock_request "set" (4 # 1)) Sample.db
       = adjusted "admin" "m1" set Sample.nasi 4 None new (4 - stock Sample.nasi) Sample.db)
  ∧ stock_of (PUT Sample.env (Some "admin") "m1"
                (Sample.stock_request "set" (4 # 1)) Sample.db).2 "m1" = Some 4
  ∧ change_of (PUT Sample.env (Some "admin") "m1"
                 (Sample.stock_request "set" (4 # 1)) Sample.db).1
    = Some {| previous_stock := stock Sample.nasi; new_stock := 4;
              change := 4 - stock Sample.nasi; change_action := set |}.
Proof.
  apply (set_overwrites_stock Sample.env "admin" "m1"
           (Sample.stock_request "set" (4 # 1)) Sample.nasi 4 Sample.db).
  - vm_compute; reflexivity.
  - reflexivity.
  - exists (4 # 1). split; reflexivity.
  - unfold Int4.max_int; lia.
  - left; reflexivity.
Defined.

(** C5, as the claim has it, fails above the range of the column: a [set]
    to [2147483648] passes the schema, the update is refused, the answer
    is 500 and the stock stays at [10]. *)
Lemma set_beyond_the_column_is_refused :
  let r := PUT Sample.env (Some "admin") "m1"
             (Sample.stock_request "set" (2147483648 # 1)) Sample.db in
  quantity_acceptable Sample.rt (Some (Js.JNum (2147483648 # 1)))
  ∧ status r.1 = 500
  ∧ change_of r.1 = None
  ∧ stock_of r.2 "m1" = Some 10
  ∧ stock_of r.2 "m1" ≠ Some 2147483648.
Proof.
  split; [exists 2147483648; split; [by exists (2147483648 # 1)|lia]|].
  vm_compute. by repeat split.
Qed.

(** C8, as amended: the same [set] request, to [q] between [0] and the
    largest value of the [Int] column, issued twice in a row leaves the
    stock at [q] after the first call and after the second, and the second
    call records a delta of [0]. *)
Theorem set_twice_is_idempotent (env1 env2 : Env) (uid i : string)
    (body : StockUpdateBody) (item : Menu) (q : Z) (db : DB) :
  menus db !! i = Some item →
  action body = Some (Js.JStr "set") →
  coerces_to (runtime env1) (quantity body) q →
  coerces_to (runtime env2) (quantity body) q →
  0 ≤ q ≤ Int4.max_int →
  reason_acceptable (reason body) →
  let first := PUT env1 (Some uid) i body db in
  let second := PUT env2 (Some uid) i body first.2 in
  stock_of first.2 i = Some q
  ∧ stock_of second.2 i = Some q
  ∧ change_of second.1
    = Some {| previous_stock := q; new_stock := q; change := 0; change_action := set |}.
Proof.
  intros Hi Ha Hq1 Hq2 Hpos Hr first second.
  pose proof (parse_ok (runtime env1) body set q Ha Hq1 (proj1 Hpos) Hr) as Hp1.
  pose proof (parse_ok (runtime env2) body set q Ha Hq2 (proj1 Hpos) Hr) as Hp2.
  destruct (Int4Facts.of_Z_in_range q) as (new & _ & Hnew);
    [unfold Int4.min_int; lia|].
  assert (Hfirst : first = adjusted uid i set item q (reason_text (reason body))
                             new (q - stock item) db)
    by apply (PUT_valid env1 uid i body _ item new db Hp1 Hi Hnew).
  assert (Hi' : menus first.2 !! i = Some (with_stock new item)).
  { rewrite Hfirst. unfold adjusted. simpl. apply lookup_insert_eq. }
  pose proof (PUT_valid env2 uid i body _ (with_stock new item) new first.2 Hp2 Hi' Hnew)
    as Hsecond.
  fold second in Hsecond. simpl in Hsecond.
  split; [by rewrite Hfirst, stock_of_adjusted, Hnew|].
  split; [by rewrite Hsecond, stock_of_adjusted, Hnew|].
  rewrite Hsecond. unfold change_of, adjusted. simpl. rewrite Hnew.
  do 3 f_equal. lia.
Qed.

Lemma set_twice_is_idempotent_witness :
  let first := PUT Sample.env (Some "admin") "m2" (Sample.stock_request "set" (7 # 1)) Sample.db in
  let second := PUT Sample.env (Some "admin") "m2" (Sample.stock_request "set" (7 # 1)) first.2 in
  stock_of first.2 "m2" = Some 7
  ∧ stock_of second.2 "m2" = Some 7
  ∧ change_of second.1
    = Some {| previous_stock := 7; new_stock := 7; change := 0; change_action := set |}.
Proof.
  apply (set_twice_is_idempotent Sample.env Sample.env "admin" "m2"
           (Sample.stock_request "set" (7 # 1)) Sample.teh 7 Sample.db).
  - vm_compute; reflexivity.
  - reflexivity.
  - exists (7 # 1). split; reflexivity.
  - exists (7 # 1). split; reflexivity.
  - unfold Int4.max_int; lia.
  - left; reflexivity.
Defined.

(** C8, as the claim has it, fails above the range of the column: the
    same [set] to [2147483648] issued twice is refused twice, and the
    stock is [2], not the quantity, after the first call and after the
    second. *)
Lemma set_twice_beyond_the_column :
  let request := Sample.stock_request "set" (2147483648 # 1) in
  let first := PUT Sample.env (Some "admin") "m2" request Sample.db in
  let second := PUT Sample.env (Some "admin") "m2" request first.2 in
  status first.1 = 500 ∧ status second.1 = 500
  ∧ stock_of first.2 "m2" = Some 2
  ∧ stock_of second.2 "m2" = Some 2
  ∧ stock_of first.2 "m2" ≠ Some 2147483648
  ∧ change_of second.1 = None.
Proof. vm_compute. by repeat split. Qed.



(** *** Rejected requests *)

Lemma parse_action_cases (raw : option Js.value) :
  (∃ a, parse_action raw = inr a ∧ action_recognized raw)
  ∨ (∃ e, parse_action raw = inl [e] ∧ Zod.path e = "action"
          ∧ ¬ action_recognized raw).
Proof.
  destruct (parse_action raw) as [errs|a] eqn:Hp.
  - right. unfold parse_action in Hp.
    assert (Hn : ¬ action_recognized raw).
    { intros Hr. unfold action_recognized in Hr.
      destruct Hr as [-> | [-> | ->]]; discriminate Hp. }
    destruct raw as [[| | | |s| |]|]; try (injection Hp as <-; eauto).
    destruct (String.eqb s "add"); [discriminate|].
    destruct (String.eqb s "set"); [discriminate|].
    destruct (String.eqb s "subtract"); [discriminate|].
    injection Hp as <-. eauto.
  - left. exists a. split; [done|].
    apply parse_action_inv in Hp as ->. unfold action_recognized.
    destruct a; auto.
Qed.

Lemma check_quantity_cases (rt : Js.Runtime) (raw : option Js.value) (n : Js.coerced) :
  Js.Number rt raw = inr n →
  (∃ z, check_quantity n = inr z ∧ quantity_acceptable rt raw)
  ∨ (∃ e es, check_quantity n = inl (e :: es)
             ∧ Forall (λ x, Zod.path x = "quantity") (e :: es)
             ∧ ¬ quantity_acceptable rt raw).
Proof.
  intros Hn. destruct (check_quantity n) as [errs|z] eqn:Hc.
  - right. destruct (check_quantity_issues n errs Hc) as [Hne Hall].
    destruct errs as [|e es]; [done|]. exists e, es. split; [done|]. split; [done|].
    intros (z & (q & Hq & Hz) & Hpos). rewrite Hn in Hq. injection Hq as ->.
    by rewrite (check_quantity_ok q z) in Hc.
  - left. exists z. split; [done|].
    apply check_quantity_inv in Hc as (q & -> & Hq & Hz). exists z. split; [|done].
    by exists q.
Qed.

Lemma parse_reason_cases (raw : option Js.value) :
  (∃ r, parse_reason raw = inr r ∧ reason_acceptable raw)
  ∨ (∃ e, parse_reason raw = inl [e] ∧ Zod.path e = "reason"
          ∧ ¬ reason_acceptable raw).
Proof.
  unfold parse_reason, reason_acceptable.
  destruct raw as [[| | | |s| |]|];
    first [ left; eexists; split; [reflexivity|]; by eauto
          | right; eexists; split; [reflexivity|]; split; [reflexivity|];
            intros [H|[s' H]]; discriminate H ].
Qed.

(** A body whose quantity can be coerced and which zod refuses: every
    refused field has an entry in the issues. *)
Lemma parse_rejects (rt : Js.Runtime) (body : StockUpdateBody) :
  coercible rt (quantity body) → ¬ body_accepted rt body →
  ∃ errs, stockUpdateSchema_parse rt body = inl (ZodError errs)
          ∧ (¬ action_recognized (action body) → ∃ e, e ∈ errs ∧ Zod.path e = "action")
          ∧ (¬ quantity_acceptable rt (quantity body) →
             ∃ e, e ∈ errs ∧ Zod.path e = "quantity")
          ∧ (¬ reason_acceptable (reason body) →
             ∃ e, e ∈ errs ∧ Zod.path e = "reason").
Proof.
  intros [n Hn] Hbad. unfold stockUpdateSchema_parse, parse_quantity. rewrite Hn.
  unfold body_accepted in Hbad.
  destruct (parse_action_cases (action body)) as [(a & -> & Ha)|(e & -> & He & Ha)];
    destruct (check_quantity_cases rt (quantity body) n Hn)
      as [(z & -> & Hq)|(e' & es & -> & Hes & Hq)];
    destruct (parse_reason_cases (reason body)) as [(r & -> & Hr)|(e'' & -> & He'' & Hr)];
    simpl; try tauto;
    (eexists; split; [reflexivity|]);
    (split; [first [ tauto | intros _; exists e; split; [set_solver|done] ]|]);
    (split; [first [ tauto
                   | intros _; exists e'; split; [set_solver|by inversion Hes] ]|]);
    first [ tauto | intros _; exists e''; split; [set_solver|done] ].
Qed.

(** A body whose quantity cannot be coerced: the parse throws what the
    coercion threw. *)
Lemma parse_throws (rt : Js.Runtime) (body : StockUpdateBody) :
  ¬ coercible rt (quantity body) →
  ∃ msg, stockUpdateSchema_parse rt body = inl (Error msg).
Proof.
  intros Hn. unfold stockUpdateSchema_parse, parse_quantity.
  destruct (Js.Number rt (quantity body)) as [msg|n] eqn:Hc; [eauto|].
  exfalso. apply Hn. by exists n.
Qed.

Lemma accepted_parses (rt : Js.Runtime) (body : StockUpdateBody) :
  body_accepted rt body → ∃ v, stockUpdateSchema_parse rt body = inr v.
Proof.
  intros (Ha & (z & Hq & Hz) & Hr).
  assert (∃ a, action body = Some (Js.JStr (Action_name a))) as [a Ha'].
  { destruct Ha as [-> | [-> | ->]]; [by exists add|by exists subtract|by exists set]. }
  eexists. by apply (parse_ok rt body a z).
Qed.

Lemma parsed_accepted (rt : Js.Runtime) (body : StockUpdateBody) (v : StockUpdateRequest) :
  stockUpdateSchema_parse rt body = inr v → body_accepted rt body.
Proof.
  intros (Ha & Hq & Hz & Hr & _)%parse_inv. split; [|split; [|done]].
  - rewrite Ha. unfold action_recognized. destruct (v_action v); auto.
  - by exists (v_quantity v).
Qed.

Lemma appended_log_create (l : Log) (db : DB) : appended db (log_create l db) = [l].
Proof.
  unfold appended, log_create. simpl. by rewrite drop_app_length.
Qed.

Lemma appended_same (db : DB) : appended db db = [].
Proof. unfold appended. by rewrite drop_all. Qed.

(** C7, as amended: the body is validated before the item is looked up.
    An authenticated stock update whose body zod refuses (action not one
    of the three; quantity that [Number] turns into something other than
    an integer that is not negative; reason that is not a text) is
    answered 400 [Validation failed] with an issue for every refused
    field; a quantity that cannot be turned into a number at all is
    answered 500; an accepted body for a missing item is answered 404.  In
    all these cases no stock change and no [stock_updated] row is
    committed. *)
Theorem stock_update_error_cases (env : Env) (uid i : string)
    (body : StockUpdateBody) (db : DB) :
  menus db !! i = None ∨ ¬ body_accepted (runtime env) body →
  let r := PUT env (Some uid) i body db in
  (body_accepted (runtime env) body →
     r = (json (ErrorBody "Menu item not found") 404, db))
  ∧ (coercible (runtime env) (quantity body) → ¬ body_accepted (runtime env) body →
       r.1 = json (ValidationBody "Validation failed" (details_of r.1)) 400
       ∧ (¬ action_recognized (action body) →
            ∃ e, e ∈ details_of r.1 ∧ Zod.path e = "action")
       ∧ (¬ quantity_acceptable (runtime env) (quantity body) →
            ∃ e, e ∈ details_of r.1 ∧ Zod.path e = "quantity")
       ∧ (¬ reason_acceptable (reason body) →
            ∃ e, e ∈ details_of r.1 ∧ Zod.path e = "reason"))
  ∧ (¬ coercible (runtime env) (quantity body) →
       r.1 = json (ErrorBody "Failed to update stock") 500)
  ∧ menus r.2 = menus db
  ∧ orders r.2 = orders db
  ∧ Forall (λ l, Schema.action l ≠ "stock_updated") (appended db r.2).
Proof.
  intros Hcase r. subst r.
  destruct (stockUpdateSchema_parse (runtime env) body) as [e|v] eqn:Hp.
  - rewrite (PUT_refused env uid i body e db Hp).
    assert (Hbad : ¬ body_accepted (runtime env) body).
    { intros [v Hv]%accepted_parses. congruence. }
    split; [tauto|]. split; [|split; [|split; [|split]]].
    + intros Hc _. destruct (parse_rejects (runtime env) body Hc Hbad)
        as (errs & Hp' & Hact & Hq & Hr).
      rewrite Hp in Hp'. injection Hp' as ->. unfold details_of. simpl. auto.
    + intros Hc. destruct (parse_throws (runtime env) body Hc) as [msg Hp'].
      rewrite Hp in Hp'. by injection Hp' as ->.
    + by destruct e.
    + by destruct e.
    + unfold on_error.
      replace (match e with ZodError errors => _ | _ => _ end).2
        with (log_create
                {| user_id := Some uid; Schema.action := "stock_error";
                   message := "Stock update failed for menu item " +:+ i +:+ ": "
                              +:+ error_message env e |} db) by by destruct e.
      rewrite appended_log_create. by repeat constructor.
  - pose proof (parsed_accepted (runtime env) body v Hp) as Hok.
    assert (Hi : menus db !! i = None) by tauto.
    unfold PUT. rewrite Hp, Hi. simpl.
    split; [done|]. split; [tauto|]. split.
    + intros Hc. exfalso. apply Hc. destruct Hok as (_ & (z & (q & Hq & _) & _) & _).
      by exists (Js.Finite q).
    + split; [done|]. split; [done|]. rewrite appended_same. constructor.
Qed.

Lemma stock_update_error_cases_witness :
  (let body := Sample.stock_request "add" (3 # 1) in
   let r := PUT Sample.env (Some "admin") "zz" body Sample.db in
   body_accepted Sample.rt body
   ∧ r = (json (ErrorBody "Menu item not found") 404, Sample.db))
  ∧ (let body := {| action := Some (Js.JStr "remove");
                    quantity := Some (Js.JNum (-5 # 2));
                    reason := Some (Js.JNum (7 # 1)) |} in
     let r := PUT Sample.env (Some "admin") "m1" body Sample.db in
     r.1 = json (ValidationBody "Validation failed" (details_of r.1)) 400
     ∧ (∃ e, e ∈ details_of r.1 ∧ Zod.path e = "action")
     ∧ (∃ e, e ∈ details_of r.1 ∧ Zod.path e = "quantity")
     ∧ (∃ e, e ∈ details_of r.1 ∧ Zod.path e = "reason")
     ∧ menus r.2 = menus Sample.db
     ∧ Forall (λ l, Schema.action l ≠ "stock_updated") (appended Sample.db r.2)).
Proof.
  split.
  - assert (Hok : body_accepted Sample.rt (Sample.stock_request "add" (3 # 1))).
    { split; [by left|]. split; [|by left].
      exists 3. split; [by exists (3 # 1)|lia]. }
    split; [exact Hok|].
    apply (stock_update_error_cases Sample.env "admin" "zz"
             (Sample.stock_request "add" (3 # 1)) Sample.db); [by left|exact Hok].
  - assert (Ha : ¬ action_recognized (Some (Js.JStr "remove")))
      by (intros [H|[H|H]]; discriminate H).
    assert (Hq : ¬ quantity_acceptable Sample.rt (Some (Js.JNum (-5 # 2))))
      by (intros (z & (q & [= <-] & Hz) & _); discriminate Hz).
    assert (Hr : ¬ reason_acceptable (Some (Js.JNum (7 # 1))))
      by (intros [H|[s H]]; discriminate H).
    destruct (stock_update_error_cases Sample.env "admin" "m1"
               {| action := Some (Js.JStr "remove");
                  quantity := Some (Js.JNum (-5 # 2));
                  reason := Some (Js.JNum (7 # 1)) |} Sample.db)
      as (_ & H400 & _ & Hm & _ & Hl).
    { right. intros (H & _). exact (Ha H). }
    destruct H400 as (H1 & H2 & H3 & H4).
    { by exists (Js.Finite (-5 # 2)). }
    { intros (H & _). exact (Ha H). }
    repeat split; auto.
Defined.

(** C7, as the claim has it, fails in two ways.  A refused body for an
    item that does not exist is answered 400, not 404; and a quantity that
    is no number but that [Number] turns into one ([true], [null]) is
    accepted: the answer is 200, the stock changes and a [stock_updated]
    row is written. *)
Lemma stock_update_errors_not_as_claimed :
  (menus Sample.db !! "zz" = None
   ∧ status (PUT Sample.env (Some "admin") "zz"
               (Sample.stock_request "add" (-1 # 1)) Sample.db).1 = 400)
  ∧ (let r := PUT Sample.env (Some "admin") "m1"
                {| action := Some (Js.JStr "add"); quantity := Some (Js.JBool true);
                   reason := None |} Sample.db in
     status r.1 = 200 ∧ stock_of r.2 "m1" = Some 11
     ∧ Schema.action <$> appended Sample.db r.2 = ["stock_updated"])
  ∧ (let r := PUT Sample.env (Some "admin") "m1"
                {| action := Some (Js.JStr "set"); quantity := Some Js.JNull;
                   reason := None |} Sample.db in
     status r.1 = 200 ∧ stock_of r.2 "m1" = Some 0
     ∧ Schema.action <$> appended Sample.db r.2 = ["stock_updated"]).
Proof. vm_compute. by repeat split. Qed.

(** Neither branch of the route stores a negative stock. *)
Lemma PUT_keeps_stock_nonneg (env : Env) (session : option string) (i : string)
    (body : StockUpdateBody) (db : DB) :
  stock_nonneg db → stock_nonneg (PUT env session i body db).2.
Proof.
  intros Hdb. destruct session as [uid|]; [|exact Hdb].
  destruct (stockUpdateSchema_parse (runtime env) body) as [e|v] eqn:Hp.
  - rewrite (PUT_refused env uid i body e db Hp). by destruct e.
  - destruct (menus db !! i) as [item|] eqn:Hi.
    + destruct (Int4Facts.of_Z_cases
                  (compute_stock (v_action v) (stock item) (v_quantity v)).1)
        as [(new & _ & Hnew)|[Hnone _]].
      * rewrite (PUT_valid env uid i body v item new db Hp Hi Hnew).
        destruct (parse_inv (runtime env) body v Hp) as (_ & _ & Hq & _).
        pose proof (Hdb i item Hi) as Hs.
        intros j m. unfold adjusted. simpl. rewrite lookup_insert.
        case_decide as Hij.
        -- intros [= <-]. simpl. rewrite Hnew. destruct (v_action v); simpl; lia.
        -- apply Hdb.
      * rewrite (PUT_out_of_range env uid i body v item db Hp Hi Hnone). exact Hdb.
    + unfold PUT. rewrite Hp, Hi. exact Hdb.
Qed.

End StockProps.

(** ** Facts about the transaction monad *)

Module TxFacts.
Import Schema Tx.

Lemma bind_inr {A B} (m : M A) (k : A → M B) (db db' : DB) (b : B) :
  (m ≫= k) db = inr (b, db')
  ↔ ∃ a db1, m db = inr (a, db1) ∧ k a db1 = inr (b, db').
Proof.
  unfold mbind, M_bind, bind. split.
  - destruct (m db) as [e|[a db1]]; [discriminate|]. eauto.
  - by intros (a & db1 & -> & ?).
Qed.

Lemma bind_eq {A B} (m : M A) (k : A → M B) (db db1 : DB) (a : A) :
  m db = inr (a, db1) → (m ≫= k) db = k a db1.
Proof. unfold mbind, M_bind, bind. by intros ->. Qed.

Lemma ret_inr {A} (a b : A) (db db' : DB) :
  (mret a : M A) db = inr (b, db') ↔ a = b ∧ db = db'.
Proof.
  unfold mret, M_ret, ret. split.
  - by intros [= <- <-].
  - by intros [<- <-].
Qed.

Lemma write_inr (f : DB → DB) (db db' : DB) (u : unit) :
  write f db = inr (u, db') ↔ db' = f db.
Proof. unfold write. destruct u. naive_solver. Qed.

Lemma read_inr {A} (f : DB → option A) (e : Thrown) (db db' : DB) (a : A) :
  read f e db = inr (a, db') ↔ f db = Some a ∧ db' = db.
Proof.
  unfold read. destruct (f db) as [x|]; split.
  - by intros [= <- <-].
  - by intros [[= <-] ->].
  - discriminate.
  - by intros [? _].
Qed.

Lemma to_column_inr (field : string) (z : Z) (db db' : DB) (v : Int4.int4) :
  to_column field z db = inr (v, db') ↔ Int4.val v = z ∧ db' = db.
Proof.
  unfold to_column.
  destruct (Int4Facts.of_Z_cases z) as [(w & -> & Hw)|[-> Hr]].
  - unfold ret. split.
    + by intros [= <- <-].
    + intros [Hv ->]. do 2 f_equal. apply Int4Facts.val_inj. congruence.
  - unfold throw. split; [discriminate|].
    intros [<- _]. by rewrite Int4.ok in Hr.
Qed.


(** A loop whose body only appends log rows leaves the rest of the store
    alone and cannot throw. *)
Lemma for_of_logs {A} (xs : list A) (body : A → M unit) (db : DB) :
  (∀ x d, ∃ ls, body x d = inr (tt, {| tables := tables d; menus := menus d;
                                        orders := orders d; logs := logs d ++ ls |})) →
  ∃ ls, for_of xs body db
        = inr (tt, {| tables := tables db; menus := menus db;
                      orders := orders db; logs := logs db ++ ls |}).
Proof.
  intros Hbody. revert db. induction xs as [|x r IH]; intros db.
  - exists []. simpl. unfold ret. rewrite app_nil_r. by destruct db.
  - destruct (Hbody x db) as [l1 H1]. simpl.
    unfold mbind, M_bind, bind. rewrite H1.
    destruct (IH {| tables := tables db; menus := menus db;
                    orders := orders db; logs := logs db ++ l1 |}) as [l2 H2].
    rewrite H2. simpl. exists (l1 ++ l2). by rewrite app_assoc.
Qed.

End TxFacts.

(** ** Integer-valued numbers under the arithmetic of the checkout *)

Module IntFacts.
Import Js.

Lemma to_Int_mul (p : Z) (q : number) (z : Z) :
  to_Int q = Some z → to_Int (of_int p * q)%Q = Some (p * z).
Proof.
  rewrite !JsFacts.to_Int_Some. intros Hq. unfold of_int. simpl.
  rewrite Hq. lia.
Qed.

Lemma to_Int_add (x y : number) (a b : Z) :
  to_Int x = Some a → to_Int y = Some b → to_Int (x + y)%Q = Some (a + b).
Proof.
  rewrite !JsFacts.to_Int_Some. intros Hx Hy. simpl.
  rewrite Hx, Hy, Pos2Z.inj_mul. lia.
Qed.

(** An integer quantity that is not above an integer stock. *)
Lemma ltb_false_le (s : Z) (q : number) (z : Z) :
  to_Int q = Some z → ltb (of_int s) q = false → z ≤ s.
Proof.
  intros Hq Hlt. rewrite (JsFacts.ltb_int_l q z s Hq) in Hlt.
  by apply Z.ltb_ge in Hlt.
Qed.

End IntFacts.

(** ** Properties of the checkout route *)

Module CheckoutProps.
Import Schema Tx CheckoutRoute Observe.

(** *** The lookup of the menu items *)

Lemma elem_of_menu_findMany (ids : list string) (db : DB) (i : string) (m : Menu) :
  (i, m) ∈ menu_findMany ids db
  ↔ menus db !! i = Some m ∧ i ∈ ids ∧ is_available m = true.
Proof.
  unfold menu_findMany. rewrite list_elem_of_filter, elem_of_map_to_list. simpl.
  rewrite Is_true_true. tauto.
Qed.

Lemma NoDup_menu_findMany (ids : list string) (db : DB) :
  NoDup ((menu_findMany ids db).*1).
Proof.
  apply NoDup_fmap_fst.
  - intros i m1 m2 [H1 _]%elem_of_menu_findMany [H2 _]%elem_of_menu_findMany.
    congruence.
  - apply NoDup_filter, NoDup_map_to_list.
Qed.

Lemma found_ids (ids : list string) (db : DB) (i : string) :
  i ∈ (menu_findMany ids db).*1 ↔ i ∈ ids ∧ available_in db i = true.
Proof.
  rewrite list_elem_of_fmap. unfold available_in. split.
  - intros ([j m] & -> & (Hm & Hi & Ha)%elem_of_menu_findMany). simpl.
    by rewrite Hm.
  - intros [Hi Ha]. destruct (menus db !! i) as [m|] eqn:Hm; [|discriminate].
    exists (i, m). split; [done|]. by apply elem_of_menu_findMany.
Qed.

(** [find] on the rows that were fetched is a lookup in the store. *)
Lemma find_menu_findMany (ids : list string) (db : DB) (i : string) :
  find_menu (menu_findMany ids db) i
  = match menus db !! i with
    | Some m => if bool_decide (i ∈ ids) && is_available m then Some (i, m) else None
    | None => None
    end.
Proof.
  unfold find_menu.
  destruct (List.find _ _) as [[j m']|] eqn:Hf.
  - apply List.find_some in Hf as [Hin Hj]. simpl in Hj.
    apply bool_decide_eq_true in Hj as ->.
    apply list_elem_of_In, elem_of_menu_findMany in Hin as (Hm & Hi & Ha).
    by rewrite Hm, Ha, (bool_decide_eq_true_2 _ Hi).
  - destruct (menus db !! i) as [m|] eqn:Hm; [|done].
    destruct (bool_decide (i ∈ ids)) eqn:Hi; [|done].
    destruct (is_available m) eqn:Ha; [|done]. simpl.
    apply bool_decide_eq_true in Hi.
    assert (Hin : (i, m) ∈ menu_findMany ids db) by by apply elem_of_menu_findMany.
    apply list_elem_of_In in Hin.
    apply (List.find_none _ _ Hf) in Hin. simpl in Hin.
    by rewrite bool_decide_eq_true_2 in Hin.
Qed.

(** As many rows as cart ids: the ids are pairwise distinct and each of
    them is an available menu item. *)
Lemma findMany_full (ids : list string) (db : DB) :
  length (menu_findMany ids db) = length ids →
  NoDup ids ∧ ∀ i, i ∈ ids → available_in db i = true.
Proof.
  intros Hlen.
  assert (Hperm : (menu_findMany ids db).*1 ≡ₚ ids).
  { apply submseteq_length_Permutation.
    - apply NoDup_submseteq; [apply NoDup_menu_findMany|].
      intros i Hi. by apply found_ids in Hi as [? _].
    - rewrite length_fmap. lia. }
  split.
  - rewrite <- Hperm. apply NoDup_menu_findMany.
  - intros i Hi. rewrite <- Hperm in Hi. by apply found_ids in Hi as [_ ?].
Qed.

Lemma findMany_length (ids : list string) (db : DB) :
  NoDup ids → (∀ i, i ∈ ids → available_in db i = true) →
  length (menu_findMany ids db) = length ids.
Proof.
  intros Hnd Hall.
  rewrite <- (length_fmap fst (menu_findMany ids db)).
  apply Permutation_length, NoDup_Permutation; [apply NoDup_menu_findMany|done|].
  intros i. rewrite found_ids. split.
  - by intros [? _].
  - intros Hi. split; [done|by apply Hall].
Qed.

(** Fewer rows than cart ids as soon as two lines share an id. *)
Lemma findMany_short (ids : list string) (db : DB) :
  ¬ NoDup ids → length (menu_findMany ids db) ≠ length ids.
Proof. intros Hdup Hlen. by apply Hdup, (findMany_full ids db). Qed.

(** *** The shape check of the lines *)

Lemma isInvalid_false (item : OrderItem) : isInvalid item = false ↔ well_formed item.
Proof.
  unfold isInvalid, well_formed.
  by rewrite <- orb_assoc, orb_false_iff, JsFacts.not_positive, String.eqb_neq.
Qed.

Lemma invalidItems_nil (items : list OrderItem) :
  invalidItems items = [] ↔ Forall well_formed items.
Proof.
  unfold invalidItems. rewrite Forall_forall. split.
  - intros Hnil item Hin. apply isInvalid_false.
    destruct (isInvalid item) eqn:E; [|done].
    exfalso. eapply (filter_nil_not_elem_of _ _ item Hnil); [|done]. by rewrite E.
  - intros Hall. induction items as [|x r IH]; [done|].
    rewrite filter_cons. destruct (decide _) as [Hx|Hx].
    + exfalso. assert (Hw : well_formed x) by (apply Hall; left).
      apply isInvalid_false in Hw. by rewrite Hw in Hx.
    + apply IH. intros y Hy. apply Hall. by right.
Qed.

Lemma menuIds_well_formed (items : list OrderItem) :
  Forall well_formed items → menuIds items = id <$> items.
Proof.
  unfold menuIds. induction 1 as [|x r [Hx _] _ IH]; [done|].
  rewrite fmap_cons, filter_cons, decide_True by done. by rewrite IH.
Qed.


(** *** The stock check *)

Lemma omap_cons_eq {A B} (f : A → option B) (x : A) (l : list A) :
  omap f (x :: l) = match f x with Some y => y :: omap f l | None => omap f l end.
Proof. reflexivity. Qed.

Lemma stockErrors_report (ids : list string) (db : DB) (items : list OrderItem) :
  (∀ item, item ∈ items → id item ∈ ids ∧ available_in db (id item) = true) →
  stockErrors (menu_findMany ids db) items = over_requested_report db items.
Proof.
  unfold stockErrors, over_requested_report.
  induction items as [|x r IH]; intros Hall; [done|].
  destruct (Hall x) as [Hi Ha]; [left|].
  rewrite !omap_cons_eq, IH by (intros y Hy; apply Hall; by right).
  rewrite find_menu_findMany.
  unfold available_in in Ha. destruct (menus db !! id x) as [m|]; [|done].
  by rewrite Ha, (bool_decide_eq_true_2 _ Hi).
Qed.

Lemma over_requested_ltb (db : DB) (item : OrderItem) :
  over_requested db item
  ↔ ∃ m, menus db !! id item = Some m
         ∧ Js.ltb (Js.of_int (stock m)) (quantity item) = true.
Proof. unfold over_requested. by setoid_rewrite JsFacts.ltb_Qlt. Qed.

(** Every over-requested line is in the report, with the four fields. *)
Lemma report_complete (db : DB) (items : list OrderItem) (item : OrderItem) (m : Menu) :
  item ∈ items → menus db !! id item = Some m →
  (inject_Z (stock m) < quantity item)%Q →
  {| se_menu_id := id item; se_menu_name := name m;
     requested := quantity item; available := stock m |}
  ∈ over_requested_report db items.
Proof.
  intros Hin Hm Hlt. unfold over_requested_report.
  apply list_elem_of_omap. exists item. split; [done|].
  rewrite Hm. apply JsFacts.ltb_Qlt in Hlt. unfold Js.of_int. by rewrite Hlt.
Qed.

Lemma report_nil (db : DB) (items : list OrderItem) :
  over_requested_report db items = [] ↔ Forall (λ item, ¬ over_requested db item) items.
Proof.
  unfold over_requested_report. rewrite Forall_forall. split.
  - intros Hnil item Hin (m & Hm & Hlt)%over_requested_ltb.
    assert (Hel : {| se_menu_id := id item; se_menu_name := name m;
                     requested := quantity item; available := stock m |}
                  ∈ omap (λ item,
                      match menus db !! id item with
                      | Some m =>
                          if Js.ltb (Js.of_int (stock m)) (quantity item)
                          then Some {| se_menu_id := id item; se_menu_name := name m;
                                       requested := quantity item;
                                       available := stock m |}
                          else None
                      | None => None
                      end) items).
    { apply list_elem_of_omap. exists item. split; [done|]. by rewrite Hm, Hlt. }
    rewrite Hnil in Hel. by apply elem_of_nil in Hel.
  - intros Hall. induction items as [|x r IH]; [done|].
    rewrite omap_cons_eq, IH by (intros y Hy; apply Hall; by right).
    destruct (menus db !! id x) as [m|] eqn:Hm; [|done].
    destruct (Js.ltb _ _) eqn:Hlt; [|done].
    exfalso. apply (Hall x); [left|]. apply over_requested_ltb. eauto.
Qed.

(** *** Pricing the lines *)

Lemma orderItemsData_ok (ids : list string) (seen : DB) (items : list OrderItem) :
  (∀ item, item ∈ items → id item ∈ ids) →
  Forall well_formed items → Forall (orderable seen) items →
  ∃ data,
    orderItemsData (menu_findMany ids seen) items = inr data
    ∧ Forall2 (λ item d,
                 ∃ m, menus seen !! id item = Some m
                      ∧ d = {| d_menu_id := id item; d_price := price m;
                               d_quantity := quantity item;
                               d_subtotal := (Js.of_int (price m) * quantity item)%Q;
                               d_customization :=
                                 Js.truthy_string (customization item) |})
              items data.
Proof.
  induction items as [|x r IH]; intros Hids Hwf Hord.
  - exists []. split; [done|constructor].
  - apply Forall_cons in Hwf as [Hx Hwf]. apply Forall_cons in Hord as [(m & Hm & Ha) Hord].
    destruct IH as (data & Hdata & Hrel); [|done|done|].
    { intros y Hy. apply Hids. by right. }
    eexists. simpl. unfold orderItemData.
    rewrite find_menu_findMany, Hm, Ha.
    rewrite (bool_decide_eq_true_2 _ (Hids x (list_elem_of_here _ _))). simpl.
    destruct Hx as [_ Hq]. apply JsFacts.not_positive in Hq. rewrite Hq, Hdata.
    split; [reflexivity|]. constructor; [|done]. eauto.
Qed.

(** *** The writes of the transaction *)

Lemma as_Int_inr (field : string) (q : Js.number) (db db' : DB) (v : Int4.int4) :
  as_Int field q db = inr (v, db') ↔ Int4.val v = Js.trunc q ∧ db' = db.
Proof. apply TxFacts.to_column_inr. Qed.

Lemma order_item_create_inv (d : OrderItemData) (db db' : DB)
    (c : Schema.OrderItem * Menu) :
  order_item_create d db = inr (c, db') →
  db' = db
  ∧ Int4.val (Schema.quantity c.1) = Js.trunc (d_quantity d)
  ∧ Int4.val (subtotal c.1) = Js.trunc (d_subtotal d)
  ∧ menu_id c.1 = d_menu_id d ∧ item_price c.1 = d_price d
  ∧ menus db !! d_menu_id d = Some c.2.
Proof.
  unfold order_item_create. intros H.
  apply TxFacts.bind_inr in H as (q' & db1 & [Hq ->]%as_Int_inr & H).
  apply TxFacts.bind_inr in H as (s' & db2 & [Hs ->]%as_Int_inr & H).
  apply TxFacts.bind_inr in H as (m & db3 & [Hm ->]%TxFacts.read_inr & H).
  apply TxFacts.ret_inr in H as [<- <-]. by simpl.
Qed.

Lemma order_items_create_inv (data : list OrderItemData) (db db' : DB)
    (created : list (Schema.OrderItem * Menu)) :
  order_items_create data db = inr (created, db') →
  db' = db
  ∧ Forall2 (λ d c, Int4.val (Schema.quantity c.1) = Js.trunc (d_quantity d)
                    ∧ Int4.val (subtotal c.1) = Js.trunc (d_subtotal d)
                    ∧ menu_id c.1 = d_menu_id d ∧ item_price c.1 = d_price d
                    ∧ menus db !! d_menu_id d = Some c.2) data created.
Proof.
  revert created db'. induction data as [|d r IH]; intros created db' H; simpl in H.
  - apply TxFacts.ret_inr in H as [<- <-]. split; [done|constructor].
  - apply TxFacts.bind_inr in H as (c & db1 & Hc & H).
    apply order_item_create_inv in Hc as (-> & Hc).
    apply TxFacts.bind_inr in H as (cs & db2 & Hcs & H).
    apply IH in Hcs as (-> & Hcs).
    apply TxFacts.ret_inr in H as [<- <-]. split; [done|]. by constructor.
Qed.



Lemma order_create_inv (env : Env) (uid tableId : string) (total : Js.number)
    (data : list OrderItemData) (db db' : DB) (o : NewOrder) :
  order_create env uid tableId total data db = inr (o, db') →
  ∃ t created tbl,
    Int4.val t = Js.trunc total
    ∧ order_items_create data db = inr (created, db)
    ∧ tables db !! tableId = Some tbl
    ∧ o = {| row := {| order_id := cuid env; customer_id := uid; table_id := tableId;
                       order_status := os_pending; payment_status := ps_pending;
                       total_amount := t; order_time := now env;
                       order_items := created.*1 |};
             table := tbl; items_with_menu := created |}
    ∧ db' = {| tables := tables db; menus := menus db;
               orders := orders db ++ [row o]; logs := logs db |}.
Proof.
  unfold order_create. intros H.
  apply TxFacts.bind_inr in H as (t & db1 & [Ht ->]%as_Int_inr & H).
  apply TxFacts.bind_inr in H as (created & db2 & Hc & H).
  pose proof (order_items_create_inv _ _ _ _ Hc) as [-> _].
  apply TxFacts.bind_inr in H as (tbl & db3 & [Htbl ->]%TxFacts.read_inr & H).
  apply TxFacts.bind_inr in H as ([] & db4 & ->%TxFacts.write_inr & H).
  apply TxFacts.ret_inr in H as [<- <-].
  exists t, created, tbl. by simpl.
Qed.


(** The total of integer subtotals is their integer sum. *)
Lemma totalAmount_Int (data : list OrderItemData) (subtotals : list Z) :
  Forall2 (λ d s, Js.to_Int (d_subtotal d) = Some s) data subtotals →
  Js.to_Int (totalAmount data) = Some (foldr Z.add 0 subtotals).
Proof.
  unfold totalAmount.
  assert (Hgen : ∀ acc a, Js.to_Int acc = Some a →
            Forall2 (λ d s, Js.to_Int (d_subtotal d) = Some s) data subtotals →
            Js.to_Int (foldl (λ acc d, (acc + d_subtotal d)%Q) acc data)
            = Some (a + foldr Z.add 0 subtotals)).
  { intros acc a Ha Hrel. revert acc a Ha.
    induction Hrel as [|d s r ss Hd _ IH]; intros acc a Ha; simpl foldl.
    - rewrite Ha. f_equal. simpl. lia.
    - rewrite (IH _ (a + s)) by by apply IntFacts.to_Int_add.
      f_equal. simpl. lia. }
  intros Hrel. rewrite (Hgen _ 0 (JsFacts.to_Int_of_int 0) Hrel). f_equal.
Qed.

Lemma menu_decrement_stock_inv (i : string) (q : Js.number) (db db' : DB) (u : unit) :
  menu_decrement_stock i q db = inr (u, db') →
  ∃ (m : Menu) (v : Int4.int4),
    menus db !! i = Some m
    ∧ Int4.val v = stock m - Js.trunc q
    ∧ db' = with_menus (<[i := with_stock v m]>) db.
Proof.
  unfold menu_decrement_stock. intros H.
  apply TxFacts.bind_inr in H as (n & db1 & [Hn ->]%as_Int_inr & H).
  apply TxFacts.bind_inr in H as (m & db2 & [Hm ->]%TxFacts.read_inr & H).
  apply TxFacts.bind_inr in H as (v & db3 & [Hv ->]%TxFacts.to_column_inr & H).
  apply TxFacts.write_inr in H. exists m, v. by rewrite Hn in Hv.
Qed.


(** The decrement loop on lines that reference distinct items, each asking
    for no more than the stock: no stock goes below zero. *)
Lemma decrement_loop_nonneg (items : list OrderItem) (db db' : DB) :
  for_of items (λ item, menu_decrement_stock (id item) (quantity item)) db
  = inr (tt, db') →
  NoDup (id <$> items) →
  (∀ item m, item ∈ items → menus db !! id item = Some m →
             Js.trunc (quantity item) ≤ stock m) →
  stock_nonneg db →
  stock_nonneg db' ∧ tables db' = tables db ∧ orders db' = orders db
  ∧ logs db' = logs db.
Proof.
  revert db. induction items as [|x r IH]; intros db Hrun Hnd Hle Hdb; simpl in Hrun.
  - apply TxFacts.ret_inr in Hrun as [_ <-]. done.
  - apply TxFacts.bind_inr in Hrun as ([] & db1 & Hx & Hrun).
    apply menu_decrement_stock_inv in Hx as (m & v & Hm & Hv & ->).
    rewrite fmap_cons in Hnd. apply NoDup_cons in Hnd as [Hnotin Hnd].
    apply IH in Hrun as (? & ? & ? & ?); [done|done| |].
    + intros item m' Hin Hm'. simpl in Hm'.
      rewrite lookup_insert_ne in Hm'.
      * apply (Hle item m'); [by right|done].
      * intros Heq. apply Hnotin. rewrite Heq. by apply list_elem_of_fmap_2.
    + intros j mj. simpl. rewrite lookup_insert. case_decide.
      * intros [= <-]. simpl. pose proof (Hle x m (list_elem_of_here _ _) Hm). lia.
      * apply Hdb.
Qed.

(** What the decrement loop stores, on lines that reference distinct
    items: each line takes the integer part of its quantity from the stock
    of its item, and the other columns and rows stay. *)
Lemma decrement_loop_exact (items : list OrderItem) (db db' : DB) :
  for_of items (λ item, menu_decrement_stock (id item) (quantity item)) db
  = inr (tt, db') →
  NoDup (id <$> items) →
  (∀ item m, item ∈ items → menus db !! id item = Some m →
     ∃ v : Int4.int4,
       Int4.val v = stock m - Js.trunc (quantity item)
       ∧ menus db' !! id item = Some (with_stock v m))
  ∧ (∀ j, j ∉ id <$> items → menus db' !! j = menus db !! j).
Proof.
  revert db. induction items as [|x r IH]; intros db Hrun Hnd; simpl in Hrun.
  - apply TxFacts.ret_inr in Hrun as [_ <-]. split; [|done].
    intros item m Hin. by apply elem_of_nil in Hin.
  - apply TxFacts.bind_inr in Hrun as ([] & db1 & Hx & Hrun).
    apply menu_decrement_stock_inv in Hx as (m & v & Hm & Hv & ->).
    rewrite fmap_cons in Hnd. apply NoDup_cons in Hnd as [Hnotin Hnd].
    destruct (IH _ Hrun Hnd) as [Hin Hout]. split.
    + intros item m' [->|Hr]%elem_of_cons Hm'.
      * rewrite Hm in Hm'. injection Hm' as <-. exists v. split; [done|].
        rewrite (Hout _ Hnotin). simpl. apply lookup_insert_eq.
      * apply Hin; [done|]. simpl. rewrite lookup_insert_ne; [done|].
        intros Heq. apply Hnotin. rewrite Heq. by apply list_elem_of_fmap_2.
    + intros j Hj. rewrite fmap_cons, not_elem_of_cons in Hj. destruct Hj as [Hne Hj].
      rewrite (Hout j Hj). simpl. by rewrite lookup_insert_ne.
Qed.


Lemma decrement_loop_frame (items : list OrderItem) (db db' : DB) :
  for_of items (λ item, menu_decrement_stock (id item) (quantity item)) db
  = inr (tt, db') →
  tables db' = tables db ∧ orders db' = orders db ∧ logs db' = logs db.
Proof.
  revert db. induction items as [|x r IH]; intros db Hrun; simpl in Hrun.
  - by apply TxFacts.ret_inr in Hrun as [_ <-].
  - apply TxFacts.bind_inr in Hrun as ([] & db1 & Hx & Hrun).
    apply menu_decrement_stock_inv in Hx as (m & v & _ & _ & ->).
    by apply IH in Hrun.
Qed.

(** The loop that writes the [stock_updated] rows: one row per line whose
    item was among the rows validation fetched. *)
Lemma log_loop_exact (env : Env) (uid : string) (o : NewOrder)
    (menuItems : list (string * Menu)) (items : list OrderItem) (db : DB) :
  for_of items (λ item,
    match find_menu menuItems (id item) with
    | Some menuItem => write (log_create (stock_reduced_log env uid o menuItem item))
    | None => mret tt
    end) db
  = inr (tt, {| tables := tables db; menus := menus db; orders := orders db;
                logs := logs db
                        ++ omap (λ item, (λ mi, stock_reduced_log env uid o mi item)
                                           <$> find_menu menuItems (id item)) items |}).
Proof.
  revert db. induction items as [|x r IH]; intros db.
  - simpl. unfold ret. rewrite app_nil_r. by destruct db.
  - simpl for_of. rewrite omap_cons_eq. cbv beta.
    destruct (find_menu menuItems (id x)) as [mi|]; cbv beta iota.
    + erewrite (TxFacts.bind_eq (write _)) by reflexivity.
      rewrite IH. simpl. by rewrite <- app_assoc.
    + erewrite (TxFacts.bind_eq (mret tt)) by reflexivity.
      by rewrite IH.
Qed.

(** What a committed checkout transaction did. *)
Lemma checkout_tx_inv (env : Env) (uid tableId : string) (seen_tbl : Table)
    (items : list OrderItem)
    (menuItems : list (string * Menu)) (data : list OrderItemData)
    (total : Js.number) (db db' : DB) (o : NewOrder) :
  checkout_tx env uid tableId seen_tbl items menuItems data total db = inr (o, db') →
  ∃ t created tbl db2,
    Int4.val t = Js.trunc total
    ∧ order_items_create data db = inr (created, db)
    ∧ tables db !! tableId = Some tbl
    ∧ o = {| row := {| order_id := cuid env; customer_id := uid; table_id := tableId;
                       order_status := os_pending; payment_status := ps_pending;
                       total_amount := t; order_time := now env;
                       order_items := created.*1 |};
             table := tbl; items_with_menu := created |}
    ∧ for_of items (λ item, menu_decrement_stock (id item) (quantity item))
        {| tables := tables db; menus := menus db;
           orders := orders db ++ [row o]; logs := logs db |}
      = inr (tt, db2)
    ∧ db' = {| tables := tables db2; menus := menus db2;
               orders := orders db2;
               logs := logs db2
                       ++ order_created_log env uid seen_tbl o items total
                          :: omap (λ item,
                                     (λ mi, stock_reduced_log env uid o mi item)
                                     <$> find_menu menuItems (id item)) items |}.
Proof.
  unfold checkout_tx. intros H.
  apply TxFacts.bind_inr in H as (o' & db1 & Ho & H).
  apply order_create_inv in Ho as (t & created & tbl & Ht & Hc & Htbl & Ho & ->).
  apply TxFacts.bind_inr in H as ([] & db2 & Hdec & H).
  apply TxFacts.bind_inr in H as ([] & db3 & ->%TxFacts.write_inr & H).
  apply TxFacts.bind_inr in H as ([] & db4 & Hlog & H).
  apply TxFacts.ret_inr in H as [<- <-].
  rewrite log_loop_exact in Hlog. injection Hlog as <-.
  exists t, created, tbl, db2.
  split_and!; try done. simpl. by rewrite <- app_assoc.
Qed.


(** *** The handler, branch by branch *)

Lemma missingIds_unavailable (db : DB) (items : list OrderItem) :
  missingIds (id <$> items) (menu_findMany (id <$> items) db)
  = unavailable_ids db items.
Proof.
  unfold missingIds, unavailable_ids.
  assert (Hgen : ∀ l : list string, (∀ i, i ∈ l → i ∈ id <$> items) →
            filter (λ i, i ∉ (menu_findMany (id <$> items) db).*1) l
            = filter (λ i, available_in db i = false) l).
  { induction l as [|i l IH]; intros Hsub; [done|].
    rewrite !filter_cons, IH by (intros j Hj; apply Hsub; by right).
    assert (Hi : i ∈ id <$> items) by (apply Hsub; left).
    destruct (available_in db i) eqn:Ha.
    - rewrite decide_False, decide_False; [done|done|].
      intros Hn. apply Hn. by apply found_ids.
    - rewrite decide_True, decide_True; [done|done|].
      intros [_ Hf]%found_ids. congruence. }
  by apply Hgen.
Qed.

(** A request that gets as far as the stock check is answered by the
    stock check or by the transaction. *)
Lemma POST_at_checked (env : Env) (uid : string) (request : CheckoutRequest)
    (seen db : DB) (tbl : Table) :
  reaches_stock_check (Some uid) request seen →
  tables seen !! tableId request = Some tbl →
  POST_at env (Some uid) request seen db
  = if bool_decide (0 < length (over_requested_report seen (items request)))%nat
    then (json (StockErrorsBody "Insufficient stock for some items"
                  (over_requested_report seen (items request))) 400, db)
    else
      match orderItemsData (menu_findMany (id <$> items request) seen)
              (items request) with
      | inl e => on_error env (Some uid) e db
      | inr data =>
          match transaction
                  (checkout_tx env uid (tableId request) tbl (items request)
                     (menu_findMany (id <$> items request) seen) data
                     (totalAmount data)) db with
          | (inl e, db') => on_error env (Some uid) e db'
          | (inr order, db') =>
              (json (SuccessBody (view order)) 201, db')
          end
      end.
Proof.
  intros (_ & Htid & _ & Hne & Hwf & Hord & Hnd) Htbl.
  unfold POST_at.
  apply String.eqb_neq in Htid. rewrite Htid.
  rewrite (bool_decide_eq_false_2 (length (items request) = 0%nat))
    by (destruct (items request); [done|simpl; lia]).
  simpl. rewrite Htbl.
  rewrite (proj2 (invalidItems_nil _) Hwf). simpl.
  rewrite (menuIds_well_formed _ Hwf).
  rewrite (bool_decide_eq_false_2 (length (id <$> items request) = 0%nat))
    by (rewrite length_fmap; destruct (items request); [done|simpl; lia]).
  assert (Hav : ∀ i, i ∈ id <$> items request → available_in seen i = true).
  { intros i (item & -> & Hin)%list_elem_of_fmap.
    rewrite Forall_forall in Hord. destruct (Hord item Hin) as (m & Hm & Ha).
    unfold available_in. by rewrite Hm. }
  rewrite (bool_decide_eq_false_2
             (length (menu_findMany (id <$> items request) seen)
              ≠ length (id <$> items request)))
    by (intros Hc; apply Hc; by apply findMany_length).
  rewrite stockErrors_report; [done|].
  intros item Hin. split; [by apply list_elem_of_fmap_2|].
  apply Hav. by apply list_elem_of_fmap_2.
Qed.

(** Every other request is turned away with 400 or 401 and the store
    untouched. *)
Lemma POST_at_refusals (env : Env) (session : option string)
    (request : CheckoutRequest) (seen db : DB) :
  reaches_stock_check session request seen
  ∨ ((POST_at env session request seen db).2 = db
     ∧ (status (POST_at env session request seen db).1 = 400
        ∨ status (POST_at env session request seen db).1 = 401)).
Proof.
  unfold POST_at. destruct session as [uid|]; [|right; split; [done|by right]].
  destruct (String.eqb_spec (tableId request) EmptyString) as [|Htid];
    [right; split; [done|by left]|].
  destruct (bool_decide (length (items request) = 0%nat)) eqn:Hlen;
    [right; split; [done|by left]|].
  simpl. destruct (tables seen !! tableId request) as [tbl|] eqn:Htbl;
    [|right; split; [done|by left]].
  destruct (bool_decide (0 < length (invalidItems (items request)))%nat) eqn:Hinv;
    [right; split; [done|by left]|].
  destruct (bool_decide (length (menuIds (items request)) = 0%nat));
    [right; split; [done|by left]|].
  destruct (bool_decide (length (menu_findMany (menuIds (items request)) seen)
                         ≠ length (menuIds (items request)))) eqn:Hcount;
    [right; split; [done|by left]|].
  left.
  apply bool_decide_eq_false in Hlen, Hinv, Hcount.
  assert (Hwf : Forall well_formed (items request)).
  { apply invalidItems_nil.
    destruct (invalidItems (items request)); [done|]. exfalso. apply Hinv. simpl. lia. }
  rewrite (menuIds_well_formed _ Hwf) in Hcount.
  destruct (findMany_full (id <$> items request) seen) as [Hnd Hav].
  { destruct (decide (length (menu_findMany (id <$> items request) seen)
                      = length (id <$> items request))); [done|by exfalso; apply Hcount]. }
  split_and!; try done.
  - intros Heq. apply Hlen. by rewrite Heq.
  - apply Forall_forall. intros item Hin.
    pose proof (Hav (id item) (list_elem_of_fmap_2 id _ _ Hin)) as Ha.
    unfold available_in in Ha. unfold orderable.
    destruct (menus seen !! id item) as [m|]; [eauto|discriminate].
Qed.

Lemma POST_at_cases (env : Env) (session : option string)
    (request : CheckoutRequest) (seen db : DB) :
  reaches_stock_check session request seen
  ∨ (POST_at env session request seen db).2 = db.
Proof.
  destruct (POST_at_refusals env session request seen db) as [?|[? _]]; auto.
Qed.

(** *** Insufficient stock *)

Lemma report_not_nil (db : DB) (items : list OrderItem) :
  over_requested_report db items ≠ [] ↔ ∃ item, item ∈ items ∧ over_requested db item.
Proof.
  split.
  - destruct (over_requested_report db items) as [|e r] eqn:Hr; [done|]. intros _.
    assert (He : e ∈ over_requested_report db items) by (rewrite Hr; left).
    apply list_elem_of_omap in He as (item & Hin & He).
    exists item. split; [done|]. apply over_requested_ltb.
    destruct (menus db !! id item) as [m|]; [|done].
    destruct (Js.ltb _ _) eqn:Hlt; [eauto|done].
  - intros (item & Hin & Hover) Hnil%report_nil.
    rewrite Forall_forall in Hnil. by apply (Hnil item).
Qed.

(** The answer of the stock check to a request that reaches it with an
    over-requested line. *)
Lemma over_requested_answer (env : Env) (session : option string)
    (request : CheckoutRequest) (db : DB) :
  (∃ item, item ∈ items request ∧ over_requested db item) →
  reaches_stock_check session request db →
  POST env session request db
  = (json (StockErrorsBody "Insufficient stock for some items"
             (over_requested_report db (items request))) 400, db).
Proof.
  intros Hover%report_not_nil Hreach.
  pose proof Hreach as ([uid ->] & _ & [tbl Htbl] & _).
  unfold POST. rewrite (POST_at_checked env uid request db db tbl Hreach Htbl).
  rewrite bool_decide_eq_true_2; [done|].
  destruct (over_requested_report db (items request)); [done|simpl; lia].
Qed.

(** No request with an over-requested line writes to the store. *)
Lemma over_requested_commits_nothing (env : Env) (session : option string)
    (request : CheckoutRequest) (db : DB) :
  (∃ item, item ∈ items request ∧ over_requested db item) →
  (POST env session request db).2 = db.
Proof.
  intros Hover.
  destruct (POST_at_cases env session request db db) as [Hreach|Hsame]; [|done].
  by rewrite (over_requested_answer env session request db Hover Hreach).
Qed.





(** *** Duplicate lines *)

Lemma unavailable_ids_nil (db : DB) (items : list OrderItem) :
  unavailable_ids db items = [] ↔ Forall (orderable db) items.
Proof.
  unfold unavailable_ids. rewrite Forall_forall. split.
  - intros Hnil item Hin. unfold orderable.
    destruct (available_in db (id item)) eqn:Ha.
    + unfold available_in in Ha. destruct (menus db !! id item) as [m|]; [eauto|done].
    + exfalso. eapply (filter_nil_not_elem_of _ _ (id item) Hnil); [done|].
      by apply list_elem_of_fmap_2.
  - intros Hall. induction items as [|x r IH]; [done|].
    rewrite fmap_cons, filter_cons.
    destruct (Hall x) as (m & Hm & Ha); [left|].
    rewrite decide_False.
    + apply IH. intros y Hy. apply Hall. by right.
    + unfold available_in. rewrite Hm. congruence.
Qed.

(** C9, as the handler has it: a cart with two lines for the same menu item
    that passes the session, table and shape checks is refused with 400
    [Some menu items are not available or do not exist] and nothing is
    committed, whatever the stock and availability of the items;
    [missing_items] lists the cart ids that are missing or not available,
    so it is empty exactly when every line references an available
    item. *)
Theorem duplicate_lines_are_refused (env : Env) (uid : string)
    (request : CheckoutRequest) (db : DB) :
  tableId request ≠ EmptyString →
  is_Some (tables db !! tableId request) →
  Forall well_formed (items request) →
  ¬ NoDup (id <$> items request) →
  POST env (Some uid) request db
  = (json (MissingItemsBody "Some menu items are not available or do not exist"
             (unavailable_ids db (items request))) 400, db)
  ∧ (unavailable_ids db (items request) = [] ↔ Forall (orderable db) (items request)).
Proof.
  intros Htid [tbl Htbl] Hwf Hdup. split; [|apply unavailable_ids_nil].
  unfold POST, POST_at.
  apply String.eqb_neq in Htid. rewrite Htid.
  assert (Hne : items request ≠ []).
  { intros Heq. apply Hdup. rewrite Heq. constructor. }
  rewrite (bool_decide_eq_false_2 (length (items request) = 0%nat))
    by (destruct (items request); [done|simpl; lia]).
  simpl. rewrite Htbl.
  rewrite (proj2 (invalidItems_nil _) Hwf). simpl.
  rewrite (menuIds_well_formed _ Hwf).
  rewrite (bool_decide_eq_false_2 (length (id <$> items request) = 0%nat))
    by (rewrite length_fmap; destruct (items request); [done|simpl; lia]).
  rewrite (bool_decide_eq_true_2 _ (findMany_short _ db Hdup)).
  by rewrite missingIds_unavailable.
Qed.

Lemma duplicate_lines_are_refused_witness :
  POST Sample.env (Some "u1")
    (Sample.cart [Sample.line "m1" (1 # 1); Sample.line "m1" (2 # 1)]) Sample.db
  = (json (MissingItemsBody "Some menu items are not available or do not exist"
             (unavailable_ids Sample.db
                [Sample.line "m1" (1 # 1); Sample.line "m1" (2 # 1)])) 400, Sample.db)
  ∧ (unavailable_ids Sample.db [Sample.line "m1" (1 # 1); Sample.line "m1" (2 # 1)] = []
     ↔ Forall (orderable Sample.db)
         [Sample.line "m1" (1 # 1); Sample.line "m1" (2 # 1)]).
Proof.
  apply (duplicate_lines_are_refused Sample.env "u1"
           (Sample.cart [Sample.line "m1" (1 # 1); Sample.line "m1" (2 # 1)]) Sample.db).
  - discriminate.
  - by eexists.
  - repeat constructor; discriminate.
  - intros Hnd. simpl in Hnd. apply NoDup_cons in Hnd as [Hn _]. apply Hn. left.
Defined.

(** The claim C9 as worded fails on this cart: two lines for [m1] and one
    for an id that is not on the menu; [missing_items] is not empty. *)
Lemma duplicate_lines_missing_items_not_empty :
  let request := Sample.cart [Sample.line "m1" (1 # 1); Sample.line "m1" (1 # 1);
                              Sample.line "zz" (1 # 1)] in
  ¬ NoDup (id <$> items request)
  ∧ (POST Sample.env (Some "u1") request Sample.db).1
    = json (MissingItemsBody "Some menu items are not available or do not exist"
              ["zz"]) 400
  ∧ missing_items_of (POST Sample.env (Some "u1") request Sample.db).1 ≠ Some [].
Proof.
  split; [|split].
  - simpl. intros Hnd. apply NoDup_cons in Hnd as [Hn _]. apply Hn. left.
  - vm_compute. reflexivity.
  - vm_compute. discriminate.
Qed.

(** *** The committed order *)

(** The amount the handler adds up is the amount of the cart at the prices
    validation read. *)
Lemma totalAmount_cart (seen : DB) (items : list OrderItem) (data : list OrderItemData) :
  Forall2 (λ item d,
             ∃ m, menus seen !! id item = Some m
                  ∧ d = {| d_menu_id := id item; d_price := price m;
                           d_quantity := quantity item;
                           d_subtotal := (Js.of_int (price m) * quantity item)%Q;
                           d_customization := Js.truthy_string (customization item) |})
    items data →
  totalAmount data = Observe2.cart_total seen items.
Proof.
  intros Hrel. unfold totalAmount, Observe2.cart_total. generalize (Js.of_int 0).
  induction Hrel as [|item d r ds (m & Hm & ->) _ IH]; intros acc; [done|].
  simpl foldl. unfold Observe2.line_amount at 2. rewrite Hm. apply IH.
Qed.

(** A request that is answered 201 passed every check, and its
    transaction committed. *)
Lemma POST_at_201 (env : Env) (session : option string)
    (request : CheckoutRequest) (seen db : DB) :
  status (POST_at env session request seen db).1 = 201 →
  ∃ uid tbl data o db',
    session = Some uid
    ∧ Observe2.valid_checkout (Some uid) request seen
    ∧ tables seen !! tableId request = Some tbl
    ∧ Forall2 (λ item d,
                 ∃ m, menus seen !! id item = Some m
                      ∧ d = {| d_menu_id := id item; d_price := price m;
                               d_quantity := quantity item;
                               d_subtotal := (Js.of_int (price m) * quantity item)%Q;
                               d_customization :=
                                 Js.truthy_string (customization item) |})
        (items request) data
    ∧ checkout_tx env uid (tableId request) tbl (items request)
        (menu_findMany (id <$> items request) seen) data (totalAmount data) db
      = inr (o, db')
    ∧ POST_at env session request seen db = (json (SuccessBody (view o)) 201, db').
Proof.
  intros H201.
  destruct (POST_at_refusals env session request seen db) as [Hreach|[_ [H|H]]];
    [|rewrite H in H201; discriminate H201..].
  pose proof Hreach as ([uid ->] & _ & [tbl Htbl] & _ & Hwf & Hord & _).
  rewrite (POST_at_checked env uid request seen db tbl Hreach Htbl) in H201 |- *.
  destruct (bool_decide (0 < length (over_requested_report seen (items request)))%nat)
    eqn:Hrep; [discriminate H201|].
  destruct (orderItemsData_ok (id <$> items request) seen (items request))
    as (data & Hdata & Hrel); [|done|done|].
  { intros item Hin. by apply list_elem_of_fmap_2. }
  rewrite Hdata in H201 |- *. unfold transaction in *.
  destruct (checkout_tx _ _ _ _ _ _ _ _ _) as [e|[o db']] eqn:Htx;
    [discriminate H201|].
  assert (Hno : Forall (λ item, ¬ over_requested seen item) (items request)).
  { apply report_nil. apply bool_decide_eq_false in Hrep.
    destruct (over_requested_report seen (items request)); [done|].
    exfalso. apply Hrep. simpl. lia. }
  exists uid, tbl, data, o, db'. by split_and!.
Qed.

(** The order of a request that is answered 201: one row is added, whose
    items carry the price validation read, the integer part of the
    quantity of their line and the integer part of its amount, and whose
    total is the integer part of the amount of the cart. *)
Lemma committed_order (env : Env) (session : option string)
    (request : CheckoutRequest) (seen db : DB) :
  status (POST_at env session request seen db).1 = 201 →
  ∃ o,
    orders (POST_at env session request seen db).2 = orders db ++ [o]
    ∧ Int4.val (total_amount o)
      = Js.trunc (Observe2.cart_total seen (items request))
    ∧ Forall2 (λ item oi,
                 ∃ m, menus seen !! id item = Some m
                      ∧ menu_id oi = id item
                      ∧ item_price oi = price m
                      ∧ Int4.val (Schema.quantity oi) = Js.trunc (quantity item)
                      ∧ Int4.val (subtotal oi)
                        = Js.trunc (Js.of_int (price m) * quantity item)%Q)
        (items request) (order_items o).
Proof.
  intros (uid & tbl & data & o & db' & -> & _ & _ & Hrel & Htx & ->)%POST_at_201.
  apply checkout_tx_inv in Htx
    as (t & created & tbl' & db2 & Ht & Hc & _ & -> & Hdec & ->).
  apply order_items_create_inv in Hc as [_ Hcreated].
  apply decrement_loop_frame in Hdec as (_ & Horders & _).
  eexists. split; [simpl; exact Horders|].
  split; [simpl; by rewrite Ht, (totalAmount_cart seen _ _ Hrel)|]. simpl.
  apply Forall2_fmap_r.
  eapply Forall2_trans; [|exact Hrel|exact Hcreated].
  intros item d c (m & Hm & ->) (Hq & Hs & Hid & Hp & _). simpl in *.
  exists m. by split_and!.
Qed.

(** When the quantities of the cart are integers, the committed rows are
    consistent: the total is the sum of the subtotals, and each subtotal
    is the price validation read times the quantity. *)
Lemma integer_order_is_consistent (env : Env) (session : option string)
    (request : CheckoutRequest) (seen db : DB) :
  status (POST_at env session request seen db).1 = 201 →
  Forall (λ item, is_Some (Js.to_Int (quantity item))) (items request) →
  ∃ o,
    orders (POST_at env session request seen db).2 = orders db ++ [o]
    ∧ Int4.val (total_amount o) = sum_subtotals (order_items o)
    ∧ Forall2 (λ item oi,
                 ∃ m, menus seen !! id item = Some m
                      ∧ menu_id oi = id item
                      ∧ item_price oi = price m
                      ∧ Js.to_Int (quantity item) = Some (Int4.val (Schema.quantity oi))
                      ∧ Int4.val (subtotal oi) = price m * Schema.quantity oi)
        (items request) (order_items o).
Proof.
  intros H201 Hint.
  destruct (committed_order env session request seen db H201) as (o & Ho & Ht & Hrel).
  exists o. split; [done|].
  assert (Hrows : Forall2 (λ item oi,
                     ∃ m, menus seen !! id item = Some m
                          ∧ menu_id oi = id item
                          ∧ item_price oi = price m
                          ∧ Js.to_Int (quantity item)
                            = Some (Int4.val (Schema.quantity oi))
                          ∧ Int4.val (subtotal oi) = price m * Schema.quantity oi
                          ∧ Js.to_Int (Observe2.line_amount seen item)
                            = Some (Int4.val (subtotal oi)))
                   (items request) (order_items o)).
  { clear Ho Ht. induction Hrel as [|item oi r ois (m & Hm & Hid & Hp & Hq & Hs) _ IH];
      [constructor|].
    apply Forall_cons in Hint as [[z Hz] Hint].
    constructor; [|by apply IH]. exists m.
    pose proof (TruncFacts.trunc_Int _ _ Hz) as Hz'.
    pose proof (IntFacts.to_Int_mul (price m) _ _ Hz) as Hmul.
    rewrite (TruncFacts.trunc_Int _ _ Hmul) in Hs.
    split_and!; try done.
    - rewrite Hz. f_equal. congruence.
    - rewrite Hs. f_equal. congruence.
    - unfold Observe2.line_amount. rewrite Hm, Hmul. f_equal. congruence. }
  split.
  - rewrite Ht. apply TruncFacts.trunc_Int.
    clear Ho Ht Hrel Hint. unfold Observe2.cart_total.
    assert (Hgen : ∀ acc a, Js.to_Int acc = Some a →
              Js.to_Int (foldl (λ acc item, (acc + Observe2.line_amount seen item)%Q)
                           acc (items request))
              = Some (a + sum_subtotals (order_items o))).
    { induction Hrows as [|item oi r ois (m & _ & _ & _ & _ & _ & Hl) _ IH];
        intros acc a Ha; simpl foldl.
      - rewrite Ha. f_equal. unfold sum_subtotals. simpl. lia.
      - rewrite (IH _ (a + subtotal oi)) by by apply IntFacts.to_Int_add.
        f_equal.
        change (sum_subtotals (oi :: ois)) with (subtotal oi + sum_subtotals ois).
        lia. }
    rewrite (Hgen _ 0 (JsFacts.to_Int_of_int 0)). f_equal.
  - eapply Forall2_impl; [exact Hrows|]. intros item oi (m & ? & ? & ? & ? & ? & _).
    exists m. by split_and!.
Qed.

(** C2 fails on this cart.  Its two lines ask for [1.0625] and [2.03125]
    portions; both pass the shape check, and the request is answered 201.
    The order that is committed has a total of [87500], the integer part
    of [26562.5 + 60937.5], while its two items have the subtotals [26562]
    and [60937], which add up to [87499]; and the first item, with price
    [25000] and quantity [1], has a subtotal that is not their product. *)
Theorem fractional_lines_break_the_order_total :
  let request := Sample.cart [Sample.line "m1" (17 # 16); Sample.line "m3" (65 # 32)] in
  let r := POST Sample.env (Some "u1") request Sample.db in
  invalidItems (items request) = []
  ∧ status r.1 = 201
  ∧ ∃ o, orders r.2 = [o]
         ∧ Int4.val (total_amount o) = 87500
         ∧ (λ oi, (Int4.val (item_price oi), Int4.val (Schema.quantity oi),
                   Int4.val (subtotal oi))) <$> order_items o
           = [(25000, 1, 26562); (30000, 2, 60937)]
         ∧ sum_subtotals (order_items o) = 87499.
Proof.
  split; [reflexivity|]. split; [vm_compute; reflexivity|].
  eexists. split; [vm_compute; reflexivity|]. by vm_compute.
Qed.

(** *** Malformed lines *)


(** C6: the shape check lets a quantity through that is positive but not
    an integer.  On the cart below, whose only line asks for two and a
    half portions, [invalidItems] is empty; the request goes on to the
    transaction, which stores the integer part of the quantity, and the
    handler answers 201: an order for two portions is committed, the stock
    goes from ten to eight and the two log rows of a checkout are written,
    where the claim has a 400 that lists the line and no write. *)
Theorem fractional_quantity_passes_the_shape_check :
  let request := Sample.cart [Sample.line "m1" (5 # 2)] in
  let r := POST Sample.env (Some "u1") request Sample.db in
  Js.to_Int (5 # 2) = None
  ∧ invalidItems (items request) = []
  ∧ status r.1 = 201
  ∧ (∃ o, orders r.2 = [o]
          ∧ (λ oi, Int4.val (Schema.quantity oi)) <$> order_items o = [2])
  ∧ stock_of Sample.db "m1" = Some 10
  ∧ stock_of r.2 "m1" = Some 8
  ∧ action <$> logs r.2 = ["order_created"; "stock_updated"].
Proof.
  split; [reflexivity|]. split; [reflexivity|]. split; [vm_compute; reflexivity|].
  split; [eexists; split; vm_compute; reflexivity|].
  by vm_compute.
Qed.

(** *** Stock stays non-negative *)

Lemma POST_keeps_stock_nonneg (env : Env) (session : option string)
    (request : CheckoutRequest) (db : DB) :
  stock_nonneg db → stock_nonneg (POST env session request db).2.
Proof.
  intros Hdb. unfold POST.
  destruct (POST_at_cases env session request db db) as [Hreach|Hsame];
    [|by rewrite Hsame].
  pose proof Hreach as ([uid ->] & _ & [seen_tbl Hseen] & _ & Hwf & _ & Hnd).
  rewrite (POST_at_checked env uid request db db seen_tbl Hreach Hseen).
  destruct (bool_decide (0 < length (over_requested_report db (items request)))%nat)
    eqn:Hrep; [done|].
  destruct (orderItemsData _ _) as [e|data]; [done|].
  unfold transaction.
  destruct (checkout_tx _ _ _ _ _ _ _ _ _) as [e|[o db']] eqn:Htx; [done|].
  apply checkout_tx_inv in Htx
    as (t & created & tbl & db2 & _ & _ & _ & _ & Hdec & ->).
  apply decrement_loop_nonneg in Hdec as [Hnn _]; [done|done| |done].
  intros item m Hin Hm. simpl in Hm.
  rewrite Forall_forall in Hwf. destruct (Hwf item Hin) as [_ Hpos].
  apply TruncFacts.trunc_le; [done|].
  destruct (Js.ltb _ _) eqn:Hlt; [|done]. exfalso.
  apply bool_decide_eq_false in Hrep. apply Hrep.
  assert (Hel : {| se_menu_id := id item; se_menu_name := name m;
                   requested := quantity item; available := stock m |}
                ∈ over_requested_report db (items request)).
  { apply report_complete; [done|done|]. by apply JsFacts.ltb_Qlt. }
  destruct (over_requested_report db (items request)); [|simpl; lia].
  by apply elem_of_nil in Hel.
Qed.

(** C3: from a store in which no stock is negative, one stock adjustment
    or one checkout, whatever the request and whether it succeeds or
    fails, leads to a store in which no stock is negative.  The two
    mechanisms behind it: [subtract] never computes a stock below zero, and
    a checkout that changes the menu had no line above the stock of its
    item. *)
Theorem stock_stays_nonnegative (env : Env) (session : option string) (db : DB) :
  stock_nonneg db →
  (∀ i body, stock_nonneg (StockRoute.PUT env session i body db).2)
  ∧ (∀ request, stock_nonneg (POST env session request db).2)
  ∧ (∀ s q, 0 ≤ (StockRoute.compute_stock StockRoute.subtract s q).1)
  ∧ (∀ request, menus (POST env session request db).2 ≠ menus db →
                Forall (λ item, ¬ over_requested db item) (items request)).
Proof.
  intros Hdb. split_and!.
  - intros i body. by apply StockProps.PUT_keeps_stock_nonneg.
  - intros request. by apply POST_keeps_stock_nonneg.
  - intros s q. simpl. lia.
  - intros request Hchanged. apply report_nil.
    destruct (over_requested_report db (items request)) as [|e r] eqn:Hr; [done|].
    exfalso. apply Hchanged.
    rewrite (over_requested_commits_nothing env session request db); [done|].
    apply report_not_nil. by rewrite Hr.
Qed.

Lemma stock_stays_nonnegative_witness :
  (∀ i body, stock_nonneg (StockRoute.PUT Sample.env (Some "u1") i body Sample.db).2)
  ∧ (∀ request, stock_nonneg (POST Sample.env (Some "u1") request Sample.db).2)
  ∧ (∀ s q, 0 ≤ (StockRoute.compute_stock StockRoute.subtract s q).1)
  ∧ (∀ request, menus (POST Sample.env (Some "u1") request Sample.db).2
                ≠ menus Sample.db →
                Forall (λ item, ¬ over_requested Sample.db item) (items request)).
Proof.
  apply (stock_stays_nonnegative Sample.env (Some "u1") Sample.db).
  intros i m Hm.
  apply (map_Forall_lookup_1 (λ _ m, 0 ≤ stock m) (menus Sample.db) i m); [|done].
  apply (bool_decide_unpack _). vm_compute. exact I.
Defined.

End CheckoutProps.

(** ** More properties of the stock route *)

Module StockMore.
Import Schema Tx StockRoute Observe Observe2.

Lemma append_empty (s : string) : s +:+ EmptyString = s.
Proof.
  induction s as [|c s IH]; [done|].
  change (String c (s +:+ EmptyString) = String c s). by rewrite IH.
Qed.

Lemma with_stock_same (m : Menu) : with_stock (stock m) m = m.
Proof. by destruct m. Qed.

Lemma appended_adjusted uid i a item q reason new delta db :
  appended db (adjusted uid i a item q reason new delta db).2
  = [ {| user_id := Some uid; Schema.action := "stock_updated";
         message := stock_log_message a item delta new reason |} ].
Proof.
  unfold adjusted. simpl.
  apply (StockProps.appended_log_create _ (with_menus (<[i := with_stock new item]>) db)).
Qed.

(** The store after the [catch] block of an authenticated request: the
    store it was given and one [stock_error] row. *)
Lemma on_error_store (env : Env) (uid i : string) (e : Thrown) (db : DB) :
  (on_error env (Some uid) i e db).2
  = log_create {| user_id := Some uid; Schema.action := "stock_error";
                  message := "Stock update failed for menu item " +:+ i +:+ ": "
                             +:+ error_message env e |} db.
Proof. by destruct e. Qed.

(** An accepted body for an existing item ends in one of two ways: the
    column can hold the new stock and the update is committed, or it
    cannot and the route answers 500. *)
Lemma PUT_parsed (env : Env) (uid i : string) (body : StockUpdateBody)
    (v : StockUpdateRequest) (item : Menu) (db : DB) :
  stockUpdateSchema_parse (runtime env) body = inr v → menus db !! i = Some item →
  let new := (compute_stock (v_action v) (stock item) (v_quantity v)).1 in
  (Int4.min_int ≤ new ≤ Int4.max_int
   ∧ ∃ stored : Int4.int4,
       Int4.val stored = new
       ∧ PUT env (Some uid) i body db
         = adjusted uid i (v_action v) item (v_quantity v) (v_reason v) stored
             (compute_stock (v_action v) (stock item) (v_quantity v)).2 db)
  ∨ (¬ (Int4.min_int ≤ new ≤ Int4.max_int)
     ∧ PUT env (Some uid) i body db
       = on_error env (Some uid) i (LibraryError (OutOfRange "stock")) db).
Proof.
  intros Hp Hi new.
  destruct (Int4Facts.of_Z_cases new) as [(stored & _ & Hs)|[Hnone _]].
  - left. split; [rewrite <- Hs; apply Int4Facts.range|].
    exists stored. split; [done|].
    exact (StockProps.PUT_valid env uid i body v item stored db Hp Hi Hs).
  - right. split; [by apply Int4Facts.of_Z_None|].
    exact (StockProps.PUT_out_of_range env uid i body v item db Hp Hi Hnone).
Qed.

(** X1: an [add] of an integer [q >= 0] on an existing item with stock
    [s].  When the [Int] column can hold [s + q], the route answers 200,
    stores [s + q] and records the delta [q]; when [q > 0] and no reason is
    given, the log row reads [Stock add for "name": +q (s → s + q)].  When
    the column cannot hold [s + q], the route answers 500, the menu is as
    it was and the row that is written is a [stock_error] row. *)
Theorem add_increases_stock (env : Env) (uid i : string)
    (body : StockUpdateBody) (item : Menu) (q : Z) (db : DB) :
  menus db !! i = Some item →
  action body = Some (Js.JStr "add") →
  coerces_to (runtime env) (quantity body) q → 0 ≤ q →
  reason_acceptable (reason body) →
  let r := PUT env (Some uid) i body db in
  (stock item + q ≤ Int4.max_int →
     status r.1 = 200
     ∧ stock_of r.2 i = Some (stock item + q)
     ∧ change_of r.1 = Some {| previous_stock := stock item;
                               new_stock := stock item + q;
                               change := q; change_action := add |}
     ∧ (0 < q → Js.truthy_string (reason_text (reason body)) = None →
        appended db r.2
        = [ {| user_id := Some uid; Schema.action := "stock_updated";
               message := "Stock add for " +:+ dquote +:+ name item +:+ dquote
                          +:+ ": +" +:+ Js.show_int q
                          +:+ " (" +:+ Js.show_int (stock item) +:+ " → "
                          +:+ Js.show_int (stock item + q) +:+ ")" |} ]))
  ∧ (Int4.max_int < stock item + q →
     r.1 = json (ErrorBody "Failed to update stock") 500
     ∧ menus r.2 = menus db
     ∧ Schema.action <$> appended db r.2 = ["stock_error"]).
Proof.
  intros Hi Ha Hq Hpos Hr r. subst r.
  pose proof (StockProps.parse_ok (runtime env) body add q Ha Hq Hpos Hr) as Hp.
  pose proof (Int4Facts.range (stock item)) as Hs.
  destruct (PUT_parsed env uid i body _ item db Hp Hi)
    as [(Hfit & stored & Hst & ->)|[Hout ->]].
  - simpl in Hfit, Hst. split; [|lia]. intros _.
    split; [done|]. split; [by rewrite StockProps.stock_of_adjusted, Hst|].
    split; [unfold change_of, adjusted; simpl; by rewrite Hst|].
    intros Hq0 Hnone. rewrite appended_adjusted. simpl. unfold stock_log_message.
    rewrite Hnone, Hst. apply Z.ltb_lt in Hq0. rewrite Hq0. simpl.
    by rewrite append_empty.
  - simpl in Hout.
    split; [intros Hle; exfalso; apply Hout; unfold Int4.min_int in *; lia|]. intros _.
    split; [done|]. split; [done|].
    by rewrite on_error_store, StockProps.appended_log_create.
Qed.

Lemma add_increases_stock_witness :
  let r := PUT Sample.env (Some "admin") "m2"
             (Sample.stock_request "add" (10 # 1)) Sample.db in
  (stock Sample.teh + 10 ≤ Int4.max_int →
     status r.1 = 200
     ∧ stock_of r.2 "m2" = Some (stock Sample.teh + 10)
     ∧ change_of r.1 = Some {| previous_stock := stock Sample.teh;
                               new_stock := stock Sample.teh + 10;
                               change := 10; change_action := add |}
     ∧ (0 < 10 → Js.truthy_string (reason_text None) = None →
        appended Sample.db r.2
        = [ {| user_id := Some "admin"; Schema.action := "stock_updated";
               message := "Stock add for " +:+ dquote +:+ name Sample.teh +:+ dquote
                          +:+ ": +" +:+ Js.show_int 10
                          +:+ " (" +:+ Js.show_int (stock Sample.teh) +:+ " → "
                          +:+ Js.show_int (stock Sample.teh + 10) +:+ ")" |} ]))
  ∧ (Int4.max_int < stock Sample.teh + 10 →
     r.1 = json (ErrorBody "Failed to update stock") 500
     ∧ menus r.2 = menus Sample.db
     ∧ Schema.action <$> appended Sample.db r.2 = ["stock_error"]).
Proof.
  apply (add_increases_stock Sample.env "admin" "m2"
           (Sample.stock_request "add" (10 # 1)) Sample.teh 10 Sample.db).
  - vm_compute; reflexivity.
  - reflexivity.
  - exists (10 # 1). split; reflexivity.
  - lia.
  - left; reflexivity.
Defined.

(** X2: whatever the session, the item id and the body, the stock route
    leaves the tables, the orders, every other menu row and the name,
    availability and price of the addressed row as they were, and appends
    at most one log row, written in the name of the caller. *)
Theorem stock_update_touches_one_stock (env : Env) (session : option string)
    (i : string) (body : StockUpdateBody) (db : DB) :
  let r := PUT env session i body db in
  tables r.2 = tables db
  ∧ orders r.2 = orders db
  ∧ (∀ j, j ≠ i → menus r.2 !! j = menus db !! j)
  ∧ fixed_columns <$> menus r.2 !! i = fixed_columns <$> menus db !! i
  ∧ ∃ ls, logs r.2 = logs db ++ ls ∧ (length ls ≤ 1)%nat
          ∧ Forall (λ l, user_id l = session) ls.
Proof.
  intros r. subst r.
  assert (Hsame : ∀ d : DB, tables d = tables db → orders d = orders db →
            menus d = menus db → logs d = logs db →
            tables d = tables db ∧ orders d = orders db
            ∧ (∀ j, j ≠ i → menus d !! j = menus db !! j)
            ∧ fixed_columns <$> menus d !! i = fixed_columns <$> menus db !! i
            ∧ ∃ ls, logs d = logs db ++ ls ∧ (length ls ≤ 1)%nat
                    ∧ Forall (λ l, user_id l = session) ls).
  { intros d Ht Ho Hm Hl. rewrite Hm. split_and!; try done.
    exists []. rewrite app_nil_r. split_and!; [done|simpl; lia|constructor]. }
  destruct session as [uid|]; [|by apply Hsame].
  assert (Herr : ∀ e,
            let d := (on_error env (Some uid) i e db).2 in
            tables d = tables db ∧ orders d = orders db
            ∧ (∀ j, j ≠ i → menus d !! j = menus db !! j)
            ∧ fixed_columns <$> menus d !! i = fixed_columns <$> menus db !! i
            ∧ ∃ ls, logs d = logs db ++ ls ∧ (length ls ≤ 1)%nat
                    ∧ Forall (λ l, user_id l = Some uid) ls).
  { intros e d. subst d. rewrite on_error_store. simpl.
    split_and!; try done. eexists. split; [reflexivity|].
    split; [simpl; lia|]. by repeat constructor. }
  destruct (stockUpdateSchema_parse (runtime env) body) as [e|v] eqn:Hp.
  - rewrite (StockProps.PUT_refused env uid i body e db Hp). apply Herr.
  - destruct (menus db !! i) as [item|] eqn:Hi.
    + destruct (PUT_parsed env uid i body v item db Hp Hi)
        as [(_ & stored & _ & ->)|[_ ->]]; [|apply Herr].
      unfold adjusted. simpl. split_and!; try done.
      * intros j Hj. by rewrite lookup_insert_ne.
      * by rewrite lookup_insert_eq.
      * eexists. split; [reflexivity|]. split; [simpl; lia|]. by repeat constructor.
    + unfold PUT. rewrite Hp, Hi. by apply Hsame.
Qed.

(** X3: on a stock [s] that is not negative, when the [Int] column can
    hold [s + q], an [add] of [q] followed by a [subtract] of [q] restores
    the menu exactly; a [subtract] of [q] followed by an [add] of [q] ends
    at [max 0 (s - q) + q], which is the old stock [s] only when
    [q <= s]. *)
Theorem add_and_subtract_compose (env1 env2 : Env) (uid i : string)
    (item : Menu) (qn : Js.number) (q : Z) (why1 why2 : option string) (db : DB) :
  menus db !! i = Some item → 0 ≤ stock item →
  Js.to_Int qn = Some q → 0 ≤ q → stock item + q ≤ Int4.max_int →
  let plus := {| action := Some (Js.JStr "add"); quantity := Some (Js.JNum qn);
                 reason := Js.JStr <$> why1 |} in
  let minus := {| action := Some (Js.JStr "subtract"); quantity := Some (Js.JNum qn);
                  reason := Js.JStr <$> why2 |} in
  menus (PUT env2 (Some uid) i minus (PUT env1 (Some uid) i plus db).2).2 = menus db
  ∧ stock_of (PUT env2 (Some uid) i plus (PUT env1 (Some uid) i minus db).2).2 i
    = Some (Z.max 0 (stock item - q) + q)
  ∧ (Z.max 0 (stock item - q) + q = stock item ↔ q ≤ stock item).
Proof.
  intros Hi Hs Hz Hpos Hfit plus minus.
  assert (Hc : ∀ rt, coerces_to rt (Some (Js.JNum qn)) q) by (intros rt; by exists qn).
  assert (Hr : ∀ why, reason_acceptable (Js.JStr <$> why)).
  { intros [w|]; [right; by exists w|by left]. }
  assert (Hplus : ∀ rt, ∃ r, stockUpdateSchema_parse rt plus
                  = inr {| v_action := add; v_quantity := q; v_reason := r |}).
  { intros rt. eexists.
    apply (StockProps.parse_ok rt plus add q); [done|apply Hc|done|apply Hr]. }
  assert (Hminus : ∀ rt, ∃ r, stockUpdateSchema_parse rt minus
                   = inr {| v_action := subtract; v_quantity := q; v_reason := r |}).
  { intros rt. eexists.
    apply (StockProps.parse_ok rt minus subtract q); [done|apply Hc|done|apply Hr]. }
  pose proof (Int4Facts.range (stock item)) as Hrange.
  destruct (Int4Facts.of_Z_in_range (stock item + q)) as (up & _ & Hup);
    [unfold Int4.min_int in *; lia|].
  destruct (Int4Facts.of_Z_in_range (Z.max 0 (stock item - q))) as (down & _ & Hdown);
    [unfold Int4.min_int, Int4.max_int in *; lia|].
  destruct (Int4Facts.of_Z_in_range (Z.max 0 (stock item - q) + q)) as (back & _ & Hback);
    [unfold Int4.min_int, Int4.max_int in *; lia|].
  split_and!.
  - destruct (Hplus (runtime env1)) as [r1 Hp1]. destruct (Hminus (runtime env2)) as [r2 Hp2].
    rewrite (StockProps.PUT_valid env1 uid i plus _ item up db Hp1 Hi Hup).
    rewrite (StockProps.PUT_valid env2 uid i minus _ (with_stock up item) (stock item)
               _ Hp2);
      [|unfold adjusted; simpl; apply lookup_insert_eq|simpl; lia].
    unfold adjusted. simpl. rewrite insert_insert_eq.
    apply insert_id. by destruct item.
  - destruct (Hminus (runtime env1)) as [r1 Hp1]. destruct (Hplus (runtime env2)) as [r2 Hp2].
    rewrite (StockProps.PUT_valid env1 uid i minus _ item down db Hp1 Hi Hdown).
    rewrite (StockProps.PUT_valid env2 uid i plus _ (with_stock down item) back _ Hp2);
      [|unfold adjusted; simpl; apply lookup_insert_eq|simpl; lia].
    by rewrite StockProps.stock_of_adjusted, Hback.
  - lia.
Qed.

Lemma add_and_subtract_compose_witness :
  let plus := {| action := Some (Js.JStr "add"); quantity := Some (Js.JNum (5 # 1));
                 reason := Js.JStr <$> None |} in
  let minus := {| action := Some (Js.JStr "subtract");
                  quantity := Some (Js.JNum (5 # 1));
                  reason := Js.JStr <$> None |} in
  menus (PUT Sample.env (Some "admin") "m2" minus
           (PUT Sample.env (Some "admin") "m2" plus Sample.db).2).2 = menus Sample.db
  ∧ stock_of (PUT Sample.env (Some "admin") "m2" plus
                (PUT Sample.env (Some "admin") "m2" minus Sample.db).2).2 "m2"
    = Some (Z.max 0 (stock Sample.teh - 5) + 5)
  ∧ (Z.max 0 (stock Sample.teh - 5) + 5 = stock Sample.teh ↔ 5 ≤ stock Sample.teh).
Proof.
  apply (add_and_subtract_compose Sample.env Sample.env "admin" "m2" Sample.teh
           (5 # 1) 5 None None Sample.db).
  - vm_compute; reflexivity.
  - simpl; lia.
  - reflexivity.
  - lia.
  - simpl; unfold Int4.max_int; lia.
Defined.

(** X4: a quantity of zero is accepted: an [add] or a [subtract] of [0] on
    a stock that is not negative answers 200, leaves the menu as it was,
    reports a change of [0], and still appends one [stock_updated] row. *)
Theorem zero_quantity_is_accepted_and_logged (env : Env) (uid i : string)
    (body : StockUpdateBody) (item : Menu) (a : Action) (db : DB) :
  menus db !! i = Some item → 0 ≤ stock item →
  a ≠ set → action body = Some (Js.JStr (Action_name a)) →
  coerces_to (runtime env) (quantity body) 0 →
  reason_acceptable (reason body) →
  let r := PUT env (Some uid) i body db in
  status r.1 = 200
  ∧ menus r.2 = menus db
  ∧ change_of r.1 = Some {| previous_stock := stock item; new_stock := stock item;
                            change := 0; change_action := a |}
  ∧ ∃ l, appended db r.2 = [l] ∧ Schema.action l = "stock_updated".
Proof.
  intros Hi Hs Ha Hact Hq Hr r. subst r.
  pose proof (StockProps.parse_ok (runtime env) body a 0 Hact Hq ltac:(lia) Hr) as Hp.
  assert (Hnew : Int4.val (stock item) = (compute_stock a (stock item) 0).1)
    by (destruct a; simpl; [lia|done|lia]).
  rewrite (StockProps.PUT_valid env uid i body _ item (stock item) db Hp Hi Hnew).
  split; [done|]. split; [|split].
  - unfold adjusted. simpl. apply insert_id. by rewrite with_stock_same.
  - unfold change_of, adjusted. simpl. destruct a; simpl; [|done|].
    + do 3 f_equal; lia.
    + do 3 f_equal; lia.
  - rewrite appended_adjusted. by eexists.
Qed.

Lemma zero_quantity_is_accepted_and_logged_witness :
  let r := PUT Sample.env (Some "admin") "m1"
             (Sample.stock_request "subtract" (0 # 1)) Sample.db in
  status r.1 = 200
  ∧ menus r.2 = menus Sample.db
  ∧ change_of r.1 = Some {| previous_stock := stock Sample.nasi;
                            new_stock := stock Sample.nasi;
                            change := 0; change_action := subtract |}
  ∧ ∃ l, appended Sample.db r.2 = [l] ∧ Schema.action l = "stock_updated".
Proof.
  apply (zero_quantity_is_accepted_and_logged Sample.env "admin" "m1"
           (Sample.stock_request "subtract" (0 # 1)) Sample.nasi subtract
           Sample.db).
  - vm_compute; reflexivity.
  - simpl; lia.
  - discriminate.
  - reflexivity.
  - exists (0 # 1). split; reflexivity.
  - left; reflexivity.
Defined.

(** X5: the schema of the stock route accepts a body exactly when its
    action is one of the texts [add], [set], [subtract], the number its
    quantity is coerced to is an integer that is not negative, and its
    reason is absent or a text; the validated data then carry that action,
    that integer and that reason.  The coercion makes [null] the quantity
    [0] and [true] the quantity [1]; an absent quantity and an infinite
    one are coerced to no integer. *)
Theorem stock_schema_accepts_exactly (rt : Js.Runtime) (body : StockUpdateBody)
    (v : StockUpdateRequest) :
  (stockUpdateSchema_parse rt body = inr v
   ↔ action body = Some (Js.JStr (Action_name (v_action v)))
     ∧ coerces_to rt (quantity body) (v_quantity v)
     ∧ 0 ≤ v_quantity v
     ∧ reason_acceptable (reason body)
     ∧ v_reason v = reason_text (reason body))
  ∧ coerces_to rt (Some Js.JNull) 0
  ∧ coerces_to rt (Some (Js.JBool true)) 1
  ∧ (∀ z, ¬ coerces_to rt None z)
  ∧ (∀ negative z, ¬ coerces_to rt (Some (Js.JInf negative)) z).
Proof.
  split_and!.
  - split.
    + apply StockProps.parse_inv.
    + intros (Ha & Hq & Hpos & Hr & Hv).
      rewrite (StockProps.parse_ok rt body (v_action v) (v_quantity v) Ha Hq Hpos Hr).
      rewrite <- Hv. by destruct v.
  - by exists (Js.of_int 0).
  - by exists (Js.of_int 1).
  - intros z (q & Hq & _). discriminate Hq.
  - intros negative z (q & Hq & _). discriminate Hq.
Qed.

(** An authenticated update that is answered 200 had a body the schema
    accepts, an item that exists and a new stock the column can hold. *)
Lemma PUT_200 (env : Env) (uid i : string) (body : StockUpdateBody) (db : DB) :
  status (PUT env (Some uid) i body db).1 = 200 →
  ∃ v item (stored : Int4.int4),
    stockUpdateSchema_parse (runtime env) body = inr v
    ∧ menus db !! i = Some item
    ∧ Int4.val stored = (compute_stock (v_action v) (stock item) (v_quantity v)).1
    ∧ PUT env (Some uid) i body db
      = adjusted uid i (v_action v) item (v_quantity v) (v_reason v) stored
          (compute_stock (v_action v) (stock item) (v_quantity v)).2 db.
Proof.
  intros H200.
  destruct (stockUpdateSchema_parse (runtime env) body) as [e|v] eqn:Hp.
  { rewrite (StockProps.PUT_refused env uid i body e db Hp) in H200.
    by destruct e. }
  destruct (menus db !! i) as [item|] eqn:Hi.
  - destruct (PUT_parsed env uid i body v item db Hp Hi)
      as [(_ & stored & Hs & Heq)|[_ Heq]].
    + by exists v, item, stored.
    + rewrite Heq in H200. discriminate H200.
  - unfold PUT in H200. rewrite Hp, Hi in H200. discriminate H200.
Qed.

(** X6: after a stock update that went through (it was answered 200), the
    read side of the route reports the stock the update computed, with
    the level that goes with it ([low] up to 5, [medium] up to 20, [good]
    above) and the name and availability the item had; after a
    [subtract] of at least the whole stock it reports [0] and [low]. *)
Theorem read_after_update (env : Env) (cat : string → string) (uid i : string)
    (body : StockUpdateBody) (item : Menu) (db : DB) :
  menus db !! i = Some item →
  status (PUT env (Some uid) i body db).1 = 200 →
  ∃ v, stockUpdateSchema_parse (runtime env) body = inr v
  ∧ let new := (compute_stock (v_action v) (stock item) (v_quantity v)).1 in
    StockRead.GET cat i (PUT env (Some uid) i body db).2
    = StockRead.json
        (StockRead.InfoBody
           {| StockRead.id := i; StockRead.name := name item;
              StockRead.category := cat i;
              StockRead.current_stock := new;
              StockRead.is_available := is_available item;
              StockRead.stock_status := StockRead.stock_status_of new |}) 200
    ∧ (StockRead.stock_status_of new = StockRead.low ↔ new ≤ 5)
    ∧ (StockRead.stock_status_of new = StockRead.good ↔ 20 < new)
    ∧ (v_action v = subtract → stock item ≤ v_quantity v →
       new = 0 ∧ StockRead.stock_status_of new = StockRead.low).
Proof.
  intros Hi (v & item' & stored & Hp & Hi' & Hs & ->)%PUT_200.
  rewrite Hi in Hi'. injection Hi' as <-.
  exists v. split; [done|]. intros new. fold new in Hs. split_and!.
  - unfold StockRead.GET, adjusted. simpl. rewrite lookup_insert_eq. simpl.
    by rewrite Hs.
  - unfold StockRead.stock_status_of.
    destruct (Z.leb_spec new 5), (Z.leb_spec new 20); split; (done || lia).
  - unfold StockRead.stock_status_of.
    destruct (Z.leb_spec new 5), (Z.leb_spec new 20); split; (done || lia).
  - intros Ha Hle. subst new. rewrite Ha. simpl.
    replace (Z.max 0 (stock item - v_quantity v)) with 0 by lia. done.
Qed.

Lemma read_after_update_witness :
  ∃ v, stockUpdateSchema_parse Sample.rt (Sample.stock_request "subtract" (20 # 1))
       = inr v
  ∧ let new := (compute_stock (v_action v) (stock Sample.sate) (v_quantity v)).1 in
    StockRead.GET Sample2.category_name "m3"
      (PUT Sample.env (Some "admin") "m3"
         (Sample.stock_request "subtract" (20 # 1)) Sample.db).2
    = StockRead.json
        (StockRead.InfoBody
           {| StockRead.id := "m3"; StockRead.name := name Sample.sate;
              StockRead.category := Sample2.category_name "m3";
              StockRead.current_stock := new;
              StockRead.is_available := is_available Sample.sate;
              StockRead.stock_status := StockRead.stock_status_of new |}) 200
    ∧ (StockRead.stock_status_of new = StockRead.low ↔ new ≤ 5)
    ∧ (StockRead.stock_status_of new = StockRead.good ↔ 20 < new)
    ∧ (v_action v = subtract → stock Sample.sate ≤ v_quantity v →
       new = 0 ∧ StockRead.stock_status_of new = StockRead.low).
Proof.
  apply (read_after_update Sample.env Sample2.category_name "admin" "m3"
           (Sample.stock_request "subtract" (20 # 1)) Sample.sate Sample.db).
  - vm_compute; reflexivity.
  - vm_compute; reflexivity.
Defined.

(** X22: an authenticated update with an accepted body for an existing
    item is answered 200 or 500, and 500 exactly when the new stock is
    above the largest value of the [Int] column, which a [subtract] never
    computes.  The store is then the one the route was given with one
    [stock_error] row more, whose message ends with the text of the
    library's error. *)
Theorem update_beyond_the_column_is_refused (env : Env) (uid i : string)
    (body : StockUpdateBody) (v : StockUpdateRequest) (item : Menu) (db : DB) :
  stockUpdateSchema_parse (runtime env) body = inr v → menus db !! i = Some item →
  let new := (compute_stock (v_action v) (stock item) (v_quantity v)).1 in
  let r := PUT env (Some uid) i body db in
  (status r.1 = 200 ∨ status r.1 = 500)
  ∧ (status r.1 = 500 ↔ Int4.max_int < new)
  ∧ (status r.1 = 500 →
     v_action v ≠ subtract
     ∧ r = (json (ErrorBody "Failed to update stock") 500,
            log_create
              {| user_id := Some uid; Schema.action := "stock_error";
                 message := "Stock update failed for menu item " +:+ i +:+ ": "
                            +:+ library_message env (OutOfRange "stock") |} db)).
Proof.
  intros Hp Hi new r. subst r.
  destruct (StockProps.parse_inv (runtime env) body v Hp) as (_ & _ & Hq & _).
  pose proof (Int4Facts.range (stock item)) as Hs.
  assert (Hlow : Int4.min_int ≤ new ∧ (v_action v = subtract → new ≤ Int4.max_int)).
  { subst new. unfold Int4.min_int, Int4.max_int in *.
    destruct (v_action v); simpl; split; (lia || done). }
  destruct (PUT_parsed env uid i body v item db Hp Hi)
    as [(Hfit & stored & _ & ->)|[Hout ->]]; fold new in Hfit || fold new in Hout.
  - split; [by left|]. split; [|discriminate].
    split; [discriminate|]. intros Hgt. lia.
  - assert (Hgt : Int4.max_int < new) by lia.
    split; [by right|]. split; [done|]. intros _.
    split; [|done]. intros Ha. destruct Hlow as [_ Hle]. specialize (Hle Ha). lia.
Qed.

Lemma update_beyond_the_column_is_refused_witness :
  let body := Sample.stock_request "add" (2147483640 # 1) in
  let v := {| v_action := add; v_quantity := 2147483640; v_reason := None |} in
  let new := (compute_stock (v_action v) (stock Sample.nasi) (v_quantity v)).1 in
  let r := PUT Sample.env (Some "admin") "m1" body Sample.db in
  (status r.1 = 200 ∨ status r.1 = 500)
  ∧ (status r.1 = 500 ↔ Int4.max_int < new)
  ∧ (status r.1 = 500 →
     v_action v ≠ subtract
     ∧ r = (json (ErrorBody "Failed to update stock") 500,
            log_create
              {| user_id := Some "admin"; Schema.action := "stock_error";
                 message := "Stock update failed for menu item " +:+ "m1" +:+ ": "
                            +:+ library_message Sample.env (OutOfRange "stock") |}
              Sample.db)).
Proof.
  apply (update_beyond_the_column_is_refused Sample.env "admin" "m1"
           (Sample.stock_request "add" (2147483640 # 1))
           {| v_action := add; v_quantity := 2147483640; v_reason := None |}
           Sample.nasi Sample.db).
  - reflexivity.
  - vm_compute; reflexivity.
Defined.

(** What the schema of the dialog lets through is an integer above
    zero. *)
Lemma form_quantity_positive (n : Js.coerced) (z : Z) :
  StockForm.check_quantity n = inr z → ∃ q, n = Js.Finite q ∧ Js.to_Int q = Some z ∧ 0 < z.
Proof.
  unfold StockForm.check_quantity. destruct n as [q|negative|]; [|discriminate..].
  destruct (Js.to_Int q) as [z'|] eqn:Hz; simpl.
  - destruct (Js.leb q (Js.of_int 0)) eqn:Hle; simpl; [discriminate|].
    intros [= <-]. exists q. split; [done|]. split; [done|].
    apply JsFacts.to_Int_Some in Hz.
    destruct (Z.lt_ge_cases 0 z') as [|Hneg]; [done|]. exfalso.
    assert (Htrue : Js.leb q (Js.of_int 0) = true); [|congruence].
    apply Qle_bool_iff. unfold Qle. simpl. rewrite Hz. nia.
  - destruct (Js.leb q (Js.of_int 0)); discriminate.
Qed.

(** X7: whatever the stock dialog accepts, the schema of the route
    accepts: the body built from data that passed the form's schema parses
    to the same action and quantity, which is above zero.  The route then
    answers 200 exactly when the [Int] column can hold the new stock, and
    when it does, the stock the dialog announces for [add] and [subtract]
    is the stock the route stores. *)
Theorem form_submission_is_accepted (env : Env) (uid i : string)
    (values : StockForm.StockFormValues) (data : StockForm.StockFormData)
    (item : Menu) (db : DB) :
  StockForm.stockFormSchema_parse (runtime env) values = inr data →
  menus db !! i = Some item →
  let r := PUT env (Some uid) i (StockForm.submit_body data) db in
  stockUpdateSchema_parse (runtime env) (StockForm.submit_body data)
  = inr {| v_action := StockForm.d_action data;
           v_quantity := StockForm.d_quantity data;
           v_reason := Js.truthy_string (StockForm.d_reason data) |}
  ∧ 0 < StockForm.d_quantity data
  ∧ (status r.1 = 200
     ↔ (compute_stock (StockForm.d_action data) (stock item)
          (StockForm.d_quantity data)).1 ≤ Int4.max_int)
  ∧ (status r.1 = 200 →
     ∀ n, StockForm.preview (StockForm.d_action data) (stock item)
            (StockForm.d_quantity data) = Some n →
          stock_of r.2 i = Some n)
  ∧ (StockForm.d_action data ≠ set →
     is_Some (StockForm.preview (StockForm.d_action data) (stock item)
                (StockForm.d_quantity data))).
Proof.
  intros Hform Hi r. subst r.
  assert (Hpos : 0 < StockForm.d_quantity data).
  { unfold StockForm.stockFormSchema_parse, StockForm.parse_quantity in Hform.
    destruct (Js.Number (runtime env) (StockForm.quantity values)) as [msg|n];
      [discriminate|].
    destruct (StockForm.check_quantity n) as [e|z] eqn:Hq;
      destruct (StockForm.parse_action (StockForm.action values)) as [e'|a];
      destruct (parse_reason (StockForm.reason values)) as [e''|w];
      try discriminate.
    injection Hform as <-. simpl.
    by apply form_quantity_positive in Hq as (q & _ & _ & Hz). }
  assert (Hp : stockUpdateSchema_parse (runtime env) (StockForm.submit_body data)
               = inr {| v_action := StockForm.d_action data;
                        v_quantity := StockForm.d_quantity data;
                        v_reason := Js.truthy_string (StockForm.d_reason data) |}).
  { rewrite (StockProps.parse_ok (runtime env) (StockForm.submit_body data)
               (StockForm.d_action data) (StockForm.d_quantity data));
      [|done| |lia|].
    - simpl. by destruct (Js.truthy_string (StockForm.d_reason data)).
    - exists (Js.of_int (StockForm.d_quantity data)).
      split; [done|apply JsFacts.to_Int_of_int].
    - simpl. destruct (Js.truthy_string (StockForm.d_reason data)) as [w|];
        [right; by exists w|by left]. }
  pose proof (Int4Facts.range (stock item)) as Hs.
  split; [done|]. split; [done|].
  destruct (PUT_parsed env uid i _ _ item db Hp Hi)
    as [(Hfit & stored & Hst & ->)|[Hout ->]].
  - simpl in Hfit, Hst. split; [split; [lia|done]|]. split.
    + intros _ n Hn. rewrite StockProps.stock_of_adjusted, Hst.
      unfold StockForm.preview in Hn.
      destruct (StockForm.d_action data); simpl;
        destruct (0 <? StockForm.d_quantity data); congruence.
    + intros Hset. unfold StockForm.preview. apply Z.ltb_lt in Hpos. rewrite Hpos.
      destruct (StockForm.d_action data); by eauto.
  - simpl in Hout. split; [|split; [discriminate|]].
    + split; [discriminate|]. intros Hle. exfalso. apply Hout.
      unfold Int4.min_int, Int4.max_int in *.
      destruct (StockForm.d_action data); simpl in *; lia.
    + intros Hset. unfold StockForm.preview. apply Z.ltb_lt in Hpos. rewrite Hpos.
      destruct (StockForm.d_action data); by eauto.
Qed.

Lemma form_submission_is_accepted_witness :
  let data := {| StockForm.d_quantity := 4; StockForm.d_action := subtract;
                 StockForm.d_reason := Some EmptyString |} in
  let r := PUT Sample.env (Some "admin") "m2" (StockForm.submit_body data) Sample.db in
  stockUpdateSchema_parse Sample.rt (StockForm.submit_body data)
  = inr {| v_action := StockForm.d_action data;
           v_quantity := StockForm.d_quantity data;
           v_reason := Js.truthy_string (StockForm.d_reason data) |}
  ∧ 0 < StockForm.d_quantity data
  ∧ (status r.1 = 200
     ↔ (compute_stock (StockForm.d_action data) (stock Sample.teh)
          (StockForm.d_quantity data)).1 ≤ Int4.max_int)
  ∧ (status r.1 = 200 →
     ∀ n, StockForm.preview (StockForm.d_action data) (stock Sample.teh)
            (StockForm.d_quantity data) = Some n →
          stock_of r.2 "m2" = Some n)
  ∧ (StockForm.d_action data ≠ set →
     is_Some (StockForm.preview (StockForm.d_action data) (stock Sample.teh)
                (StockForm.d_quantity data))).
Proof.
  apply (form_submission_is_accepted Sample.env "admin" "m2"
           (Sample2.form "subtract" (4 # 1))
           {| StockForm.d_quantity := 4; StockForm.d_action := subtract;
              StockForm.d_reason := Some EmptyString |} Sample.teh Sample.db).
  - reflexivity.
  - vm_compute; reflexivity.
Defined.

End StockMore.

(** ** More properties of the checkout route *)

Module CheckoutMore.
Import Schema Tx CheckoutRoute Observe Observe2.

(** *** Checkouts that commit *)


(** X8: a checkout that is answered 201, served with no other writer in
    between, leaves the tables alone, takes from the stock of each ordered
    item exactly the integer part of the quantity of its line, changes no
    other column and no other item, and appends one [order_created] row
    followed by one [stock_updated] row per line, all in the name of the
    customer. *)
Theorem successful_checkout_effects (env : Env) (session : option string)
    (request : CheckoutRequest) (db : DB) :
  let r := POST env session request db in
  status r.1 = 201 →
  tables r.2 = tables db
  ∧ (∀ item m, item ∈ items request → menus db !! id item = Some m →
       stock_of r.2 (id item) = Some (stock m - Js.trunc (quantity item))
       ∧ fixed_columns <$> menus r.2 !! id item = Some (fixed_columns m))
  ∧ (∀ j, j ∉ id <$> items request → menus r.2 !! j = menus db !! j)
  ∧ ∃ first rest,
      appended db r.2 = first :: rest
      ∧ action first = "order_created"
      ∧ length rest = length (items request)
      ∧ Forall (λ l, action l = "stock_updated") rest
      ∧ Forall (λ l, user_id l = session) (first :: rest).
Proof.
  intros r H201. subst r. unfold POST in *.
  apply CheckoutProps.POST_at_201 in H201
    as (uid & tbl & data & o & db' & -> & Hvalid & Htbl & _ & Htx & ->). simpl.
  apply CheckoutProps.checkout_tx_inv in Htx
    as (t & created & tbl' & db2 & _ & _ & _ & Ho & Hdec & ->).
  pose proof (CheckoutProps.decrement_loop_frame _ _ _ Hdec) as (Htables & _ & Hlogs).
  destruct Hvalid as ((_ & _ & _ & _ & _ & Hord & Hnd) & _).
  apply CheckoutProps.decrement_loop_exact in Hdec as [Hin Hout]; [|done].
  split; [done|]. split; [|split; [exact Hout|]].
  { intros item m Hitem Hm. destruct (Hin item m Hitem Hm) as (v & Hv & Hlook).
    unfold stock_of. simpl. rewrite Hlook. simpl. by rewrite Hv. }
  do 2 eexists. unfold appended. simpl. rewrite Hlogs. simpl.
  rewrite drop_app_length.
  split; [reflexivity|]. split; [done|].
  assert (Hall : ∀ l,
            l ∈ omap (λ item, (λ mi, stock_reduced_log env uid o mi item)
                                <$> find_menu (menu_findMany (id <$> items request) db)
                                      (id item)) (items request) →
            action l = "stock_updated" ∧ user_id l = Some uid).
  { intros l (item & _ & Hl)%list_elem_of_omap.
    destruct (find_menu _ _); [|done]. by injection Hl as <-. }
  subst o. split_and!.
  - clear Hall Hin Hout Hlogs Hnd. rewrite Forall_forall in Hord.
    assert (Hsub : ∀ item, item ∈ items request →
              id item ∈ id <$> items request) by (intros; by apply list_elem_of_fmap_2).
    revert Hord Hsub. generalize (id <$> items request) as ids.
    induction (items request) as [|x rest IH]; intros ids Hord Hsub; [done|].
    rewrite CheckoutProps.omap_cons_eq, CheckoutProps.find_menu_findMany.
    destruct (Hord x) as (m & Hm & Ha); [left|]. rewrite Hm, Ha.
    rewrite (bool_decide_eq_true_2 _ (Hsub x (list_elem_of_here _ _))). simpl.
    f_equal. apply IH; intros y Hy; [apply Hord|apply Hsub]; by right.
  - apply Forall_forall. intros l Hl. by apply Hall.
  - constructor; [done|]. apply Forall_forall. intros l Hl. by apply Hall.
Qed.

Lemma successful_checkout_effects_witness :
  let request := Sample.cart [Sample.line "m1" (3 # 1); Sample.line "m3" (5 # 2)] in
  let r := POST Sample.env (Some "u1") request Sample.db in
  tables r.2 = tables Sample.db
  ∧ (∀ item m, item ∈ items request → menus Sample.db !! id item = Some m →
       stock_of r.2 (id item) = Some (stock m - Js.trunc (quantity item))
       ∧ fixed_columns <$> menus r.2 !! id item = Some (fixed_columns m))
  ∧ (∀ j, j ∉ id <$> items request → menus r.2 !! j = menus Sample.db !! j)
  ∧ ∃ first rest,
      appended Sample.db r.2 = first :: rest
      ∧ action first = "order_created"
      ∧ length rest = length (items request)
      ∧ Forall (λ l, action l = "stock_updated") rest
      ∧ Forall (λ l, user_id l = Some "u1") (first :: rest).
Proof.
  apply (successful_checkout_effects Sample.env (Some "u1")
           (Sample.cart [Sample.line "m1" (3 # 1); Sample.line "m3" (5 # 2)])
           Sample.db).
  vm_compute. reflexivity.
Defined.





(** *** Refusals *)

(** X10: a checkout is all or nothing.  Whatever the session, the request
    and the two stores, the handler either answers 201 and has added one
    order; or answers 400 or 401 and returns the store as it was; or
    answers 500 and has added nothing but one [order_error] row in the name
    of the caller. *)
Theorem checkout_is_all_or_nothing (env : Env) (session : option string)
    (request : CheckoutRequest) (seen db : DB) :
  let r := POST_at env session request seen db in
  (status r.1 = 201 ∧ tables r.2 = tables db ∧ ∃ o, orders r.2 = orders db ++ [o])
  ∨ ((status r.1 = 400 ∨ status r.1 = 401) ∧ r.2 = db)
  ∨ (status r.1 = 500
     ∧ ∃ l, r.2 = log_create l db ∧ action l = "order_error" ∧ user_id l = session).
Proof.
  intros r. subst r.
  destruct (CheckoutProps.POST_at_refusals env session request seen db) as [Hreach|[Hsame Hst]];
    [|right; left; by split].
  pose proof Hreach as ([uid ->] & _ & [tbl Htbl] & _).
  rewrite (CheckoutProps.POST_at_checked env uid request seen db tbl Hreach Htbl).
  destruct (bool_decide _); [right; left; split; [by left|done]|].
  destruct (orderItemsData _ _) as [e|data].
  { right; right. split; [done|]. by eexists. }
  unfold transaction.
  destruct (checkout_tx _ _ _ _ _ _ _ _ _) as [e|[o db']] eqn:Htx.
  { right; right. split; [done|]. by eexists. }
  left. split; [done|].
  apply CheckoutProps.checkout_tx_inv in Htx
    as (t & created & tbl' & db2 & _ & _ & _ & Ho & Hdec & ->).
  apply CheckoutProps.decrement_loop_frame in Hdec as (Htables & Horders & _).
  split; [done|]. by eexists.
Qed.

(** *** Lines the lookup does not find *)

(** X11: a cart whose lines are well formed but reference a menu item that
    does not exist or is not available is refused with 400 [Some menu items
    are not available or do not exist]; [missing_items] holds exactly the
    cart ids that are missing or unavailable, of which there is at least
    one, and nothing is committed. *)
Theorem unavailable_items_are_listed (env : Env) (uid : string)
    (request : CheckoutRequest) (db : DB) :
  tableId request ≠ EmptyString →
  is_Some (tables db !! tableId request) →
  Forall well_formed (items request) →
  ¬ Forall (orderable db) (items request) →
  POST env (Some uid) request db
  = (json (MissingItemsBody "Some menu items are not available or do not exist"
             (unavailable_ids db (items request))) 400, db)
  ∧ unavailable_ids db (items request) ≠ []
  ∧ ∀ i, i ∈ unavailable_ids db (items request)
         ↔ (∃ item, item ∈ items request ∧ id item = i) ∧ available_in db i = false.
Proof.
  intros Htid [tbl Htbl] Hwf Hbad.
  assert (Hne : items request ≠ []).
  { intros Heq. apply Hbad. rewrite Heq. constructor. }
  assert (Hcount : length (menu_findMany (id <$> items request) db)
                   ≠ length (id <$> items request)).
  { intros Hlen. apply Hbad.
    destruct (CheckoutProps.findMany_full _ _ Hlen) as [_ Hav].
    apply Forall_forall. intros item Hin.
    pose proof (Hav (id item) (list_elem_of_fmap_2 id _ _ Hin)) as Ha.
    unfold available_in in Ha. unfold orderable.
    destruct (menus db !! id item) as [m|]; [eauto|discriminate]. }
  split; [|split].
  - unfold POST, POST_at.
    apply String.eqb_neq in Htid. rewrite Htid.
    rewrite (bool_decide_eq_false_2 (length (items request) = 0%nat))
      by (destruct (items request); [done|simpl; lia]).
    simpl. rewrite Htbl.
    rewrite (proj2 (CheckoutProps.invalidItems_nil _) Hwf). simpl.
    rewrite (CheckoutProps.menuIds_well_formed _ Hwf).
    rewrite (bool_decide_eq_false_2 (length (id <$> items request) = 0%nat))
      by (rewrite length_fmap; destruct (items request); [done|simpl; lia]).
    rewrite (bool_decide_eq_true_2 _ Hcount).
    by rewrite CheckoutProps.missingIds_unavailable.
  - intros Hnil. by apply Hbad, CheckoutProps.unavailable_ids_nil.
  - intros i. unfold unavailable_ids. rewrite list_elem_of_filter, list_elem_of_fmap.
    split.
    + intros [Ha (item & -> & Hin)]. split; [by exists item|done].
    + intros [(item & Hin & <-) Ha]. split; [done|by exists item].
Qed.

Lemma unavailable_items_are_listed_witness :
  POST Sample.env (Some "u1")
    (Sample.cart [Sample.line "m1" (1 # 1); Sample.line "zz" (1 # 1)]) Sample.db
  = (json (MissingItemsBody "Some menu items are not available or do not exist"
             (unavailable_ids Sample.db
                (items (Sample.cart [Sample.line "m1" (1 # 1);
                                     Sample.line "zz" (1 # 1)])))) 400, Sample.db)
  ∧ unavailable_ids Sample.db
      (items (Sample.cart [Sample.line "m1" (1 # 1); Sample.line "zz" (1 # 1)])) ≠ []
  ∧ ∀ i, i ∈ unavailable_ids Sample.db
               (items (Sample.cart [Sample.line "m1" (1 # 1);
                                    Sample.line "zz" (1 # 1)]))
         ↔ (∃ item, item ∈ items (Sample.cart [Sample.line "m1" (1 # 1);
                                               Sample.line "zz" (1 # 1)])
                    ∧ id item = i)
           ∧ available_in Sample.db i = false.
Proof.
  apply (unavailable_items_are_listed Sample.env "u1"
           (Sample.cart [Sample.line "m1" (1 # 1); Sample.line "zz" (1 # 1)])
           Sample.db).
  - discriminate.
  - by eexists.
  - repeat constructor; discriminate.
  - intros Hall. apply Forall_cons in Hall as [_ Hall].
    apply Forall_cons in Hall as [(m & Hm & _) _]. vm_compute in Hm. discriminate.
Defined.



(** *** The order number shown to the customer *)

Lemma length_substring (n m : nat) (s : string) :
  String.length (String.substring n m s) = Nat.min m (String.length s - n).
Proof.
  revert n m. induction s as [|c s IH]; intros [|n] [|m];
    cbn [String.substring String.length]; rewrite ?IH; lia.
Qed.

Lemma substring_all (m : nat) (s : string) :
  (String.length s ≤ m)%nat → String.substring 0 m s = s.
Proof.
  revert m. induction s as [|c s IH]; intros [|m] Hle; simpl in *; try done; try lia.
  f_equal. apply IH. lia.
Qed.

Lemma upper_char_not_lower (c : Ascii.ascii) : is_lower (Js.upper_char c) = false.
Proof. by destruct c as [[] [] [] [] [] [] [] []]. Qed.

Lemma upper_char_idemp (c : Ascii.ascii) :
  Js.upper_char (Js.upper_char c) = Js.upper_char c.
Proof. by destruct c as [[] [] [] [] [] [] [] []]. Qed.

Lemma length_toUpperCase (s : string) :
  String.length (Js.toUpperCase s) = String.length s.
Proof. induction s as [|c s IH]; simpl; [done|by rewrite IH]. Qed.

Lemma toUpperCase_idemp (s : string) :
  Js.toUpperCase (Js.toUpperCase s) = Js.toUpperCase s.
Proof. induction s as [|c s IH]; simpl; [done|by rewrite upper_char_idemp, IH]. Qed.

(** X13: the order number shown for an order id has as many characters as
    the id, and eight when the id is longer; it holds no lower-case
    letter; and taking the order number of an order number changes
    nothing. *)
Theorem order_number_shape (oid : string) :
  String.length (order_number oid) = Nat.min 8 (String.length oid)
  ∧ has_lower (order_number oid) = false
  ∧ order_number (order_number oid) = order_number oid.
Proof.
  unfold order_number, Js.slice_last. split_and!.
  - rewrite length_toUpperCase, length_substring. lia.
  - generalize (String.substring (String.length oid - 8) 8 oid) as s.
    induction s as [|c s IH]; simpl; [done|]. by rewrite upper_char_not_lower, IH.
  - set (s := String.substring (String.length oid - 8) 8 oid).
    assert (Hlen : (String.length (Js.toUpperCase s) ≤ 8)%nat).
    { rewrite length_toUpperCase. unfold s. rewrite length_substring. lia. }
    replace (String.length (Js.toUpperCase s) - 8)%nat with 0%nat by lia.
    by rewrite (substring_all _ _ Hlen), toUpperCase_idemp.
Qed.

(** *** Stock updates and checkouts together *)



End CheckoutMore.

(** ** Properties of the table routes *)

Module TablesProps.
Import Schema Tx TablesRoute Observe Observe2.




Lemma PUT_keeps (ops : StringOps) (i : string) (request : TableBody) (db : DB) :
  keeps_the_rest db (PUT ops i request db).2
  ∧ (status (PUT ops i request db).1 = 200 ∨ (PUT ops i request db).2 = db).
Proof.
  unfold PUT, keeps_the_rest. destruct (check_name ops request) as [e|n]; [by auto|].
  destruct (tables db !! i); simpl; auto.
Qed.

Lemma DELETE_keeps (i : string) (db : DB) :
  keeps_the_rest db (DELETE i db).2
  ∧ (status (DELETE i db).1 = 200 ∨ (DELETE i db).2 = db).
Proof.
  unfold DELETE, table_delete, keeps_the_rest.
  destruct (tables db !! i); [|by auto]. case_bool_decide; simpl; auto.
Qed.

Lemma POST_keeps (ops : StringOps) (env : Env) (request : TableBody) (db : DB) :
  keeps_the_rest db (POST ops env request db).2
  ∧ (status (POST ops env request db).1 = 201 ∨ (POST ops env request db).2 = db).
Proof.
  unfold POST, table_create, keeps_the_rest.
  destruct (check_name ops request) as [e|n]; [by auto|].
  destruct (tables db !! cuid env); simpl; auto.
Qed.

(** X16: the three writers of the table routes never touch menus, orders or
    the log, whatever they are sent; an update never adds or removes a
    table, and every request that is not answered 200 (201 for a creation)
    leaves the store exactly as it was. *)
Theorem table_routes_keep_the_rest (ops : StringOps) (env : Env) (i : string)
    (request : TableBody) (db : DB) :
  (keeps_the_rest db (PUT ops i request db).2
   ∧ (status (PUT ops i request db).1 = 200 ∨ (PUT ops i request db).2 = db))
  ∧ (keeps_the_rest db (DELETE i db).2
     ∧ (status (DELETE i db).1 = 200 ∨ (DELETE i db).2 = db))
  ∧ (keeps_the_rest db (POST ops env request db).2
     ∧ (status (POST ops env request db).1 = 201 ∨ (POST ops env request db).2 = db))
  ∧ dom (tables (PUT ops i request db).2) = dom (tables db).
Proof.
  split; [apply PUT_keeps|]. split; [apply DELETE_keeps|].
  split; [apply POST_keeps|].
  unfold PUT. destruct (check_name ops request) as [e|n]; [done|].
  destruct (tables db !! i) as [old|] eqn:Hi; [|done]. simpl.
  apply dom_insert_lookup_L. by eexists.
Qed.



(** X18: deleting a table that exists and that no order references answers
    200 and removes that row and no other: a read of it then answers 404,
    so does a second delete, and every other table reads as before. *)
Theorem deleted_table_is_gone (i : string) (old : Table) (db : DB) :
  tables db !! i = Some old →
  Forall (λ o, table_id o ≠ i) (orders db) →
  let r := DELETE i db in
  r.1 = json (MessageBody "Table deleted successfully") 200
  ∧ GET i r.2 = json (ErrorBody "Table not found") 404
  ∧ DELETE i r.2 = (json (ErrorBody "Table not found") 404, r.2)
  ∧ (∀ j, j ≠ i → GET j r.2 = GET j db).
Proof.
  intros Hi Hfree r. subst r. unfold DELETE, table_delete. rewrite Hi.
  rewrite bool_decide_eq_false_2.
  - simpl. unfold GET. simpl. rewrite lookup_delete_eq. split_and!; try done.
    intros j Hj. by rewrite lookup_delete_ne.
  - intros Hex. apply Exists_exists in Hex as (o & Ho & Heq).
    rewrite Forall_forall in Hfree. by apply (Hfree o).
Qed.

Lemma deleted_table_is_gone_witness :
  let r := DELETE "t1" Sample.db in
  r.1 = json (MessageBody "Table deleted successfully") 200
  ∧ GET "t1" r.2 = json (ErrorBody "Table not found") 404
  ∧ DELETE "t1" r.2 = (json (ErrorBody "Table not found") 404, r.2)
  ∧ (∀ j, j ≠ "t1" → GET j r.2 = GET j Sample.db).
Proof.
  apply (deleted_table_is_gone "t1" {| table_name := "Meja 1"; table_desc := None |}
           Sample.db).
  - vm_compute; reflexivity.
  - constructor.
Defined.

Lemma referenced_table_stays (i : string) (d : DB) :
  Exists (λ o, table_id o = i) (orders d) → is_Some (tables d !! i) →
  DELETE i d = (json (ErrorBody "Failed to delete table") 500, d).
Proof.
  intros Hex [t Ht]. unfold DELETE, table_delete. rewrite Ht.
  by rewrite bool_decide_eq_true_2.
Qed.

(** X19: a table that an order references cannot be deleted.  After a
    checkout that was answered 201, a delete of its table answers 500
    [Failed to delete table], the store is as the checkout left it, and the
    table still reads. *)
Theorem table_with_orders_stays (env : Env) (session : option string)
    (request : CheckoutRoute.CheckoutRequest) (seen db : DB) :
  CheckoutRoute.status (CheckoutRoute.POST_at env session request seen db).1 = 201 →
  let after := (CheckoutRoute.POST_at env session request seen db).2 in
  DELETE (CheckoutRoute.tableId request) after
  = (json (ErrorBody "Failed to delete table") 500, after)
  ∧ status (GET (CheckoutRoute.tableId request) after) = 200.
Proof.
  intros H201 after. subst after.
  apply CheckoutProps.POST_at_201 in H201
    as (uid & tbl & data & o & db' & -> & _ & _ & _ & Htx & ->). simpl.
  apply CheckoutProps.checkout_tx_inv in Htx
    as (t & created & tbl' & db2 & _ & _ & Htbl' & -> & Hdec & ->).
  apply CheckoutProps.decrement_loop_frame in Hdec as (Htables & Horders & _).
  split.
  - apply referenced_table_stays; simpl.
    + rewrite Horders. simpl. apply Exists_app. right. by left.
    + rewrite Htables. simpl. by eexists.
  - unfold GET. simpl. rewrite Htables. simpl. by rewrite Htbl'.
Qed.

Lemma table_with_orders_stays_witness :
  let after := (CheckoutRoute.POST_at Sample.env (Some "u1")
                  (Sample.cart [Sample.line "m1" (1 # 1)]) Sample.db Sample.db).2 in
  DELETE (CheckoutRoute.tableId (Sample.cart [Sample.line "m1" (1 # 1)])) after
  = (json (ErrorBody "Failed to delete table") 500, after)
  ∧ status (GET (CheckoutRoute.tableId (Sample.cart [Sample.line "m1" (1 # 1)])) after)
    = 200.
Proof.
  apply (table_with_orders_stays Sample.env (Some "u1")
           (Sample.cart [Sample.line "m1" (1 # 1)]) Sample.db Sample.db).
  vm_compute. reflexivity.
Defined.

(** X20: once a table is deleted, a checkout that names it is refused with
    400 [Invalid table selected], whatever its cart, and commits nothing. *)
Theorem checkout_after_delete_is_refused (env : Env) (uid i : string)
    (old : Table) (cart : list CheckoutRoute.OrderItem) (db : DB) :
  tables db !! i = Some old →
  Forall (λ o, table_id o ≠ i) (orders db) →
  i ≠ EmptyString → cart ≠ [] →
  let after := (DELETE i db).2 in
  CheckoutRoute.POST env (Some uid)
    {| CheckoutRoute.tableId := i; CheckoutRoute.items := cart |} after
  = (CheckoutRoute.json (CheckoutRoute.ErrorBody "Invalid table selected") 400, after).
Proof.
  intros Hi Hfree Hne Hcart after. subst after.
  unfold DELETE, table_delete. rewrite Hi.
  rewrite bool_decide_eq_false_2.
  - simpl. unfold CheckoutRoute.POST, CheckoutRoute.POST_at. simpl.
    apply String.eqb_neq in Hne. rewrite Hne.
    rewrite (bool_decide_eq_false_2 (length cart = 0%nat))
      by (destruct cart; [done|simpl; lia]).
    simpl. by rewrite lookup_delete_eq.
  - intros Hex. apply Exists_exists in Hex as (o & Ho & Heq).
    rewrite Forall_forall in Hfree. by apply (Hfree o).
Qed.

Lemma checkout_after_delete_is_refused_witness :
  let after := (DELETE "t1" Sample.db).2 in
  CheckoutRoute.POST Sample.env (Some "u1")
    {| CheckoutRoute.tableId := "t1";
       CheckoutRoute.items := [Sample.line "m1" (1 # 1)] |} after
  = (CheckoutRoute.json (CheckoutRoute.ErrorBody "Invalid table selected") 400, after).
Proof.
  apply (checkout_after_delete_is_refused Sample.env "u1" "t1"
           {| table_name := "Meja 1"; table_desc := None |}
           [Sample.line "m1" (1 # 1)] Sample.db).
  - vm_compute; reflexivity.
  - constructor.
  - discriminate.
  - discriminate.
Defined.



End TablesProps.
